(** * VortexL2: tunnel and port-forward lifecycle

    A shallow embedding of [vortexl2/forward.py] (the command executor and
    [ForwardManager]) and of the two coordinator flows of [vortexl2/main.py]
    ([cmd_apply] and [handle_stop_tunnel]).

    The host (processes, file system, the tunnel controller, the operator at
    the console) is an interface; every function is a state transformer over
    the host and a store of configuration objects, and returns the events it
    caused in program order. *)

From Stdlib Require Import String Ascii ZArith List Bool Lia DecimalString.
Import ListNotations.

Local Open Scope string_scope.
Local Open Scope list_scope.
Local Open Scope Z_scope.

(** String concatenation, as [+] on Python strings. *)
Infix "+++" := String.append (right associativity, at level 60).

(* ===================================================================== *)
(** ** Python strings *)
(* ===================================================================== *)

Module PyStr.

Definition nl : string := String (ascii_of_nat 10) "".

(** [str.isspace] on the code points below 256. *)
Definition is_space (c : ascii) : bool :=
  let n := nat_of_ascii c in
  ((9 <=? n) && (n <=? 13))%nat || ((28 <=? n) && (n <=? 32))%nat
  || (n =? 133)%nat || (n =? 160)%nat.

Definition is_blank (s : string) : bool :=
  match s with "" => true | _ => false end.

Fixpoint lstrip (s : string) : string :=
  match s with
  | "" => ""
  | String c r => if is_space c then lstrip r else s
  end.

Fixpoint rstrip (s : string) : string :=
  match s with
  | "" => ""
  | String c r =>
      let r' := rstrip r in
      if is_space c && is_blank r' then "" else String c r'
  end.

(** [s.strip()] *)
Definition strip (s : string) : string := rstrip (lstrip s).

(** [s.split(sep)] for a one-character separator; never the empty list. *)
Fixpoint split (sep : ascii) (s : string) : list string :=
  match s with
  | "" => [""]
  | String c r =>
      if Ascii.eqb c sep then "" :: split sep r
      else match split sep r with
           | h :: t => String c h :: t
           | [] => [String c ""]
           end
  end.

(** [sep.join(l)] *)
Definition join (sep : string) (l : list string) : string :=
  String.concat sep l.

(** [a or b] on strings: the first one unless it is empty. *)
Definition or_else (a b : string) : string :=
  if is_blank a then b else a.

(** [str(n)] for an [int]. *)
Definition str_of_int (n : Z) : string :=
  NilZero.string_of_int (Z.to_int n).

Definition digit_value (c : ascii) : option Z :=
  let n := nat_of_ascii c in
  if ((48 <=? n) && (n <=? 57))%nat then Some (Z.of_nat n - 48) else None.

(** The digit part of a base-10 literal: decimal digits, with single
    underscores allowed between two digits.  [prev] tells whether the
    previous character was a digit. *)
Fixpoint parse_digits (acc : Z) (prev : bool) (s : string) : option Z :=
  match s with
  | "" => if prev then Some acc else None
  | String c r =>
      match digit_value c with
      | Some d => parse_digits (10 * acc + d) true r
      | None =>
          if Ascii.eqb c "_" && prev then parse_digits acc false r else None
      end
  end.

(** [int(s)]: [None] stands for [ValueError].  Surrounding white space
    is ignored, then an optional sign and the digits.  Characters are
    code points below 256, where the decimal digits are 0 to 9. *)
Definition int_of_str (s : string) : option Z :=
  match strip s with
  | String "+" r => parse_digits 0 false r
  | String "-" r => option_map Z.opp (parse_digits 0 false r)
  | t => parse_digits 0 false t
  end.

End PyStr.

(* ===================================================================== *)
(** ** Configuration objects *)
(* ===================================================================== *)

Module Config.

(** Modelled from the spec: [vortexl2/config.py] is not part of the
    sources at hand.  The record has the fields of TunnelEndpointConfig;
    an absent field is [None]. *)
Record TunnelConfig : Type := mkTunnelConfig {
  name : string;
  local_ip : option string;
  remote_ip : option string;
  interface_name : string;
  interface_ip : option string;
  tunnel_id : option Z;
  peer_tunnel_id : option Z;
  session_id : option Z;
  peer_session_id : option Z;
  remote_forward_ip : option string;
  forwarded_ports : list Z
}.

Definition str_truthy (o : option string) : bool :=
  match o with
  | Some s => negb (PyStr.is_blank s)
  | None => false
  end.

Definition int_truthy (o : option Z) : bool :=
  match o with
  | Some n => negb (n =? 0)
  | None => false
  end.

(** Modelled from the spec: [is_configured] holds iff local address,
    remote address and all four identifiers are present and non-zero. *)
Definition is_configured (c : TunnelConfig) : bool :=
  str_truthy (local_ip c) && str_truthy (remote_ip c)
  && int_truthy (tunnel_id c) && int_truthy (peer_tunnel_id c)
  && int_truthy (session_id c) && int_truthy (peer_session_id c).

Definition with_ports (c : TunnelConfig) (ports : list Z) : TunnelConfig :=
  mkTunnelConfig (name c) (local_ip c) (remote_ip c) (interface_name c)
    (interface_ip c) (tunnel_id c) (peer_tunnel_id c) (session_id c)
    (peer_session_id c) (remote_forward_ip c) ports.

Definition with_remote_forward_ip (c : TunnelConfig) (ip : option string)
  : TunnelConfig :=
  mkTunnelConfig (name c) (local_ip c) (remote_ip c) (interface_name c)
    (interface_ip c) (tunnel_id c) (peer_tunnel_id c) (session_id c)
    (peer_session_id c) ip (forwarded_ports c).

Definition has_port (p : Z) (ports : list Z) : bool :=
  existsb (Z.eqb p) ports.

(** Modelled from the spec: [add_port] registers a port in the port set;
    re-adding a registered port changes nothing. *)
Definition add_port (c : TunnelConfig) (p : Z) : TunnelConfig :=
  if has_port p (forwarded_ports c) then c
  else with_ports c (forwarded_ports c ++ [p]).

(** Modelled from the spec: [remove_port] unregisters a port from the
    port set; removing an unregistered port changes nothing. *)
Definition remove_port (c : TunnelConfig) (p : Z) : TunnelConfig :=
  with_ports c (filter (fun q => negb (q =? p)) (forwarded_ports c)).

End Config.

Import Config.

(* ===================================================================== *)
(** ** The host and the effect monad *)
(* ===================================================================== *)

(** A reference to a configuration object.  [ForwardManager(config)] and
    [TunnelManager(config)] keep the reference, not a copy. *)
Definition Ref : Type := nat.

(** What [subprocess.run(..., capture_output=True, text=True)] gives back. *)
Record Completed : Type := mkCompleted {
  returncode : Z;
  stdout : string;
  stderr : string
}.

(** The outcome of a call that may raise an [Exception]; the text is
    [str(e)]. *)
Inductive PyResult (A : Type) : Type :=
| Returned (a : A)
| Raised (e : string).
Arguments Returned {A} a.
Arguments Raised {A} e.

Inductive UiCall : Type :=
| ShowBanner (current : option Ref)
| ShowError (message : string)
| ShowInfo (message : string)
| ShowSuccess (message : string)
| ShowOutput (output title : string)
| WaitForEnter
| Confirm (message : string) (answer : bool).

(** A completed interaction with the host, with its outcome. *)
Inductive Event : Type :=
| EvRun (cmd : string) (success : bool)
| EvWrite (path content : string) (written : bool)
| EvSetup (config : Ref) (success : bool)
| EvTeardown (config : Ref)
| EvPrint (line : string)
| EvUi (call : UiCall).

(** The host interface.  [tunnel_full_setup] and [tunnel_full_teardown]
    stand for [TunnelManager.full_setup] and [TunnelManager.full_teardown]
    of [vortexl2/tunnel.py], which is not part of the sources at hand: the
    coordinator only uses their [(success, msg)] result. *)
Class HostOps (H : Type) : Type := {
  subprocess_run : string -> H -> PyResult Completed * H;
  path_exists : string -> H -> bool;
  write_file : string -> string -> H -> PyResult unit * H;
  tunnel_full_setup : TunnelConfig -> H -> (bool * string) * H;
  tunnel_full_teardown : TunnelConfig -> H -> (bool * string) * H;
  ui_confirm : string -> H -> bool * H
}.

Record World (H : Type) : Type := mkWorld {
  heap : Ref -> TunnelConfig;
  host : H
}.
Arguments mkWorld {H} heap host.
Arguments heap {H} w r.
Arguments host {H} w.

(** A computation returns or raises, and gives the events it caused and
    the world it leaves. *)
Definition M (H A : Type) : Type :=
  World H -> PyResult A * list Event * World H.

Definition ret {H A} (a : A) : M H A := fun w => (Returned a, [], w).

Definition bind {H A B} (m : M H A) (f : A -> M H B) : M H B :=
  fun w =>
    match m w with
    | (Returned a, e1, w1) =>
        let '(b, e2, w2) := f a w1 in (b, e1 ++ e2, w2)
    | (Raised e, e1, w1) => (Raised e, e1, w1)
    end.

(** [try: m  except Exception as e: handler e] *)
Definition try_except {H A} (m : M H A) (handler : string -> M H A) : M H A :=
  fun w =>
    match m w with
    | (Returned a, e1, w1) => (Returned a, e1, w1)
    | (Raised e, e1, w1) =>
        let '(b, e2, w2) := handler e w1 in (b, e1 ++ e2, w2)
    end.

Declare Scope py_scope.
Delimit Scope py_scope with py.
Notation "x <- m ;; k" := (bind m (fun x => k))
  (at level 61, m at next level, right associativity) : py_scope.
Notation "' p <- m ;; k" := (bind m (fun x => let p := x in k))
  (at level 61, p pattern, m at next level, right associativity) : py_scope.
Notation "m ;; k" := (bind m (fun _ => k))
  (at level 61, right associativity) : py_scope.
Local Open Scope py_scope.

Definition value {H A} (r : PyResult A * list Event * World H) : PyResult A :=
  fst (fst r).
Definition events {H A} (r : PyResult A * list Event * World H)
  : list Event := snd (fst r).
Definition world {H A} (r : PyResult A * list Event * World H) : World H :=
  snd r.

(** The result [r] of a continuation, after the events [e1]. *)
Definition prepend {H A} (e1 : list Event)
    (r : PyResult A * list Event * World H)
  : PyResult A * list Event * World H :=
  (value r, e1 ++ events r, world r).

Definition emit {H} (e : Event) : M H unit :=
  fun w => (Returned tt, [e], w).

(** A host operation that returns. *)
Definition lift_host {H A} (op : H -> A * H) : M H A :=
  fun w => let '(a, h) := op (host w) in (Returned a, [], mkWorld (heap w) h).

Definition read_config {H} (r : Ref) : M H TunnelConfig :=
  fun w => (Returned (heap w r), [], w).

Definition update {H} (r : Ref) (c : TunnelConfig) (w : World H) : World H :=
  mkWorld (fun r' => if Nat.eqb r' r then c else heap w r') (host w).

Definition write_config {H} (r : Ref) (c : TunnelConfig) : M H unit :=
  fun w => (Returned tt, [], update r c w).

(** Whether a process ran to completion with exit code zero. *)
Definition exited_zero (r : PyResult Completed) : bool :=
  match r with
  | Returned result => returncode result =? 0
  | Raised _ => false
  end.

Definition has_returned {A} (r : PyResult A) : bool :=
  match r with
  | Returned _ => true
  | Raised _ => false
  end.

(** [subprocess.run(cmd, shell=True, capture_output=True, text=True,
    timeout=30)] *)
Definition subprocess {H} `{HostOps H} (cmd : string) : M H Completed :=
  fun w =>
    let '(r, h) := subprocess_run cmd (host w) in
    (r, [EvRun cmd (exited_zero r)], mkWorld (heap w) h).

(** [with open(path, 'w') as f: f.write(content)] *)
Definition open_write {H} `{HostOps H} (path content : string) : M H unit :=
  fun w =>
    let '(r, h) := write_file path content (host w) in
    (r, [EvWrite path content (has_returned r)], mkWorld (heap w) h).

(** The commands among a list of events, in order. *)
Fixpoint commands (evs : list Event) : list string :=
  match evs with
  | [] => []
  | EvRun cmd _ :: rest => cmd :: commands rest
  | _ :: rest => commands rest
  end.

(* ===================================================================== *)
(** ** [vortexl2/forward.py] *)
(* ===================================================================== *)

Module Forward.
Import PyStr.

Definition SYSTEMD_DIR : string := "/etc/systemd/system".
Definition SERVICE_PREFIX : string := "vortexl2-forward@".

(** [FORWARD_TEMPLATE.format(remote_ip=remote_ip)] *)
Definition FORWARD_TEMPLATE (remote_ip : string) : string :=
  "[Unit]" +++ nl +++
  "Description=VortexL2 Port Forward - Port %i" +++ nl +++
  "After=network.target vortexl2-tunnel.service" +++ nl +++
  "Requires=network.target" +++ nl +++
  nl +++
  "[Service]" +++ nl +++
  "Type=simple" +++ nl +++
  "ExecStart=/usr/bin/socat TCP4-LISTEN:%i,reuseaddr,fork TCP4:"
    +++ remote_ip +++ ":%i" +++ nl +++
  "Restart=always" +++ nl +++
  "RestartSec=5" +++ nl +++
  nl +++
  "[Install]" +++ nl +++
  "WantedBy=multi-user.target" +++ nl.

Definition _get_service_name (port : Z) : string :=
  SERVICE_PREFIX +++ str_of_int port +++ ".service".

Definition _get_template_path : string :=
  SYSTEMD_DIR +++ "/" +++ SERVICE_PREFIX +++ ".service".

(** The [(bool, str)] a bulk operation returns from its [results]. *)
Definition report (results : list string) : bool * string :=
  match results with
  | [] => (true, "No port forwards configured")
  | _ => (true, join nl results)
  end.

(** [[p.strip() for p in ports_str.split(',') if p.strip()]] *)
Definition port_tokens (ports_str : string) : list string :=
  filter (fun p => negb (is_blank p)) (map strip (split "," ports_str)).

Section WithHost.
Context {H : Type} {HO : HostOps H}.

(** A [for] loop over [l] whose body updates the local variable [acc]. *)
Fixpoint for_in {A S : Type} (l : list A) (body : A -> S -> M H S) (acc : S)
  : M H S :=
  match l with
  | [] => ret acc
  | x :: rest => acc' <- body x acc ;; for_in rest body acc'
  end.

Definition run_command (cmd : string) : M H (bool * string) :=
  try_except
    (result <- subprocess cmd ;;
     let output := or_else (strip (stdout result)) (strip (stderr result)) in
     ret (returncode result =? 0, output))
    (fun e => ret (false, e)).

Definition install_template (self : Ref) : M H (bool * string) :=
  config <- read_config self ;;
  match remote_forward_ip config with
  | None | Some "" => ret (false, "Remote forward IP not configured")
  | Some remote_ip =>
      let template_path := _get_template_path in
      let template_content := FORWARD_TEMPLATE remote_ip in
      try_except
        (open_write template_path template_content ;;
         run_command "systemctl daemon-reload" ;;
         ret (true, "Template installed at " +++ template_path))
        (fun e => ret (false, "Failed to install template: " +++ e))
  end.

Definition update_template (self : Ref) (remote_ip : option string)
  : M H (bool * string) :=
  (if str_truthy remote_ip then
     config <- read_config self ;;
     write_config self (with_remote_forward_ip config remote_ip)
   else ret tt) ;;
  install_template self.

Definition create_forward (self : Ref) (port : Z) : M H (bool * string) :=
  present <- lift_host (fun h => (path_exists _get_template_path h, h)) ;;
  ' (success, msg) <-
    (if negb present then install_template self else ret (true, "")) ;;
  if negb success then ret (false, "Failed to install template: " +++ msg)
  else
    let service_name := _get_service_name port in
    ' (success, output) <-
      run_command ("systemctl enable --now " +++ service_name) ;;
    if negb success then
      ret (false, "Failed to create forward for port " +++ str_of_int port
                  +++ ": " +++ output)
    else
      config <- read_config self ;;
      write_config self (add_port config port) ;;
      ret (true, "Port forward for " +++ str_of_int port
                 +++ " created and started").

Definition remove_forward (self : Ref) (port : Z) : M H (bool * string) :=
  let service_name := _get_service_name port in
  run_command ("systemctl stop " +++ service_name) ;;
  run_command ("systemctl disable " +++ service_name) ;;
  config <- read_config self ;;
  write_config self (remove_port config port) ;;
  ret (true, "Port forward for " +++ str_of_int port +++ " removed").

Definition add_one (self : Ref) (port_str : string) (results : list string)
  : M H (list string) :=
  match int_of_str port_str with
  | Some port =>
      if (port <? 1) || (port >? 65535) then
        ret (results ++ ["Port " +++ str_of_int port
                         +++ ": Invalid port number"])
      else
        ' (success, msg) <- create_forward self port ;;
        ret (results ++ ["Port " +++ str_of_int port +++ ": " +++ msg])
  | None => ret (results ++ ["'" +++ port_str +++ "': Invalid port number"])
  end.

Definition add_multiple_forwards (self : Ref) (ports_str : string)
  : M H (bool * string) :=
  results <- for_in (port_tokens ports_str) (add_one self) [] ;;
  ret (true, join nl results).

Definition remove_one (self : Ref) (port_str : string) (results : list string)
  : M H (list string) :=
  match int_of_str port_str with
  | Some port =>
      ' (success, msg) <- remove_forward self port ;;
      ret (results ++ ["Port " +++ str_of_int port +++ ": " +++ msg])
  | None => ret (results ++ ["'" +++ port_str +++ "': Invalid port number"])
  end.

Definition remove_multiple_forwards (self : Ref) (ports_str : string)
  : M H (bool * string) :=
  results <- for_in (port_tokens ports_str) (remove_one self) [] ;;
  ret (true, join nl results).

Definition restart_forward (self : Ref) (port : Z) : M H (bool * string) :=
  let service_name := _get_service_name port in
  ' (success, output) <- run_command ("systemctl restart " +++ service_name) ;;
  if negb success then
    ret (false, "Failed to restart port " +++ str_of_int port
                +++ ": " +++ output)
  else ret (true, "Port forward for " +++ str_of_int port +++ " restarted").

Definition restart_one (self : Ref) (port : Z) (results : list string)
  : M H (list string) :=
  ' (success, msg) <- restart_forward self port ;;
  ret (results ++ ["Port " +++ str_of_int port +++ ": " +++ msg]).

Definition restart_all_forwards (self : Ref) : M H (bool * string) :=
  config <- read_config self ;;
  results <- for_in (forwarded_ports config) (restart_one self) [] ;;
  ret (report results).

Definition stop_one (port : Z) (results : list string) : M H (list string) :=
  let service_name := _get_service_name port in
  ' (success, output) <- run_command ("systemctl stop " +++ service_name) ;;
  let status := if success then "stopped" else "failed: " +++ output in
  ret (results ++ ["Port " +++ str_of_int port +++ ": " +++ status]).

Definition stop_all_forwards (self : Ref) : M H (bool * string) :=
  config <- read_config self ;;
  results <- for_in (forwarded_ports config) stop_one [] ;;
  ret (report results).

Definition start_one (port : Z) (results : list string) : M H (list string) :=
  let service_name := _get_service_name port in
  ' (success, output) <- run_command ("systemctl start " +++ service_name) ;;
  let status := if success then "started" else "failed: " +++ output in
  ret (results ++ ["Port " +++ str_of_int port +++ ": " +++ status]).

Definition start_all_forwards (self : Ref) : M H (bool * string) :=
  config <- read_config self ;;
  results <- for_in (forwarded_ports config) start_one [] ;;
  ret (report results).

End WithHost.
End Forward.

(* ===================================================================== *)
(** ** [vortexl2/main.py] *)
(* ===================================================================== *)

Module Main.
Import PyStr Forward.

Section WithHost.
Context {H : Type} {HO : HostOps H}.

Definition print (line : string) : M H unit := emit (EvPrint line).

Definition ui (call : UiCall) : M H unit := emit (EvUi call).


(** [TunnelManager(config).full_setup()] *)
Definition full_setup (config : Ref) : M H (bool * string) :=
  c <- read_config config ;;
  r <- lift_host (tunnel_full_setup c) ;;
  emit (EvSetup config (fst r)) ;;
  ret r.


(** One round of the loop of [cmd_apply]; [errors] is its counter. *)
Definition apply_one (config : Ref) (errors : Z) : M H Z :=
  c <- read_config config ;;
  if negb (is_configured c) then
    print ("VortexL2: Tunnel '" +++ name c
           +++ "' not fully configured, skipping") ;;
    ret errors
  else
    ' (success, msg) <- full_setup config ;;
    print ("Tunnel '" +++ name c +++ "': " +++ msg) ;;
    if negb success then ret (errors + 1)
    else
      c <- read_config config ;;
      match forwarded_ports c with
      | [] => ret errors
      | _ =>
          ' (success, msg) <- install_template config ;;
          print ("Forward template: " +++ msg) ;;
          ' (success, msg) <- start_all_forwards config ;;
          print ("Port forwards: " +++ msg) ;;
          ret errors
      end.

(** [tunnels] is what [ConfigManager().get_all_tunnels()] returned. *)
Definition cmd_apply (tunnels : list Ref) : M H Z :=
  match tunnels with
  | [] =>
      print "VortexL2: No tunnels configured, skipping" ;;
      ret 0
  | _ =>
      errors <- for_in tunnels apply_one 0 ;;
      ret (if errors >? 0 then 1 else 0)
  end.


End WithHost.
End Main.

(* ===================================================================== *)
(** ** A scripted host *)
(* ===================================================================== *)

(** A fake executor: the host state counts the commands run so far, and
    the script says how the n-th command ends. *)
Record Script : Type := mkScript {
  on_run : nat -> string -> PyResult Completed;
  template_present : bool;
  on_write : PyResult unit;
  on_setup : TunnelConfig -> bool * string;
  on_teardown : TunnelConfig -> bool * string;
  on_confirm : bool
}.

Definition scripted (s : Script) : HostOps nat := {|
  subprocess_run cmd n := (on_run s n cmd, S n);
  path_exists _ _ := template_present s;
  write_file _ _ n := (on_write s, n);
  tunnel_full_setup c n := (on_setup s c, n);
  tunnel_full_teardown c n := (on_teardown s c, n);
  ui_confirm _ n := (on_confirm s, n)
|}.

Definition exit_ok : PyResult Completed := Returned (mkCompleted 0 "" "").

Definition exit_failed (err : string) : PyResult Completed :=
  Returned (mkCompleted 1 "" err).

Definition empty_config (n : string) : TunnelConfig :=
  mkTunnelConfig n None None ("l2tpeth-" +++ n) None None None None None
    None [].

Definition ready_config (n : string) (ports : list Z) : TunnelConfig :=
  mkTunnelConfig n (Some "1.2.3.4") (Some "5.6.7.8") ("l2tpeth-" +++ n)
    (Some "10.30.30.1/30") (Some 10) (Some 20) (Some 30) (Some 40)
    (Some "10.30.30.2") ports.

(** Every command succeeds, the template is in place, setup succeeds. *)
Definition happy : Script :=
  mkScript (fun _ _ => exit_ok) true (Returned tt)
    (fun _ => (true, "Tunnel setup complete"))
    (fun _ => (true, "Tunnel removed")) true.

(** Every command exits with status 1. *)
Definition failing : Script :=
  mkScript (fun _ _ => exit_failed "Failed to start unit") true (Returned tt)
    (fun _ => (true, "Tunnel setup complete"))
    (fun _ => (true, "Tunnel removed")) true.

(** The first command succeeds, every later one fails. *)
Definition first_only : Script :=
  mkScript (fun n _ => match n with O => exit_ok | _ => exit_failed "busy" end)
    true (Returned tt)
    (fun _ => (true, "Tunnel setup complete"))
    (fun _ => (true, "Tunnel removed")) true.

Definition one_config (c : TunnelConfig) : World nat :=
  mkWorld (fun _ => c) O.

(** The world after a first, successful [create_forward 80] on a host
    where only the first command succeeds. *)
Definition after_first_create : World nat :=
  world (@Forward.create_forward nat (scripted first_only) O 80
           (one_config (ready_config "tunnel1" []))).

(** A configured tunnel with port 80 registered, at boot. *)
Definition boot_world : World nat :=
  one_config (ready_config "tunnel1" [80]).

(** An unconfigured tunnel at reference 0, a configured one with port 80
    everywhere else. *)
Definition mixed_world : World nat :=
  mkWorld (fun r => match r with
                    | O => empty_config "tunnel0"
                    | _ => ready_config "tunnel1" [80]
                    end) O.

(** The tunnel cannot be set up. *)
Definition setup_fails : Script :=
  mkScript (fun _ _ => exit_ok) true (Returned tt)
    (fun _ => (false, "Failed to create tunnel"))
    (fun _ => (true, "Tunnel removed")) true.

(** The template directory cannot be written. *)
Definition read_only : Script :=
  mkScript (fun _ _ => exit_ok) false (Raised "Read-only file system")
    (fun _ => (true, "Tunnel setup complete"))
    (fun _ => (true, "Tunnel removed")) true.

(** Every command exits with status 1 and two lines on standard error,
    as the service manager does for a unit that fails to start. *)
Definition two_line_failure : Script :=
  mkScript
    (fun _ _ => exit_failed ("Job for the unit failed." +++ PyStr.nl +++
                             "See journalctl -xe for details."))
    true (Returned tt)
    (fun _ => (true, "Tunnel setup complete"))
    (fun _ => (true, "Tunnel removed")) true.

(* ===================================================================== *)
(** ** Vocabulary of the statements *)
(* ===================================================================== *)

Import PyStr Forward Main.

(** What [run_command] makes of the outcome of [subprocess.run]. *)
Definition run_outcome (r : PyResult Completed) : bool * string :=
  match r with
  | Returned result =>
      (returncode result =? 0,
       or_else (strip (stdout result)) (strip (stderr result)))
  | Raised e => (false, e)
  end.

Definition first_space (s : string) : bool :=
  match s with
  | "" => false
  | String c _ => is_space c
  end.

Fixpoint last_space (s : string) : bool :=
  match s with
  | "" => false
  | String c "" => is_space c
  | String _ r => last_space r
  end.

Fixpoint all_space (s : string) : bool :=
  match s with
  | "" => true
  | String c r => is_space c && all_space r
  end.

Definition enable_cmd (port : Z) : string :=
  "systemctl enable --now " +++ _get_service_name port.
Definition stop_cmd (port : Z) : string :=
  "systemctl stop " +++ _get_service_name port.
Definition disable_cmd (port : Z) : string :=
  "systemctl disable " +++ _get_service_name port.
Definition start_cmd (port : Z) : string :=
  "systemctl start " +++ _get_service_name port.
Definition restart_cmd (port : Z) : string :=
  "systemctl restart " +++ _get_service_name port.

Definition in_range (port : Z) : bool := negb ((port <? 1) || (port >? 65535)).

(** The lines of a report: [text.split("\n")]. *)
Definition report_lines (text : string) : list string :=
  split (ascii_of_nat 10) text.

(** How often the character [c] occurs in [s]. *)
Fixpoint count_char (c : ascii) (s : string) : nat :=
  match s with
  | "" => O
  | String d r => ((if Ascii.eqb d c then 1 else 0) + count_char c r)%nat
  end.

(** The line breaks inside the entries of a report. *)
Definition inner_breaks (entries : list string) : nat :=
  list_sum (map (count_char (ascii_of_nat 10)) entries).

(** A report line for a port: ["Port <p>: <outcome>"]. *)
Definition port_line (port : Z) (outcome : string) : string :=
  "Port " +++ str_of_int port +++ ": " +++ outcome.

(** A report line for a token that is not an integer. *)
Definition invalid_line (token : string) : string :=
  "'" +++ token +++ "': Invalid port number".

(** The events [install_template] can cause. *)
Definition template_event (e : Event) : Prop :=
  match e with
  | EvWrite _ _ _ => True
  | EvRun cmd _ => cmd = "systemctl daemon-reload"
  | _ => False
  end.

(** A loop that, for each element of a list in order, adds one report
    line, causes some events and moves the world on;
    [P x w line evs w1] describes one round. *)
Inductive Steps {H A : Type}
    (P : A -> World H -> string -> list Event -> World H -> Prop)
  : list A -> World H -> list string -> list Event -> World H -> Prop :=
| Steps_nil (w : World H) : Steps P [] w [] [] w
| Steps_cons (x : A) (l : list A) (w w1 w2 : World H) (line : string)
    (lines : list string) (e es : list Event) :
    P x w line e w1 -> Steps P l w1 lines es w2 ->
    Steps P (x :: l) w (line :: lines) (e ++ es) w2.

(** One round of a bulk operation: one command, a line for the port, and
    every configuration as it was. *)
Definition bulk_round {H : Type} (cmd : Z -> string) (port : Z) (w : World H)
    (line : string) (evs : list Event) (w1 : World H) : Prop :=
  exists ok outcome,
    evs = [EvRun (cmd port) ok] /\ line = port_line port outcome /\
    heap w1 = heap w.

(** What a bulk operation over [ports] with one command per port gives. *)
Definition bulk_result {H : Type} (cmd : Z -> string) (ports : list Z)
    (w : World H) (r : PyResult (bool * string) * list Event * World H)
  : Prop :=
  exists lines,
    value r = Returned (report lines) /\
    Steps (bulk_round cmd) ports w lines (events r) (world r).

(** One round of [add_multiple_forwards]: a token that is no integer or is
    out of range only adds its line; any other is handed to
    [create_forward]. *)
Definition add_round {H : Type} `{HostOps H} (self : Ref) (token : string)
    (w : World H) (line : string) (evs : list Event) (w1 : World H) : Prop :=
  match int_of_str token with
  | None => line = invalid_line token /\ evs = [] /\ w1 = w
  | Some port =>
      if in_range port then
        exists ok msg,
          create_forward self port w = (Returned (ok, msg), evs, w1) /\
          line = port_line port msg
      else line = port_line port "Invalid port number" /\ evs = [] /\ w1 = w
  end.

(** One round of [remove_multiple_forwards]. *)
Definition remove_round {H : Type} `{HostOps H} (self : Ref) (token : string)
    (w : World H) (line : string) (evs : list Event) (w1 : World H) : Prop :=
  match int_of_str token with
  | None => line = invalid_line token /\ evs = [] /\ w1 = w
  | Some port =>
      exists ok msg,
        remove_forward self port w = (Returned (ok, msg), evs, w1) /\
        line = port_line port msg
  end.

(** The line of a token in a report. *)
Definition token_line (token line : string) : Prop :=
  match int_of_str token with
  | None => line = invalid_line token
  | Some port => exists outcome, line = port_line port outcome
  end.


(** A loop with a local variable of any type; [P x s w s' evs w1]
    describes one round. *)
Inductive Rounds {H A S : Type}
    (P : A -> S -> World H -> S -> list Event -> World H -> Prop)
  : list A -> S -> World H -> S -> list Event -> World H -> Prop :=
| Rounds_nil (s : S) (w : World H) : Rounds P [] s w s [] w
| Rounds_cons (x : A) (l : list A) (s s1 s2 : S) (w w1 w2 : World H)
    (e es : list Event) :
    P x s w s1 e w1 -> Rounds P l s1 w1 s2 es w2 ->
    Rounds P (x :: l) s w s2 (e ++ es) w2.

(** The tunnel setups among a list of events, with their outcomes. *)
Fixpoint setups (evs : list Event) : list (Ref * bool) :=
  match evs with
  | [] => []
  | EvSetup t ok :: rest => (t, ok) :: setups rest
  | _ :: rest => setups rest
  end.

Definition failed (s : Ref * bool) : bool := negb (snd s).

(** What follows a successful setup of a tunnel with registered ports:
    the setup line, a template install of that tunnel (whatever it
    returns), its line, the start command of every registered port, and
    the line of the forwards. *)
Definition forwards_started {H : Type} `{HostOps H} (t : Ref)
    (hp : Ref -> TunnelConfig) (post : list Event) : Prop :=
  exists m1 w0 tok tmsg tmpl w1 started m3 later,
    post = EvPrint m1 :: tmpl ++ EvPrint ("Forward template: " +++ tmsg)
                     :: started ++ EvPrint m3 :: later /\
    heap w0 = hp /\
    install_template t w0 = (Returned (tok, tmsg), tmpl, w1) /\
    commands started = map start_cmd (forwarded_ports (hp t)).

(** One round of the loop of [cmd_apply]. *)
Definition apply_round {H : Type} `{HostOps H} (t : Ref) (errors : Z)
    (w : World H) (errors' : Z) (evs : list Event) (w1 : World H) : Prop :=
  heap w1 = heap w /\
  if is_configured (heap w t) then
    exists ok rest,
      evs = EvSetup t ok :: rest /\ setups rest = [] /\
      errors' = (if ok then errors else errors + 1) /\
      (ok = true -> forwarded_ports (heap w t) <> [] ->
       forwards_started t (heap w) rest)
  else errors' = errors /\ setups evs = [].


Definition is_run (e : Event) : bool :=
  match e with EvRun _ _ => true | _ => false end.

Definition is_teardown (e : Event) : bool :=
  match e with EvTeardown _ => true | _ => false end.

(* ===================================================================== *)
(** ** More vocabulary: batches, templates, rendered numbers *)
(* ===================================================================== *)

From Stdlib Require DecimalZ DecimalPos.

(** The report line of [remove_multiple_forwards] for a token. *)
Definition remove_line (token : string) : string :=
  match int_of_str token with
  | Some port =>
      port_line port ("Port forward for " +++ str_of_int port +++ " removed")
  | None => invalid_line token
  end.

(** The commands [remove_multiple_forwards] runs for a token. *)
Definition remove_cmds (token : string) : list string :=
  match int_of_str token with
  | Some port => [stop_cmd port; disable_cmd port]
  | None => []
  end.

(** A token [add_multiple_forwards] turns down: no integer, or an integer
    outside 1..65535. *)
Definition rejected (token : string) : bool :=
  match int_of_str token with
  | Some port => negb (in_range port)
  | None => true
  end.

Definition rejected_line (token : string) : string :=
  match int_of_str token with
  | Some port => port_line port "Invalid port number"
  | None => invalid_line token
  end.

(** Whether the character [c] occurs in [s]. *)
Fixpoint occurs (c : ascii) (s : string) : bool :=
  match s with
  | "" => false
  | String d r => Ascii.eqb d c || occurs c r
  end.

(** The outcome of one command of a bulk operation. *)
Record Outcome : Type := mkOutcome {
  o_port : Z;
  o_success : bool;
  o_output : string
}.

Definition stop_line (o : Outcome) : string :=
  port_line (o_port o)
    (if o_success o then "stopped" else "failed: " +++ o_output o).

Definition start_line (o : Outcome) : string :=
  port_line (o_port o)
    (if o_success o then "started" else "failed: " +++ o_output o).

Definition restart_line (o : Outcome) : string :=
  port_line (o_port o)
    (if o_success o
     then "Port forward for " +++ str_of_int (o_port o) +++ " restarted"
     else "Failed to restart port " +++ str_of_int (o_port o)
          +++ ": " +++ o_output o).

Definition outcome_event (cmd : Z -> string) (o : Outcome) : Event :=
  EvRun (cmd (o_port o)) (o_success o).

(** One round of a bulk operation, with the line it adds. *)
Definition exact_round {H : Type} (cmd : Z -> string)
    (line_of : Outcome -> string) (port : Z) (w : World H) (line : string)
    (evs : list Event) (w1 : World H) : Prop :=
  exists o, o_port o = port /\ evs = [outcome_event cmd o] /\
            line = line_of o /\ heap w1 = heap w.

Definition is_write (e : Event) : bool :=
  match e with EvWrite _ _ _ => true | _ => false end.

(** One round of [cmd_apply], as far as configurations, teardowns and
    commands go. *)
Definition quiet_round {H : Type} (t : Ref) (errors : Z) (w : World H)
    (errors' : Z) (evs : list Event) (w1 : World H) : Prop :=
  heap w1 = heap w /\
  Forall (fun e => is_teardown e = false) evs /\
  (forwarded_ports (heap w t) = [] ->
   Forall (fun e => is_run e = false /\ is_write e = false) evs).

(** The value of a run of decimal digits read after the value [acc]. *)
Fixpoint uint_value (acc : Z) (d : Decimal.uint) : Z :=
  match d with
  | Decimal.Nil => acc
  | Decimal.D0 r => uint_value (10 * acc) r
  | Decimal.D1 r => uint_value (10 * acc + 1) r
  | Decimal.D2 r => uint_value (10 * acc + 2) r
  | Decimal.D3 r => uint_value (10 * acc + 3) r
  | Decimal.D4 r => uint_value (10 * acc + 4) r
  | Decimal.D5 r => uint_value (10 * acc + 5) r
  | Decimal.D6 r => uint_value (10 * acc + 6) r
  | Decimal.D7 r => uint_value (10 * acc + 7) r
  | Decimal.D8 r => uint_value (10 * acc + 8) r
  | Decimal.D9 r => uint_value (10 * acc + 9) r
  end.

Definition is_digit (c : ascii) : bool :=
  match digit_value c with Some _ => true | None => false end.

Fixpoint all_digits (s : string) : bool :=
  match s with
  | "" => true
  | String c r => is_digit c && all_digits r
  end.

(* ===================================================================== *)
(** ** [vortexl2/forward.py], continued: [list_forwards] *)
(* ===================================================================== *)

Module ForwardStatus.
Import PyStr Forward.

(** One entry of the list [list_forwards] returns. *)
Record ForwardInfo : Type := mkForwardInfo {
  f_port : Z;
  f_service : string;
  f_status : string;
  f_enabled : string;
  f_remote : string
}.

(** [str(x)] for a value that is a string or [None]. *)
Definition str_of_optional (o : option string) : string :=
  match o with
  | Some s => s
  | None => "None"
  end.

Section WithHost.
Context {H : Type} {HO : HostOps H}.

Definition list_one (self : Ref) (port : Z) (forwards : list ForwardInfo)
  : M H (list ForwardInfo) :=
  let service_name := _get_service_name port in
  ' (success, output) <- run_command ("systemctl is-active " +++ service_name) ;;
  let status := if success then output else "inactive" in
  ' (success, output) <-
    run_command ("systemctl is-enabled " +++ service_name) ;;
  let enabled := if success then output else "disabled" in
  config <- read_config self ;;
  ret (forwards ++
       [mkForwardInfo port service_name status enabled
          (str_of_optional (remote_forward_ip config) +++ ":"
           +++ str_of_int port)]).

Definition list_forwards (self : Ref) : M H (list ForwardInfo) :=
  config <- read_config self ;;
  for_in (forwarded_ports config) (list_one self) [].

End WithHost.
End ForwardStatus.

(* ===================================================================== *)
(** ** [vortexl2/main.py], continued: start and logs *)
(* ===================================================================== *)

(** What the menu needs from the host beyond [HostOps]:
    [TunnelManager.check_tunnel_exists] of [vortexl2/tunnel.py], which is
    not part of the sources at hand, the operator's answer to
    [Prompt.ask(prompt, default=default)], and the answer to
    [Prompt.ask(prompt)], which has no default and is always a string. *)
Class MenuOps (H : Type) : Type := {
  tunnel_check_exists : TunnelConfig -> H -> bool * H;
  prompt_ask : string -> option string -> H -> option string * H;
  prompt_input : string -> H -> string * H
}.

(** What [console.print] writes in the forwards menu: the rendering of the
    table of forwards with the given rows, of the panel around the table of
    menu items, and of the panel [ui.show_output] puts around a report with
    a title.  The text of a report is read as console markup, and the
    rendering raises [MarkupError] for a text it cannot read, such as one
    with a closing tag that matches no opening tag; a report echoes what
    the operator typed.  The banner, the table of forwards and the menu
    show stored fields, states of the service manager and fixed texts, and
    are taken to render. *)
Class Renderer : Type := {
  forwards_table : list (list string) -> string;
  forwards_menu_panel : list (list string) -> string;
  output_panel : string -> string -> PyResult string
}.

Module Menu.
Import PyStr Forward Main.

Section WithHost.
Context {H : Type} {HO : HostOps H} {MO : MenuOps H}.





Definition journal_cmd (service : string) : string :=
  "journalctl -u " +++ service +++ " -n 20 --no-pager".

(** The services whose logs [handle_logs] shows. *)
Definition log_services (ports : list Z) : list string :=
  "vortexl2-tunnel"
  :: map (fun port => "vortexl2-forward@" +++ str_of_int port) ports.

Definition show_log (service : string) (_ : unit) : M H unit :=
  result <- subprocess (journal_cmd service) ;;
  let output := or_else (stdout result)
                  (or_else (stderr result) "No logs available") in
  ui (ShowOutput output ("Logs: " +++ service)).

Definition handle_logs (current_tunnel : option Ref) : M H unit :=
  ui (ShowBanner current_tunnel) ;;
  ports <- match current_tunnel with
           | None => ret []
           | Some t => c <- read_config t ;; ret (forwarded_ports c)
           end ;;
  for_in (log_services ports) show_log tt ;;
  ui WaitForEnter.

End WithHost.
End Menu.

(* ===================================================================== *)
(** ** More vocabulary: listings, tunnel lifecycle, logs *)
(* ===================================================================== *)

Import ForwardStatus Menu.

Definition active_cmd (port : Z) : string :=
  "systemctl is-active " +++ _get_service_name port.
Definition enabled_cmd (port : Z) : string :=
  "systemctl is-enabled " +++ _get_service_name port.

(** One round of [list_forwards]: two queries, one entry added. *)
Definition list_round {H : Type} (self : Ref) (port : Z)
    (s : list ForwardInfo) (w : World H) (s' : list ForwardInfo)
    (evs : list Event) (w1 : World H) : Prop :=
  exists active enabled info,
    s' = s ++ [info] /\
    evs = [EvRun (active_cmd port) active; EvRun (enabled_cmd port) enabled] /\
    f_port info = port /\
    f_service info = _get_service_name port /\
    f_remote info = str_of_optional (remote_forward_ip (heap w self))
                    +++ ":" +++ str_of_int port /\
    (active = false -> f_status info = "inactive") /\
    (enabled = false -> f_enabled info = "disabled") /\
    heap w1 = heap w.



(** The panels shown with [ui.show_output], as (output, title). *)
Fixpoint shown (evs : list Event) : list (string * string) :=
  match evs with
  | [] => []
  | EvUi (ShowOutput output title) :: rest => (output, title) :: shown rest
  | _ :: rest => shown rest
  end.

Definition log_title (service : string) : string := "Logs: " +++ service.

Definition waits (evs : list Event) : nat :=
  length (filter (fun e => match e with EvUi WaitForEnter => true | _ => false end)
            evs).

(* ===================================================================== *)
(** ** [vortexl2/ui.py]: the prompts *)
(* ===================================================================== *)

Module Ui.
Import PyStr Main.

(** [raise]: the text is [str(e)] of the exception. *)
Definition raise {H A : Type} (e : string) : M H A :=
  fun w => (Raised e, [], w).

Definition in_ranges (n : nat) (ranges : list (nat * nat)) : bool :=
  existsb (fun r => (fst r <=? n)%nat && (n <=? snd r)%nat) ranges.

(** [c.isupper()] on the code points below 256. *)
Definition is_upper (c : ascii) : bool :=
  in_ranges (nat_of_ascii c) [(65, 90); (192, 214); (216, 222)]%nat.

(** [c.lower()] on the code points below 256. *)
Definition lower (c : ascii) : ascii :=
  if is_upper c then ascii_of_nat (nat_of_ascii c + 32) else c.

(** [c.isalnum()] on the code points below 256. *)
Definition is_alnum (c : ascii) : bool :=
  in_ranges (nat_of_ascii c)
    [(48, 57); (65, 90); (97, 122); (170, 170); (178, 179); (181, 181);
     (185, 186); (188, 190); (192, 214); (216, 246); (248, 255)]%nat.

Definition sanitize_char (c : ascii) : ascii :=
  let l := lower c in
  if is_alnum l || Ascii.eqb l "-" then l else "-"%char.

(** ["".join(c if c.isalnum() or c == "-" else "-" for c in name.lower())] *)
Fixpoint sanitize (name : string) : string :=
  match name with
  | "" => ""
  | String c r => String (sanitize_char c) (sanitize r)
  end.

(** [for i, name in enumerate(tunnels, 1)] with the line of each. *)
Fixpoint print_choices {H : Type} (i : Z) (tunnels : list string) : M H unit :=
  match tunnels with
  | [] => ret tt
  | name :: rest =>
      print ("  [bold cyan][" +++ str_of_int i +++ "][/] " +++ name) ;;
      print_choices (i + 1) rest
  end.

Section WithHost.
Context {H : Type} {MO : MenuOps H}.

(** [Prompt.ask(prompt, default=default)] *)
Definition ask (prompt : string) (default : option string)
  : M H (option string) :=
  lift_host (prompt_ask prompt default).

Definition prompt_tunnel_name : M H (option string) :=
  print (nl +++ "[dim]Enter a unique name for the tunnel "
         +++ "(alphanumeric and dashes only)[/]") ;;
  answer <- ask "[bold magenta]Tunnel Name[/]" (Some "tunnel1") ;;
  match answer with
  | None => raise "'NoneType' object has no attribute 'lower'"
  | Some name =>
      let name := sanitize name in
      ret (if is_blank name then None else Some name)
  end.

(** [tunnels] is what [manager.list_tunnels()] returned. *)
Definition prompt_select_tunnel (tunnels : list string)
  : M H (option string) :=
  match tunnels with
  | [] =>
      print "[yellow]No tunnels available.[/]" ;;
      ret None
  | _ =>
      print (nl +++ "[bold white]Available Tunnels:[/]") ;;
      print_choices 1 tunnels ;;
      print "  [bold cyan][0][/] Cancel" ;;
      answer <- ask (nl +++ "[bold cyan]Select tunnel[/]") (Some "0") ;;
      match answer with
      | None => raise "int() argument must be a string, not 'NoneType'"
      | Some choice =>
          match int_of_str choice with
          | Some idx =>
              if idx =? 0 then ret None
              else if (1 <=? idx) && (idx <=? Z.of_nat (length tunnels)) then
                ret (nth_error tunnels (Z.to_nat (idx - 1)))
              else
                print "[red]Invalid selection[/]" ;;
                ret None
          | None =>
              if existsb (String.eqb choice) tunnels then ret (Some choice)
              else
                print "[red]Invalid selection[/]" ;;
                ret None
          end
      end
  end.

End WithHost.
End Ui.

(* ===================================================================== *)
(** ** More vocabulary: names *)
(* ===================================================================== *)

Import Ui.

(** A character of a sanitized name: alphanumeric and not upper case, or a
    dash. *)
Definition slug_char (c : ascii) : bool :=
  (is_alnum c && negb (is_upper c)) || Ascii.eqb c "-".

Fixpoint all_slug (s : string) : bool :=
  match s with
  | "" => true
  | String c r => slug_char c && all_slug r
  end.

(* ===================================================================== *)
(** ** [vortexl2/ui.py]: [prompt_tunnel_config] *)
(* ===================================================================== *)

Module UiConfig.
Import PyStr Main Ui.

(** Modelled from the spec: the configuration editor mutates fields of
    the configuration directly; each assignment replaces one field. *)
Definition with_local_ip (c : TunnelConfig) (v : option string) :=
  mkTunnelConfig (name c) v (remote_ip c) (interface_name c)
    (interface_ip c) (tunnel_id c) (peer_tunnel_id c) (session_id c)
    (peer_session_id c) (remote_forward_ip c) (forwarded_ports c).

Definition with_remote_ip (c : TunnelConfig) (v : option string) :=
  mkTunnelConfig (name c) (local_ip c) v (interface_name c)
    (interface_ip c) (tunnel_id c) (peer_tunnel_id c) (session_id c)
    (peer_session_id c) (remote_forward_ip c) (forwarded_ports c).

Definition with_interface_ip (c : TunnelConfig) (v : option string) :=
  mkTunnelConfig (name c) (local_ip c) (remote_ip c) (interface_name c)
    v (tunnel_id c) (peer_tunnel_id c) (session_id c)
    (peer_session_id c) (remote_forward_ip c) (forwarded_ports c).

Definition with_tunnel_id (c : TunnelConfig) (v : option Z) :=
  mkTunnelConfig (name c) (local_ip c) (remote_ip c) (interface_name c)
    (interface_ip c) v (peer_tunnel_id c) (session_id c)
    (peer_session_id c) (remote_forward_ip c) (forwarded_ports c).

Definition with_peer_tunnel_id (c : TunnelConfig) (v : option Z) :=
  mkTunnelConfig (name c) (local_ip c) (remote_ip c) (interface_name c)
    (interface_ip c) (tunnel_id c) v (session_id c)
    (peer_session_id c) (remote_forward_ip c) (forwarded_ports c).

Definition with_session_id (c : TunnelConfig) (v : option Z) :=
  mkTunnelConfig (name c) (local_ip c) (remote_ip c) (interface_name c)
    (interface_ip c) (tunnel_id c) (peer_tunnel_id c) v
    (peer_session_id c) (remote_forward_ip c) (forwarded_ports c).

Definition with_peer_session_id (c : TunnelConfig) (v : option Z) :=
  mkTunnelConfig (name c) (local_ip c) (remote_ip c) (interface_name c)
    (interface_ip c) (tunnel_id c) (peer_tunnel_id c) (session_id c)
    v (remote_forward_ip c) (forwarded_ports c).

(** [str(x)] for a value that is an integer or [None]. *)
Definition str_of_optional_int (o : option Z) : string :=
  match o with
  | Some n => str_of_int n
  | None => "None"
  end.

(** [x if x else None] for [x = value or ""]. *)
Definition nonempty_or_none (o : option string) : option string :=
  if str_truthy o then o else None.

Section WithHost.
Context {H : Type} {MO : MenuOps H}.

(** [config.field = value] *)
Definition assign (config : Ref) (set : TunnelConfig -> TunnelConfig)
  : M H unit :=
  c <- read_config config ;;
  write_config config (set c).

(** [int(answer)] *)
Definition int_of_answer (answer : option string) : M H Z :=
  match answer with
  | None => raise "int() argument must be a string, not 'NoneType'"
  | Some s =>
      match int_of_str s with
      | Some n => ret n
      | None => raise ("invalid literal for int() with base 10: '" +++ s
                       +++ "'")
      end
  end.

(** The four identifiers, asked and assigned one after the other. *)
Definition prompt_ids (config : Ref) : M H unit :=
  c <- read_config config ;;
  tunnel_id_input <-
    ask "[bold yellow]Tunnel ID[/]"
      (Some (str_of_optional_int (tunnel_id c))) ;;
  n <- int_of_answer tunnel_id_input ;;
  assign config (fun c => with_tunnel_id c (Some n)) ;;
  c <- read_config config ;;
  peer_tunnel_id_input <-
    ask "[bold yellow]Peer Tunnel ID[/]"
      (Some (str_of_optional_int (peer_tunnel_id c))) ;;
  n <- int_of_answer peer_tunnel_id_input ;;
  assign config (fun c => with_peer_tunnel_id c (Some n)) ;;
  c <- read_config config ;;
  session_id_input <-
    ask "[bold yellow]Session ID[/]"
      (Some (str_of_optional_int (session_id c))) ;;
  n <- int_of_answer session_id_input ;;
  assign config (fun c => with_session_id c (Some n)) ;;
  c <- read_config config ;;
  peer_session_id_input <-
    ask "[bold yellow]Peer Session ID[/]"
      (Some (str_of_optional_int (peer_session_id c))) ;;
  n <- int_of_answer peer_session_id_input ;;
  assign config (fun c => with_peer_session_id c (Some n)).

(** The interface address and the forward target: any answer is stored. *)
Definition prompt_targets (config : Ref) : M H unit :=
  c <- read_config config ;;
  print (nl +++ "[dim]Configure tunnel interface IP (for "
         +++ interface_name c +++ ")[/]") ;;
  interface_ip <- ask "[bold yellow]Interface IP (CIDR)[/]" (interface_ip c) ;;
  assign config (fun c => with_interface_ip c interface_ip) ;;
  c <- read_config config ;;
  remote_forward <-
    ask "[bold yellow]Remote Forward Target IP[/]" (remote_forward_ip c) ;;
  assign config (fun c => with_remote_forward_ip c remote_forward).

Definition prompt_tunnel_config (config : Ref) : M H bool :=
  c <- read_config config ;;
  print (nl +++ "[bold white]Configure Tunnel: " +++ name c +++ "[/]") ;;
  print ("[dim]Enter configuration values. Press Enter to use defaults.[/]"
         +++ nl) ;;
  local_ip <-
    ask "[bold green]Local Server Public IP[/]"
      (nonempty_or_none (local_ip c)) ;;
  if negb (str_truthy local_ip) then
    print "[red]Local IP is required[/]" ;;
    ret false
  else
    assign config (fun c => with_local_ip c local_ip) ;;
    c <- read_config config ;;
    remote_ip <-
      ask "[bold cyan]Remote Server Public IP[/]"
        (nonempty_or_none (remote_ip c)) ;;
    if negb (str_truthy remote_ip) then
      print "[red]Remote IP is required[/]" ;;
      ret false
    else
      assign config (fun c => with_remote_ip c remote_ip) ;;
      prompt_targets config ;;
      print (nl +++ "[dim]Configure L2TPv3 tunnel IDs "
             +++ "(press Enter to use defaults)[/]") ;;
      prompt_ids config ;;
      print (nl +++ "[green]✓ Configuration saved![/]") ;;
      ret true.

End WithHost.
End UiConfig.

(** A fake operator: every tunnel exists or none does, and the answer to
    a prompt depends on its label and default only; a prompt without a
    default is answered like one whose default is [None], no answer being
    the empty line. *)
Definition menu_script (present : bool)
    (answers : string -> option string -> option string) : MenuOps nat := {|
  tunnel_check_exists _ n := (present, n);
  prompt_ask p d n := (answers p d, n);
  prompt_input p n :=
    (match answers p None with Some s => s | None => "" end, n)
|}.

(** The frame of the configuration editor: the other configurations and
    the name, interface name and port set of this one. *)
Definition frame (config : Ref) (hp hp' : Ref -> TunnelConfig) : Prop :=
  (forall other, other <> config -> hp' other = hp other) /\
  name (hp' config) = name (hp config) /\
  interface_name (hp' config) = interface_name (hp config) /\
  forwarded_ports (hp' config) = forwarded_ports (hp config).

(** A computation that keeps the relation [R] between the store before
    and the store after, also when it raises. *)
Definition keeps {H A : Type} (R : (Ref -> TunnelConfig) ->
                                  (Ref -> TunnelConfig) -> Prop)
    (m : M H A) : Prop :=
  forall w, R (heap w) (heap (world (m w))).

Definition is_some {A : Type} (o : option A) : bool :=
  match o with Some _ => true | None => false end.

(** The two public addresses of a configuration stay as they are. *)
Definition addresses (config : Ref) (hp hp' : Ref -> TunnelConfig) : Prop :=
  local_ip (hp' config) = local_ip (hp config) /\
  remote_ip (hp' config) = remote_ip (hp config).

(** All four identifiers of a configuration hold an integer. *)
Definition ids_set (c : TunnelConfig) : bool :=
  is_some (tunnel_id c) && is_some (peer_tunnel_id c)
  && is_some (session_id c) && is_some (peer_session_id c).

(* ===================================================================== *)
(** ** [vortexl2/main.py], continued: the forwards menu *)
(* ===================================================================== *)

Module ForwardsMenu.
Import PyStr Forward Main ForwardStatus Ui.

Section WithHost.
Context {H : Type} {HO : HostOps H} {MO : MenuOps H} {RO : Renderer}.

(** [ui.show_forwards_list]: the cells of the row of one forward. *)
Definition status_style (status : string) : string :=
  if String.eqb status "active" then "green" else "red".

Definition enabled_style (enabled : string) : string :=
  if String.eqb enabled "enabled" then "green" else "yellow".

Definition forward_row (fwd : ForwardInfo) : list string :=
  [str_of_int (f_port fwd);
   f_remote fwd;
   "[" +++ status_style (f_status fwd) +++ "]" +++ f_status fwd +++ "[/]";
   "[" +++ enabled_style (f_enabled fwd) +++ "]" +++ f_enabled fwd +++ "[/]"].

Definition show_forwards_list (forwards : list ForwardInfo) : M H unit :=
  match forwards with
  | [] => print "[yellow]No port forwards configured[/]"
  | _ => print (forwards_table (map forward_row forwards))
  end.

Definition menu_items : list (string * string) :=
  [("1", "Add Port Forwards");
   ("2", "Remove Port Forwards");
   ("3", "List Port Forwards");
   ("4", "Restart All Forwards");
   ("5", "Stop All Forwards");
   ("6", "Start All Forwards");
   ("0", "Back to Main Menu")].

(** [ui.show_forwards_menu] *)
Definition show_forwards_menu : M H (option string) :=
  print (forwards_menu_panel
           (map (fun item => ["[" +++ fst item +++ "]"; snd item])
              menu_items)) ;;
  ask (nl +++ "[bold cyan]Select option[/]") (Some "0").

(** [ui.prompt_ports] *)
Definition prompt_ports : M H string :=
  print (nl +++ "[dim]Enter ports as comma-separated list "
         +++ "(e.g., 443,80,2053)[/]") ;;
  lift_host (prompt_input "[bold cyan]Ports[/]").

(** [ui.show_output(output, title)]: the panel is printed, or the error
    of its rendering is raised. *)
Definition show_output (output title : string) : M H unit :=
  match output_panel output title with
  | Returned _ => ui (ShowOutput output title)
  | Raised e => raise e
  end.

(** [choice == option] *)
Definition chose (choice : option string) (item : string) : bool :=
  match choice with
  | Some s => String.eqb s item
  | None => false
  end.

(** The body of the [while True] loop of [handle_forwards_menu] for the
    tunnel [t]; [false] is [break], [true] the next round. *)
Definition forwards_menu_round (t : Ref) : M H bool :=
  ui (ShowBanner (Some t)) ;;
  forwards <- list_forwards t ;;
  match forwards with
  | [] => ret tt
  | _ => show_forwards_list forwards
  end ;;
  choice <- show_forwards_menu ;;
  if chose choice "0" then ret false
  else if chose choice "1" then
    ports <- prompt_ports ;;
    (if is_blank ports then ret tt
     else
       ' (success, msg) <- add_multiple_forwards t ports ;;
       show_output msg "Add Forwards") ;;
    ui WaitForEnter ;;
    ret true
  else if chose choice "2" then
    ports <- prompt_ports ;;
    (if is_blank ports then ret tt
     else
       ' (success, msg) <- remove_multiple_forwards t ports ;;
       show_output msg "Remove Forwards") ;;
    ui WaitForEnter ;;
    ret true
  else if chose choice "3" then
    ui WaitForEnter ;;
    ret true
  else if chose choice "4" then
    ' (success, msg) <- restart_all_forwards t ;;
    show_output msg "Restart Forwards" ;;
    ui WaitForEnter ;;
    ret true
  else if chose choice "5" then
    ' (success, msg) <- stop_all_forwards t ;;
    show_output msg "Stop Forwards" ;;
    ui WaitForEnter ;;
    ret true
  else if chose choice "6" then
    ' (success, msg) <- start_all_forwards t ;;
    show_output msg "Start Forwards" ;;
    ui WaitForEnter ;;
    ret true
  else ret true.



End WithHost.
End ForwardsMenu.













(** The same, but a report that holds a closing tag is refused.  (The
    console refuses only a closing tag that matches no opening tag.) *)
Definition strict_tables : Renderer := {|
  forwards_table rows := PyStr.join PyStr.nl (map (PyStr.join "  ") rows);
  forwards_menu_panel rows := PyStr.join PyStr.nl (map (PyStr.join "  ") rows);
  output_panel output title :=
    match String.index 0 "[/" output with
    | Some _ => Raised "closing tag does not match any open tag"
    | None => Returned (title +++ PyStr.nl +++ output)
    end
|}.

(** An operator who chooses to add forwards and types a closing tag where
    the ports are asked. *)
Definition tag_typist : MenuOps nat :=
  menu_script true
    (fun prompt _ =>
       if String.eqb prompt "[bold cyan]Ports[/]" then Some "[/x]"
       else Some "1").

(* ===================================================================== *)
(** ** Trimming *)
(* ===================================================================== *)

Section Trimming.

Lemma lstrip_prefix (s : string) :
  exists pre, s = pre +++ lstrip s /\ all_space pre = true.
Proof.
  induction s as [| c r (pre & E & Hpre)].
  - exists "". split; reflexivity.
  - cbn [lstrip]. destruct (is_space c) eqn:Hc.
    + exists (String c pre). cbn [String.append all_space].
      rewrite <- E, Hc, Hpre. split; reflexivity.
    + exists "". split; reflexivity.
Qed.

Lemma rstrip_suffix (s : string) :
  exists post, s = rstrip s +++ post /\ all_space post = true.
Proof.
  induction s as [| c r (post & E & Hpost)].
  - exists "". split; reflexivity.
  - cbn [rstrip]. destruct (is_space c && is_blank (rstrip r)) eqn:Ht.
    + apply andb_true_iff in Ht. destruct Ht as [Hc Hb].
      destruct (rstrip r); [| discriminate Hb]. cbn [String.append] in E.
      subst r. exists (String c post). cbn [String.append all_space].
      rewrite Hc, Hpost. split; reflexivity.
    + exists post. cbn [String.append]. rewrite <- E. split; [reflexivity |].
      exact Hpost.
Qed.

Lemma rstrip_last (s : string) : last_space (rstrip s) = false.
Proof.
  induction s as [| c r IH]; [reflexivity |].
  cbn [rstrip]. destruct (is_space c && is_blank (rstrip r)) eqn:Ht;
    [reflexivity |].
  destruct (rstrip r) as [| c' r'] eqn:Er.
  - cbn [last_space]. cbn [is_blank] in Ht. rewrite andb_true_r in Ht.
    exact Ht.
  - cbn [last_space]. cbn [last_space] in IH. exact IH.
Qed.

Lemma rstrip_first (s : string) :
  first_space s = false -> first_space (rstrip s) = false.
Proof.
  destruct s as [| c r]; [reflexivity |]. cbn [first_space rstrip].
  intro Hc. rewrite Hc. cbn [andb first_space]. exact Hc.
Qed.

Lemma lstrip_first (s : string) : first_space (lstrip s) = false.
Proof.
  induction s as [| c r IH]; [reflexivity |].
  cbn [lstrip]. destruct (is_space c) eqn:Hc; [exact IH |].
  cbn [first_space]. exact Hc.
Qed.

(** [strip] removes white space at both ends and nothing else. *)
Lemma strip_trims (s : string) :
  (exists pre post,
     s = pre +++ strip s +++ post /\
     all_space pre = true /\ all_space post = true) /\
  first_space (strip s) = false /\ last_space (strip s) = false.
Proof.
  unfold strip. split; [| split].
  - destruct (lstrip_prefix s) as (pre & E1 & Hpre).
    destruct (rstrip_suffix (lstrip s)) as (post & E2 & Hpost).
    exists pre, post. rewrite <- E2, <- E1. repeat split; assumption.
  - apply rstrip_first. apply lstrip_first.
  - apply rstrip_last.
Qed.

End Trimming.

(* ===================================================================== *)
(** ** Lines of a report *)
(* ===================================================================== *)

Section Lines.

Lemma length_split (c : ascii) (s : string) :
  length (split c s) = S (count_char c s).
Proof.
  induction s as [| d r IH]; [reflexivity |].
  cbn [split count_char]. destruct (Ascii.eqb d c).
  - cbn [length]. rewrite IH. reflexivity.
  - destruct (split c r) as [| h t]; [discriminate IH |].
    cbn [length] in *. exact IH.
Qed.

Lemma count_char_append (c : ascii) (a b : string) :
  count_char c (a +++ b) = (count_char c a + count_char c b)%nat.
Proof.
  induction a as [| d r IH]; [reflexivity |].
  cbn [String.append count_char]. rewrite IH. apply Nat.add_assoc.
Qed.

Lemma count_char_join (entries : list string) :
  entries <> [] ->
  S (count_char (ascii_of_nat 10) (join nl entries))
  = (length entries + inner_breaks entries)%nat.
Proof.
  unfold inner_breaks, join.
  induction entries as [| x rest IH]; [congruence |]. intros _.
  destruct rest as [| y rest'].
  - cbn [String.concat length map list_sum fold_right]. lia.
  - change (String.concat nl (x :: y :: rest'))
      with (x +++ nl +++ String.concat nl (y :: rest')).
    rewrite !count_char_append.
    assert (Hne : y :: rest' <> []) by discriminate.
    specialize (IH Hne). cbn [length map list_sum fold_right] in *.
    change (count_char (ascii_of_nat 10) nl) with 1%nat. lia.
Qed.

(** A report of at least one entry has one line per entry and one more
    for every line break inside an entry. *)
Lemma report_lines_join (entries : list string) :
  entries <> [] ->
  length (report_lines (join nl entries))
  = (length entries + inner_breaks entries)%nat.
Proof.
  intro Hne. unfold report_lines. rewrite length_split.
  apply count_char_join, Hne.
Qed.

Lemma inner_breaks_port_line (port : Z) (outcome : string) :
  count_char (ascii_of_nat 10) ("Port " +++ str_of_int port +++ ": "
                                +++ outcome)
  = (count_char (ascii_of_nat 10) (str_of_int port)
     + count_char (ascii_of_nat 10) outcome)%nat.
Proof. rewrite !count_char_append. reflexivity. Qed.

End Lines.

(* ===================================================================== *)
(** ** The command executor *)
(* ===================================================================== *)

Section Executor.
Context {H : Type} {HO : HostOps H}.

Lemma bind_returned {A B : Type} (m : M H A) (f : A -> M H B) (w : World H)
    (a : A) (e1 : list Event) (w1 : World H) :
  m w = (Returned a, e1, w1) -> bind m f w = prepend e1 (f a w1).
Proof.
  intro E. unfold bind, prepend, value, events, world. rewrite E.
  destruct (f a w1) as [[b e2] w2]. reflexivity.
Qed.

Lemma bind_raised {A B : Type} (m : M H A) (f : A -> M H B) (w : World H)
    (e : string) (e1 : list Event) (w1 : World H) :
  m w = (Raised e, e1, w1) -> bind m f w = (Raised e, e1, w1).
Proof. intro E. unfold bind. rewrite E. reflexivity. Qed.

Lemma prepend_triple {A : Type} (e1 e2 : list Event) (r : PyResult A)
    (w : World H) :
  prepend e1 (r, e2, w) = (r, e1 ++ e2, w).
Proof. reflexivity. Qed.

Lemma prepend_nil {A : Type} (r : PyResult A * list Event * World H) :
  prepend [] r = r.
Proof. destruct r as [[a e] w]. reflexivity. Qed.

Lemma prepend_prepend {A : Type} (e1 e2 : list Event)
    (r : PyResult A * list Event * World H) :
  prepend e1 (prepend e2 r) = prepend (e1 ++ e2) r.
Proof.
  destruct r as [[a e] w]. unfold prepend, value, events, world.
  cbn [fst snd]. rewrite app_assoc. reflexivity.
Qed.

Lemma lift_host_eq {A : Type} (op : H -> A * H) (w : World H) :
  lift_host op w =
  (Returned (fst (op (host w))), [], mkWorld (heap w) (snd (op (host w)))).
Proof. unfold lift_host. destruct (op (host w)). reflexivity. Qed.

Lemma world_eta (w : World H) : mkWorld (heap w) (host w) = w.
Proof. destruct w. reflexivity. Qed.

Lemma run_command_eq (cmd : string) (w : World H) :
  run_command cmd w =
  (Returned (run_outcome (fst (subprocess_run cmd (host w)))),
   [EvRun cmd (fst (run_outcome (fst (subprocess_run cmd (host w)))))],
   mkWorld (heap w) (snd (subprocess_run cmd (host w)))).
Proof.
  unfold run_command, try_except, bind, subprocess, ret.
  destruct (subprocess_run cmd (host w)) as [[result | e] h]; reflexivity.
Qed.

Lemma or_else_nonempty (a b : string) : a <> "" -> or_else a b = a.
Proof. destruct a; [congruence | reflexivity]. Qed.

(** C6: [run_command] never raises.  When [subprocess.run] raises (timeout,
    spawn failure) the result is [(False, str(e))]; otherwise success holds
    iff the exit code is zero, and the output is the trimmed standard
    output if that is not empty and the trimmed standard error if it is. *)
Theorem run_command_never_raises (cmd : string) (w : World H) :
  exists success output,
    value (run_command cmd w) = Returned (success, output) /\
    events (run_command cmd w) = [EvRun cmd success] /\
    match fst (subprocess_run cmd (host w)) with
    | Raised e => success = false /\ output = e
    | Returned result =>
        (success = true <-> returncode result = 0) /\
        (strip (stdout result) <> "" -> output = strip (stdout result)) /\
        (strip (stdout result) = "" -> output = strip (stderr result))
    end.
Proof.
  rewrite run_command_eq. unfold value, events. cbn [fst snd].
  destruct (fst (subprocess_run cmd (host w))) as [result | e];
    cbn [run_outcome fst snd].
  - exists (returncode result =? 0),
      (or_else (strip (stdout result)) (strip (stderr result))).
    split; [reflexivity |]. split; [reflexivity |].
    split; [apply Z.eqb_eq |]. split.
    + intro Hne. apply or_else_nonempty. exact Hne.
    + intro He. rewrite He. reflexivity.
  - exists false, e. repeat split.
Qed.

End Executor.

(** One step of a computation whose first action is known. *)
Ltac mstep :=
  match goal with
  | |- context [bind (run_command ?c) ?f ?w] =>
      rewrite (bind_returned (run_command c) f w _ _ _ (run_command_eq c w))
  | |- context [bind (read_config ?r) ?f ?w] =>
      rewrite (bind_returned (read_config r) f w _ _ _ eq_refl)
  | |- context [bind (write_config ?r ?c) ?f ?w] =>
      rewrite (bind_returned (write_config r c) f w _ _ _ eq_refl)
  | |- context [bind (emit ?e) ?f ?w] =>
      rewrite (bind_returned (emit e) f w _ _ _ eq_refl)
  | |- context [bind (ret ?a) ?f ?w] =>
      rewrite (bind_returned (ret a) f w _ _ _ eq_refl)
  | |- context [bind (lift_host ?op) ?f ?w] =>
      rewrite (bind_returned (lift_host op) f w _ _ _ (lift_host_eq op w))
  end; cbv beta iota.

Ltac list_norm :=
  repeat first [rewrite <- app_assoc | rewrite app_nil_r | progress cbn [app]].

(* ===================================================================== *)
(** ** Single operations of the forward controller *)
(* ===================================================================== *)

Section Single.
Context {H : Type} {HO : HostOps H}.

Lemma install_template_unset (self : Ref) (w : World H) :
  str_truthy (remote_forward_ip (heap w self)) = false ->
  install_template self w =
  (Returned (false, "Remote forward IP not configured"), [], w).
Proof.
  intro Hu. unfold install_template. mstep.
  destruct (remote_forward_ip (heap w self)) as [[| c r] |];
    cbn in Hu; try discriminate; reflexivity.
Qed.

Lemma install_template_set (self : Ref) (w : World H) (ip : string) :
  remote_forward_ip (heap w self) = Some ip -> ip <> "" ->
  install_template self w =
  match write_file _get_template_path (FORWARD_TEMPLATE ip) (host w) with
  | (Returned _, h) =>
      (Returned (true, "Template installed at " +++ _get_template_path),
       [EvWrite _get_template_path (FORWARD_TEMPLATE ip) true;
        EvRun "systemctl daemon-reload"
          (fst (run_outcome
                  (fst (subprocess_run "systemctl daemon-reload" h))))],
       mkWorld (heap w) (snd (subprocess_run "systemctl daemon-reload" h)))
  | (Raised e, h) =>
      (Returned (false, "Failed to install template: " +++ e),
       [EvWrite _get_template_path (FORWARD_TEMPLATE ip) false],
       mkWorld (heap w) h)
  end.
Proof.
  intros Hip Hne. unfold install_template. mstep. rewrite Hip.
  destruct ip as [| c r]; [congruence |].
  rewrite prepend_nil. unfold try_except.
  destruct (write_file _get_template_path (FORWARD_TEMPLATE (String c r))
              (host w)) as [[u | e] h] eqn:Ew.
  - erewrite bind_returned by (unfold open_write; rewrite Ew; reflexivity).
    mstep. reflexivity.
  - erewrite bind_raised by (unfold open_write; rewrite Ew; reflexivity).
    reflexivity.
Qed.

(** [install_template] returns, leaves every configuration as it was, and
    only writes the template and reloads the service manager. *)
Lemma install_template_returns (self : Ref) (w : World H) :
  exists ok msg evs w1,
    install_template self w = (Returned (ok, msg), evs, w1) /\
    heap w1 = heap w /\ Forall template_event evs.
Proof.
  destruct (remote_forward_ip (heap w self)) as [ip |] eqn:Hip.
  - destruct ip as [| c s] eqn:Hs.
    + rewrite install_template_unset by (rewrite Hip; reflexivity).
      do 4 eexists. repeat split. constructor.
    + rewrite (install_template_set self w (String c s) Hip) by congruence.
      destruct (write_file _ _ _) as [[u | e] h]; do 4 eexists;
        (split; [reflexivity |]); (split; [reflexivity |]);
        repeat constructor.
  - rewrite install_template_unset by (rewrite Hip; reflexivity).
    do 4 eexists. repeat split. constructor.
Qed.

(** C5 (as amended): with no remote-forward target, [install_template]
    returns [(False, "Remote forward IP not configured")], causes no event
    at all and changes nothing.  With a target it attempts to write the
    rendered template; if the write succeeds it then runs the
    service-manager reload and returns success; if the write raises it
    returns [(False, "Failed to install template: <e>")] without a
    reload. *)
Theorem install_template_behaviour (self : Ref) (w : World H) :
  let r := install_template self w in
  match remote_forward_ip (heap w self) with
  | None | Some "" =>
      r = (Returned (false, "Remote forward IP not configured"), [], w)
  | Some ip =>
      match fst (write_file _get_template_path (FORWARD_TEMPLATE ip) (host w))
      with
      | Returned _ =>
          value r =
            Returned (true, "Template installed at " +++ _get_template_path) /\
          commands (events r) = ["systemctl daemon-reload"] /\
          exists reloaded,
            events r = [EvWrite _get_template_path (FORWARD_TEMPLATE ip) true;
                        EvRun "systemctl daemon-reload" reloaded]
      | Raised e =>
          value r = Returned (false, "Failed to install template: " +++ e) /\
          commands (events r) = [] /\
          events r = [EvWrite _get_template_path (FORWARD_TEMPLATE ip) false]
      end
  end.
Proof.
  intro r. subst r.
  destruct (remote_forward_ip (heap w self)) as [ip |] eqn:Hip.
  - destruct ip as [| c s].
    + apply install_template_unset. rewrite Hip. reflexivity.
    + rewrite (install_template_set self w (String c s) Hip) by congruence.
      destruct (write_file _ _ _) as [[u | e] h]; cbn [fst].
      * split; [reflexivity |]. split; [reflexivity |].
        eexists. reflexivity.
      * repeat split.
  - apply install_template_unset. rewrite Hip. reflexivity.
Qed.

Lemma remove_forward_eq (self : Ref) (port : Z) (w : World H) :
  exists stopped disabled h,
    remove_forward self port w =
    (Returned (true, "Port forward for " +++ str_of_int port +++ " removed"),
     [EvRun (stop_cmd port) stopped; EvRun (disable_cmd port) disabled],
     update self (remove_port (heap w self) port) (mkWorld (heap w) h)).
Proof.
  unfold remove_forward, stop_cmd, disable_cmd. cbv zeta.
  do 4 mstep. do 3 eexists. reflexivity.
Qed.

(** C7: [remove_forward] runs the stop command and then the disable
    command whatever their outcomes, unregisters the port and returns
    [(True, "Port forward for <p> removed")], on every host. *)
Theorem remove_forward_always_succeeds (self : Ref) (port : Z) (w : World H) :
  let r := remove_forward self port w in
  value r = Returned (true, "Port forward for " +++ str_of_int port
                            +++ " removed") /\
  commands (events r) = [stop_cmd port; disable_cmd port] /\
  ~ In port (forwarded_ports (heap (world r) self)) /\
  (forall q, q <> port ->
     (In q (forwarded_ports (heap (world r) self)) <->
      In q (forwarded_ports (heap w self)))).
Proof.
  destruct (remove_forward_eq self port w) as (stopped & disabled & h & E).
  rewrite E. unfold value, events, world, update. cbn [fst snd heap commands].
  rewrite Nat.eqb_refl. unfold remove_port, with_ports. cbn [forwarded_ports].
  repeat split.
  - intro Hin. apply filter_In in Hin. destruct Hin as [_ Hq].
    rewrite Z.eqb_refl in Hq. discriminate.
  - intro Hin. apply filter_In in Hin. tauto.
  - intro Hin. apply filter_In. split; [exact Hin |].
    apply negb_true_iff. apply Z.eqb_neq. assumption.
Qed.

Lemma enable_not_reload (port : Z) (ok : bool) :
  ~ template_event (EvRun (enable_cmd port) ok).
Proof. unfold template_event, enable_cmd. cbn. discriminate. Qed.

Lemma not_in_template_events (port : Z) (ok : bool) (evs : list Event) :
  Forall template_event evs -> ~ In (EvRun (enable_cmd port) ok) evs.
Proof.
  intros Hall Hin. rewrite Forall_forall in Hall.
  apply (enable_not_reload port ok). apply Hall. exact Hin.
Qed.

(** The two ways [create_forward] ends: a failure that leaves every
    configuration as it was, or a success whose last event is the
    successful enable-and-start command, followed by [add_port]. *)
Lemma create_forward_cases (self : Ref) (port : Z) (w : World H) :
  exists ok msg evs w1,
    create_forward self port w = (Returned (ok, msg), evs, w1) /\
    (ok = false ->
       heap w1 = heap w /\ ~ In (EvRun (enable_cmd port) true) evs) /\
    (ok = true ->
       heap w1 = heap (update self (add_port (heap w self) port) w) /\
       msg = "Port forward for " +++ str_of_int port
             +++ " created and started" /\
       exists pre, evs = pre ++ [EvRun (enable_cmd port) true] /\
                   Forall template_event pre).
Proof.
  unfold create_forward. mstep. rewrite prepend_nil. cbn [fst snd].
  rewrite world_eta.
  assert (Hpre : exists ok msg evs0 w0,
    (if negb (path_exists _get_template_path (host w))
     then install_template self else ret (true, "")) w
    = (Returned (ok, msg), evs0, w0) /\
    heap w0 = heap w /\ Forall template_event evs0).
  { destruct (path_exists _get_template_path (host w)); cbn [negb].
    - do 4 eexists. split; [reflexivity |]. split; [reflexivity | constructor].
    - apply install_template_returns. }
  destruct Hpre as (iok & imsg & evs0 & w0 & Ei & Hheap & Hev).
  rewrite (bind_returned _ _ _ _ _ _ Ei). cbv beta iota.
  destruct iok; cbn [negb].
  - cbv zeta. mstep. fold (enable_cmd port).
    destruct (run_outcome (fst (subprocess_run (enable_cmd port) (host w0))))
      as [[|] output]; cbn [fst negb].
    + do 2 mstep. rewrite !prepend_prepend. unfold ret.
      rewrite prepend_triple. do 4 eexists. split; [reflexivity |].
      split; [discriminate |]. intros _. split.
      * unfold update. cbn [heap]. rewrite Hheap. reflexivity.
      * split; [reflexivity |]. exists evs0. split; [| exact Hev].
        rewrite !app_nil_r. reflexivity.
    + unfold ret. rewrite prepend_prepend, prepend_triple.
      do 4 eexists. split; [reflexivity |].
      split; [| discriminate]. intros _. split; [exact Hheap |].
      rewrite app_nil_r. intro Hin. apply in_app_or in Hin.
      destruct Hin as [Hin | [Hin | []]].
      * exact (not_in_template_events port true evs0 Hev Hin).
      * discriminate.
  - unfold ret. rewrite prepend_triple. do 4 eexists.
    split; [reflexivity |]. split; [| discriminate]. intros _.
    split; [exact Hheap |]. rewrite app_nil_r.
    exact (not_in_template_events port true evs0 Hev).
Qed.

Lemma heap_update_same (self : Ref) (c : TunnelConfig) (w : World H) :
  heap (update self c w) self = c.
Proof. unfold update. cbn [heap]. rewrite Nat.eqb_refl. reflexivity. Qed.

Lemma has_port_In (p : Z) (ports : list Z) :
  has_port p ports = true <-> In p ports.
Proof.
  unfold has_port. rewrite existsb_exists. split.
  - intros (q & Hq & E). apply Z.eqb_eq in E. subst q. exact Hq.
  - intro Hin. exists p. split; [exact Hin | apply Z.eqb_refl].
Qed.

Lemma add_port_once (c : TunnelConfig) (p : Z) :
  NoDup (forwarded_ports c) ->
  NoDup (forwarded_ports (add_port c p)) /\
  count_occ Z.eq_dec (forwarded_ports (add_port c p)) p = 1%nat.
Proof.
  intro Hnd. unfold add_port.
  destruct (has_port p (forwarded_ports c)) eqn:Hp.
  - split; [exact Hnd |].
    apply has_port_In in Hp. apply NoDup_count_occ'; assumption.
  - assert (Hnot : ~ In p (forwarded_ports c)).
    { intro Hin. apply has_port_In in Hin. congruence. }
    unfold with_ports. cbn [forwarded_ports].
    assert (Hnd' : NoDup (forwarded_ports c ++ [p])).
    { apply NoDup_app; [exact Hnd | |].
      - constructor; [intros [] | constructor].
      - intros x Hx [Hxp | []]. subst x. contradiction. }
    split; [exact Hnd' |].
    apply NoDup_count_occ'; [exact Hnd' |].
    apply in_or_app. right. left. reflexivity.
Qed.

(** One call of [create_forward] on a duplicate-free port set. *)
Lemma create_forward_once (self : Ref) (port : Z) (w : World H) :
  NoDup (forwarded_ports (heap w self)) ->
  exists ok msg,
    value (create_forward self port w) = Returned (ok, msg) /\
    NoDup (forwarded_ports (heap (world (create_forward self port w)) self)) /\
    (ok = false ->
       forwarded_ports (heap (world (create_forward self port w)) self)
       = forwarded_ports (heap w self) /\
       ~ In (EvRun (enable_cmd port) true)
            (events (create_forward self port w))) /\
    (ok = true ->
       count_occ Z.eq_dec
         (forwarded_ports (heap (world (create_forward self port w)) self))
         port = 1%nat /\
       exists pre,
         events (create_forward self port w)
         = pre ++ [EvRun (enable_cmd port) true]).
Proof.
  intro Hnd.
  destruct (create_forward_cases self port w)
    as (ok & msg & evs & w1 & E & Hf & Ht).
  rewrite E. unfold value, events, world. cbn [fst snd].
  exists ok, msg. split; [reflexivity |].
  destruct ok.
  - destruct (Ht eq_refl) as (Hheap & _ & pre & Hpre & _).
    rewrite Hheap, heap_update_same.
    destruct (add_port_once (heap w self) port Hnd) as [Hnd' Hcount].
    split; [exact Hnd' |]. split; [discriminate |]. intros _.
    split; [exact Hcount |]. exists pre. exact Hpre.
  - destruct (Hf eq_refl) as [Hheap Hno]. rewrite Hheap.
    split; [exact Hnd |]. split; [| discriminate]. intros _.
    split; [reflexivity | exact Hno].
Qed.

(** C3 (as amended): on a duplicate-free port set, a failing
    [create_forward p] leaves the port set as it was (so [p] is absent
    afterwards iff it was absent before) and has not seen a successful
    enable-and-start command; a successful one ends with the successful
    enable-and-start command and leaves [p] registered exactly once, also
    when [create_forward p] is called a second time. *)
Theorem create_forward_port_set (self : Ref) (port : Z) (w : World H) :
  NoDup (forwarded_ports (heap w self)) ->
  let r := create_forward self port w in
  let r' := create_forward self port (world r) in
  exists ok msg,
    value r = Returned (ok, msg) /\
    (ok = false ->
       forwarded_ports (heap (world r) self) = forwarded_ports (heap w self) /\
       ~ In (EvRun (enable_cmd port) true) (events r)) /\
    (ok = true ->
       count_occ Z.eq_dec (forwarded_ports (heap (world r) self)) port
       = 1%nat /\
       exists pre, events r = pre ++ [EvRun (enable_cmd port) true]) /\
    (forall msg', value r' = Returned (true, msg') ->
       count_occ Z.eq_dec (forwarded_ports (heap (world r') self)) port
       = 1%nat).
Proof.
  intros Hnd r r'. subst r r'.
  destruct (create_forward_once self port w Hnd)
    as (ok & msg & Ev & Hnd1 & Hf & Ht).
  exists ok, msg. split; [exact Ev |]. split; [exact Hf |].
  split; [exact Ht |]. intros msg' Ev'.
  destruct (create_forward_once self port _ Hnd1)
    as (ok2 & msg2 & Ev2 & _ & _ & Ht2).
  rewrite Ev' in Ev2. injection Ev2 as <- _.
  apply Ht2. reflexivity.
Qed.

End Single.

(* ===================================================================== *)
(** ** Loops and bulk operations *)
(* ===================================================================== *)

Section Loops.
Context {H : Type} {HO : HostOps H}.

Section ForIn.
Variables (A : Type) (body : A -> list string -> M H (list string)).
Variable P : A -> World H -> string -> list Event -> World H -> Prop.
Hypothesis body_round : forall x acc w, exists line evs w1,
  body x acc w = (Returned (acc ++ [line]), evs, w1) /\ P x w line evs w1.

(** A loop whose rounds each append one line appends one line per
    element, in order. *)
Lemma for_in_steps (l : list A) : forall acc w, exists lines evs w',
  for_in l body acc w = (Returned (acc ++ lines), evs, w') /\
  Steps P l w lines evs w'.
Proof.
  induction l as [| x rest IH]; intros acc w.
  - exists [], [], w. cbn [for_in]. unfold ret. rewrite app_nil_r.
    split; [reflexivity | constructor].
  - destruct (body_round x acc w) as (line & e & w1 & Eb & HP).
    destruct (IH (acc ++ [line]) w1) as (lines & es & w' & Er & HS).
    exists (line :: lines), (e ++ es), w'. cbn [for_in].
    rewrite (bind_returned _ _ _ _ _ _ Eb), Er, prepend_triple.
    rewrite <- app_assoc. split; [reflexivity |].
    econstructor; eassumption.
Qed.

End ForIn.

Lemma Steps_lines {A : Type}
    (P : A -> World H -> string -> list Event -> World H -> Prop)
    (Q : A -> string -> Prop) (l : list A) (w w' : World H)
    (lines : list string) (evs : list Event) :
  (forall x w0 line e w1, P x w0 line e w1 -> Q x line) ->
  Steps P l w lines evs w' -> Forall2 Q l lines.
Proof.
  intros HPQ HS. induction HS; constructor; eauto.
Qed.

Lemma commands_app (e1 e2 : list Event) :
  commands (e1 ++ e2) = commands e1 ++ commands e2.
Proof.
  induction e1 as [| e rest IH]; [reflexivity |].
  destruct e; cbn [app commands]; rewrite ?IH; reflexivity.
Qed.

Lemma Steps_bulk (cmd : Z -> string) (ports : list Z) (w w' : World H)
    (lines : list string) (evs : list Event) :
  Steps (bulk_round cmd) ports w lines evs w' ->
  commands evs = map cmd ports /\
  Forall (fun e => is_run e = true) evs /\
  heap w' = heap w.
Proof.
  intro HS.
  induction HS as [| x l w w1 w2 line lines e es HP HS (IHc & IHt & IHh)].
  - split; [reflexivity |]. split; [constructor | reflexivity].
  - destruct HP as (ok & outcome & -> & _ & Hh). cbn [app commands map].
    rewrite IHc. split; [reflexivity |].
    split; [constructor; [reflexivity | exact IHt] | congruence].
Qed.

Lemma runs_no_teardown (evs : list Event) :
  Forall (fun e => is_run e = true) evs ->
  Forall (fun e => is_teardown e = false) evs.
Proof.
  apply Forall_impl. intros e He. destruct e; try discriminate; reflexivity.
Qed.

Lemma runs_no_setup (evs : list Event) :
  Forall (fun e => is_run e = true) evs -> setups evs = [].
Proof.
  induction 1 as [| e rest He _ IH]; [reflexivity |].
  destruct e; try discriminate He; exact IH.
Qed.

Lemma bulk_result_eq (cmd : Z -> string) (ports : list Z) (w : World H)
    (r : PyResult (bool * string) * list Event * World H) :
  bulk_result cmd ports w r ->
  exists text evs w1,
    r = (Returned (true, text), evs, w1) /\
    commands evs = map cmd ports /\
    Forall (fun e => is_run e = true) evs /\
    heap w1 = heap w.
Proof.
  intros (lines & Ev & HS). destruct r as [[v evs] w1].
  unfold value, events, world in *. cbn [fst snd] in *.
  destruct (Steps_bulk cmd ports w w1 lines evs HS) as (Hc & Ht & Hh).
  subst v. exists (snd (report lines)), evs, w1.
  split; [| repeat split; assumption].
  destruct lines; reflexivity.
Qed.


Lemma start_one_round (port : Z) (acc : list string) (w : World H) :
  exists line evs w1,
    start_one port acc w = (Returned (acc ++ [line]), evs, w1) /\
    bulk_round start_cmd port w line evs w1.
Proof.
  unfold start_one. cbv zeta. mstep. fold (start_cmd port).
  destruct (run_outcome _) as [ok output]. cbn [fst].
  unfold ret. rewrite prepend_triple.
  do 3 eexists. split; [reflexivity |].
  do 2 eexists. repeat split.
Qed.


Lemma bulk_from_loop (cmd : Z -> string)
    (body : Z -> list string -> M H (list string)) (self : Ref)
    (w : World H) :
  (forall port acc w0, exists line evs w1,
     body port acc w0 = (Returned (acc ++ [line]), evs, w1) /\
     bulk_round cmd port w0 line evs w1) ->
  bulk_result cmd (forwarded_ports (heap w self)) w
    ((config <- read_config self ;;
      results <- for_in (forwarded_ports config) body [] ;;
      ret (report results)) w).
Proof.
  intro Hbody. mstep. rewrite prepend_nil.
  destruct (for_in_steps Z body (bulk_round cmd) Hbody
              (forwarded_ports (heap w self)) [] w)
    as (lines & evs & w' & E & HS).
  rewrite (bind_returned _ _ _ _ _ _ E). unfold ret.
  rewrite prepend_triple. cbn [app] in *.
  exists lines. unfold value, events, world. cbn [fst snd].
  rewrite app_nil_r. split; [reflexivity | exact HS].
Qed.


Lemma start_all_forwards_result (self : Ref) (w : World H) :
  bulk_result start_cmd (forwarded_ports (heap w self)) w
    (start_all_forwards self w).
Proof. apply bulk_from_loop. apply start_one_round. Qed.




End Loops.

(* ===================================================================== *)
(** ** Port tokens *)
(* ===================================================================== *)

Section Tokens.

Lemma split_nonempty (sep : ascii) (s : string) : split sep s <> [].
Proof.
  destruct s as [| c r]; cbn [split]; [discriminate |].
  destruct (Ascii.eqb c sep); [discriminate |].
  destruct (split sep r); discriminate.
Qed.

(** Splitting a string that has a separator in it. *)
Lemma split_app (sep : ascii) (a b : string) :
  split sep (a +++ String sep b) = split sep a ++ split sep b.
Proof.
  induction a as [| c r IH].
  - cbn [String.append split app]. rewrite Ascii.eqb_refl. reflexivity.
  - cbn [String.append split]. destruct (Ascii.eqb c sep).
    + rewrite IH. reflexivity.
    + rewrite IH. pose proof (split_nonempty sep r) as Hne.
      destruct (split sep r) as [| h t]; [congruence | reflexivity].
Qed.

Lemma space_not_comma (c : ascii) :
  is_space c = true -> Ascii.eqb c "," = false.
Proof.
  intro Hs. destruct (Ascii.eqb_spec c ","); [| reflexivity].
  subst c. vm_compute in Hs. discriminate.
Qed.

Lemma split_all_space (s : string) :
  all_space s = true -> split "," s = [s].
Proof.
  induction s as [| c r IH]; intro Hs; [reflexivity |].
  cbn [all_space] in Hs. apply andb_true_iff in Hs. destruct Hs as [Hc Hr].
  cbn [split]. rewrite (space_not_comma c Hc), (IH Hr). reflexivity.
Qed.

Lemma lstrip_all_space (s : string) : all_space s = true -> lstrip s = "".
Proof.
  induction s as [| c r IH]; intro Hs; [reflexivity |].
  cbn [all_space] in Hs. apply andb_true_iff in Hs. destruct Hs as [Hc Hr].
  cbn [lstrip]. rewrite Hc. exact (IH Hr).
Qed.

Lemma strip_all_space (s : string) : all_space s = true -> strip s = "".
Proof. intro Hs. unfold strip. rewrite (lstrip_all_space s Hs). reflexivity. Qed.

Lemma port_tokens_app (a b : string) :
  port_tokens (a +++ "," +++ b) = port_tokens a ++ port_tokens b.
Proof.
  unfold port_tokens. change ("," +++ b) with (String "," b).
  rewrite split_app, map_app, filter_app. reflexivity.
Qed.

Lemma port_tokens_blank (blank : string) :
  all_space blank = true -> port_tokens blank = [].
Proof.
  intro Hs. unfold port_tokens. rewrite (split_all_space blank Hs).
  cbn [map filter]. rewrite (strip_all_space blank Hs). reflexivity.
Qed.

Lemma all_space_lstrip (s : string) : all_space (lstrip s) = all_space s.
Proof.
  induction s as [| c r IH]; [reflexivity |].
  cbn [lstrip]. destruct (is_space c) eqn:Hc; [| reflexivity].
  cbn [all_space]. rewrite Hc. exact IH.
Qed.

Lemma is_blank_rstrip (s : string) : is_blank (rstrip s) = all_space s.
Proof.
  induction s as [| c r IH]; [reflexivity |].
  cbn [rstrip all_space]. rewrite <- IH.
  destruct (is_space c && is_blank (rstrip r)); reflexivity.
Qed.

(** A piece is dropped exactly when it is empty or white space only. *)
Lemma is_blank_strip (s : string) : is_blank (strip s) = all_space s.
Proof. unfold strip. rewrite is_blank_rstrip. apply all_space_lstrip. Qed.

Lemma port_tokens_pieces (ports_str : string) :
  port_tokens ports_str
  = map strip (filter (fun p => negb (all_space p)) (split "," ports_str)).
Proof.
  unfold port_tokens.
  induction (split "," ports_str) as [| p l IH]; [reflexivity |].
  cbn [map filter]. rewrite is_blank_strip, IH.
  destruct (all_space p); reflexivity.
Qed.

End Tokens.

(* ===================================================================== *)
(** ** Batch operations *)
(* ===================================================================== *)

Section Batch.
Context {H : Type} {HO : HostOps H}.

Lemma add_one_round (self : Ref) (token : string) (acc : list string)
    (w : World H) :
  exists line evs w1,
    add_one self token acc w = (Returned (acc ++ [line]), evs, w1) /\
    add_round self token w line evs w1.
Proof.
  unfold add_one, add_round, in_range.
  destruct (int_of_str token) as [port |].
  - destruct ((port <? 1) || (port >? 65535)); cbn [negb].
    + do 3 eexists. split; [reflexivity |]. repeat split.
    + destruct (create_forward_cases self port w)
        as (ok & msg & evs & w1 & E & _).
      rewrite (bind_returned _ _ _ _ _ _ E). cbv beta iota.
      unfold ret. rewrite prepend_triple, app_nil_r.
      do 3 eexists. split; [reflexivity |].
      exists ok, msg. split; [exact E | reflexivity].
  - do 3 eexists. split; [reflexivity |]. repeat split.
Qed.

Lemma remove_one_round (self : Ref) (token : string) (acc : list string)
    (w : World H) :
  exists line evs w1,
    remove_one self token acc w = (Returned (acc ++ [line]), evs, w1) /\
    remove_round self token w line evs w1.
Proof.
  unfold remove_one, remove_round.
  destruct (int_of_str token) as [port |].
  - destruct (remove_forward_eq self port w) as (st & di & h & E).
    rewrite (bind_returned _ _ _ _ _ _ E). cbv beta iota.
    unfold ret. rewrite prepend_triple, app_nil_r.
    do 3 eexists. split; [reflexivity |].
    do 2 eexists. split; [exact E | reflexivity].
  - do 3 eexists. split; [reflexivity |]. repeat split.
Qed.

Lemma add_multiple_forwards_steps (self : Ref) (ports_str : string)
    (w : World H) :
  exists lines,
    value (add_multiple_forwards self ports_str w)
    = Returned (true, join nl lines) /\
    Steps (add_round self) (port_tokens ports_str) w lines
      (events (add_multiple_forwards self ports_str w))
      (world (add_multiple_forwards self ports_str w)).
Proof.
  unfold add_multiple_forwards.
  destruct (for_in_steps string (add_one self) (add_round self)
              (add_one_round self) (port_tokens ports_str) [] w)
    as (lines & evs & w' & E & HS).
  rewrite (bind_returned _ _ _ _ _ _ E). unfold ret.
  rewrite prepend_triple, app_nil_r. cbn [app].
  exists lines. split; [reflexivity | exact HS].
Qed.

Lemma remove_multiple_forwards_steps (self : Ref) (ports_str : string)
    (w : World H) :
  exists lines,
    value (remove_multiple_forwards self ports_str w)
    = Returned (true, join nl lines) /\
    Steps (remove_round self) (port_tokens ports_str) w lines
      (events (remove_multiple_forwards self ports_str w))
      (world (remove_multiple_forwards self ports_str w)).
Proof.
  unfold remove_multiple_forwards.
  destruct (for_in_steps string (remove_one self) (remove_round self)
              (remove_one_round self) (port_tokens ports_str) [] w)
    as (lines & evs & w' & E & HS).
  rewrite (bind_returned _ _ _ _ _ _ E). unfold ret.
  rewrite prepend_triple, app_nil_r. cbn [app].
  exists lines. split; [reflexivity | exact HS].
Qed.

Lemma add_round_line (self : Ref) (token : string) (w w1 : World H)
    (line : string) (evs : list Event) :
  add_round self token w line evs w1 -> token_line token line.
Proof.
  unfold add_round, token_line.
  destruct (int_of_str token) as [port |]; [| tauto].
  destruct (in_range port).
  - intros (ok & msg & _ & ->). eexists. reflexivity.
  - intros (-> & _). eexists. reflexivity.
Qed.

(** C2: [add_multiple_forwards] returns with outer success [True]; the
    report is the newline-join of one entry per token, in input order; each
    round depends on its own token only: a token that is no integer gets
    the entry ["'<token>': Invalid port number"], an integer outside
    1..65535 the entry ["Port <p>: Invalid port number"], and any other is
    handed to [create_forward], whatever happened to the tokens before it,
    and gets the entry ["Port <p>: <message of create_forward>"].  On
    ["80,abc,443"] this is a call for 80, the entry for ["abc"], and a
    call for 443: three entries.  A report of at least one entry has one
    line per token and one more for every line break inside an entry; on
    ["80,abc,443"] these are three lines and the line breaks of the two
    messages. *)
Theorem add_multiple_forwards_isolation (self : Ref) (ports_str : string)
    (w : World H) :
  let r := add_multiple_forwards self ports_str w in
  let r3 := add_multiple_forwards self "80,abc,443" w in
  (exists lines,
     value r = Returned (true, join nl lines) /\
     Steps (add_round self) (port_tokens ports_str) w lines
       (events r) (world r) /\
     Forall2 token_line (port_tokens ports_str) lines /\
     (port_tokens ports_str <> [] ->
      length (report_lines (join nl lines))
      = (length (port_tokens ports_str) + inner_breaks lines)%nat)) /\
  (exists ok1 msg1 e1 w1 ok2 msg2 e2,
     create_forward self 80 w = (Returned (ok1, msg1), e1, w1) /\
     create_forward self 443 w1 = (Returned (ok2, msg2), e2, world r3) /\
     events r3 = e1 ++ e2 /\
     value r3 = Returned (true, join nl [port_line 80 msg1;
                                         "'abc': Invalid port number";
                                         port_line 443 msg2]) /\
     length (report_lines (join nl [port_line 80 msg1;
                                    "'abc': Invalid port number";
                                    port_line 443 msg2]))
     = (3 + count_char (ascii_of_nat 10) msg1
        + count_char (ascii_of_nat 10) msg2)%nat).
Proof.
  intros r r3. subst r r3.
  split.
  - destruct (add_multiple_forwards_steps self ports_str w)
      as (lines & Ev & HS).
    exists lines. split; [exact Ev |]. split; [exact HS |].
    assert (HF : Forall2 token_line (port_tokens ports_str) lines).
    { eapply Steps_lines; [| exact HS].
      intros x w0 line e w1. apply add_round_line. }
    split; [exact HF |]. intro Hne.
    rewrite (Forall2_length HF). apply report_lines_join.
    intros ->. inversion HF as [E |]. congruence.
  - destruct (add_multiple_forwards_steps self "80,abc,443" w)
      as (lines & Ev & HS).
    rewrite Ev.
    change (port_tokens "80,abc,443") with ["80"; "abc"; "443"] in HS.
    inversion HS as [| x l w0 w1 w2 line1 lines1 e1 es1 HP1 HS1]; subst.
    inversion HS1 as [| x l w0 w1' w2' line2 lines2 e2 es2 HP2 HS2]; subst.
    inversion HS2 as [| x l w0 w1'' w2'' line3 lines3 e3 es3 HP3 HS3]; subst.
    inversion HS3; subst.
    vm_compute in HP2. destruct HP2 as (-> & -> & ->).
    unfold add_round in HP1, HP3.
    change (int_of_str "80") with (Some 80) in HP1.
    change (int_of_str "443") with (Some 443) in HP3.
    change (in_range 80) with true in HP1.
    change (in_range 443) with true in HP3.
    destruct HP1 as (ok1 & msg1 & E1 & ->).
    destruct HP3 as (ok2 & msg2 & E3 & ->).
    exists ok1, msg1, e1, w1, ok2, msg2, e3.
    split; [exact E1 |]. split; [exact E3 |].
    cbn [app]. rewrite app_nil_r. split; [reflexivity |].
    split; [reflexivity |].
    rewrite report_lines_join by discriminate.
    unfold inner_breaks, port_line. cbn [length map list_sum fold_right].
    rewrite !inner_breaks_port_line.
    change (count_char (ascii_of_nat 10) (str_of_int 80)) with O.
    change (count_char (ascii_of_nat 10) (str_of_int 443)) with O.
    change (count_char (ascii_of_nat 10) "'abc': Invalid port number")
      with O.
    lia.
Qed.

Lemma port_tokens_drop_blank (a blank b : string) :
  all_space blank = true ->
  port_tokens (a +++ "," +++ blank +++ "," +++ b)
  = port_tokens (a +++ "," +++ b).
Proof.
  intro Hs. rewrite (port_tokens_app a (blank +++ "," +++ b)).
  rewrite (port_tokens_app blank b), (port_tokens_blank blank Hs).
  rewrite (port_tokens_app a b). reflexivity.
Qed.

(** C9: tokens that are empty or white space only are dropped by
    [add_multiple_forwards] and [remove_multiple_forwards], wherever they
    stand.  For every input the tokens are the stripped pieces between the
    commas that are not white space only.  An input with a blank piece
    between two commas, before the first comma or after the last one runs
    exactly as the input without that piece (same result, same events, same
    world), and an input that is blank altogether gives the empty report
    and runs nothing.  On ["80,,443"] the report has the two entries for 80
    and 443: two lines and the line breaks of the two messages; for removal
    these are exactly two lines, and the commands are those of the two
    ports only. *)
Theorem blank_tokens_dropped (self : Ref) (a blank b : string) (w : World H) :
  all_space blank = true ->
  port_tokens blank = [] /\
  port_tokens (a +++ "," +++ blank +++ "," +++ b)
  = port_tokens a ++ port_tokens b /\
  add_multiple_forwards self (a +++ "," +++ blank +++ "," +++ b) w
  = add_multiple_forwards self (a +++ "," +++ b) w /\
  remove_multiple_forwards self (a +++ "," +++ blank +++ "," +++ b) w
  = remove_multiple_forwards self (a +++ "," +++ b) w /\
  (exists msg1 msg2,
     value (add_multiple_forwards self "80,,443" w)
     = Returned (true, join nl [port_line 80 msg1; port_line 443 msg2]) /\
     length (report_lines (join nl [port_line 80 msg1; port_line 443 msg2]))
     = (2 + count_char (ascii_of_nat 10) msg1
        + count_char (ascii_of_nat 10) msg2)%nat) /\
  value (remove_multiple_forwards self "80,,443" w)
  = Returned (true, join nl [port_line 80 "Port forward for 80 removed";
                             port_line 443 "Port forward for 443 removed"]) /\
  commands (events (remove_multiple_forwards self "80,,443" w))
  = [stop_cmd 80; disable_cmd 80; stop_cmd 443; disable_cmd 443] /\
  (forall ports_str,
     port_tokens ports_str
     = map strip (filter (fun p => negb (all_space p))
                    (split "," ports_str))) /\
  (add_multiple_forwards self (blank +++ "," +++ b) w
   = add_multiple_forwards self b w /\
   remove_multiple_forwards self (blank +++ "," +++ b) w
   = remove_multiple_forwards self b w) /\
  (add_multiple_forwards self (a +++ "," +++ blank) w
   = add_multiple_forwards self a w /\
   remove_multiple_forwards self (a +++ "," +++ blank) w
   = remove_multiple_forwards self a w) /\
  (add_multiple_forwards self blank w = (Returned (true, ""), [], w) /\
   remove_multiple_forwards self blank w = (Returned (true, ""), [], w)) /\
  (exists text,
     value (remove_multiple_forwards self "80,,443" w)
     = Returned (true, text) /\
     length (report_lines text) = 2%nat).
Proof.
  intro Hs. split; [exact (port_tokens_blank blank Hs) |].
  split.
  { rewrite (port_tokens_drop_blank a blank b Hs). apply port_tokens_app. }
  split.
  { unfold add_multiple_forwards.
    rewrite (port_tokens_drop_blank a blank b Hs). reflexivity. }
  split.
  { unfold remove_multiple_forwards.
    rewrite (port_tokens_drop_blank a blank b Hs). reflexivity. }
  assert (Hremove :
    value (remove_multiple_forwards self "80,,443" w)
    = Returned (true, join nl [port_line 80 "Port forward for 80 removed";
                               port_line 443 "Port forward for 443 removed"])
    /\ commands (events (remove_multiple_forwards self "80,,443" w))
       = [stop_cmd 80; disable_cmd 80; stop_cmd 443; disable_cmd 443]).
  { destruct (remove_multiple_forwards_steps self "80,,443" w)
      as (lines & Ev & HS).
    change (port_tokens "80,,443") with ["80"; "443"] in HS.
    inversion HS as [| x l w0 w1 w2 line1 lines1 e1 es1 HP1 HS1]; subst.
    inversion HS1 as [| x l w0 w1' w2' line2 lines2 e2 es2 HP2 HS2]; subst.
    inversion HS2; subst.
    unfold remove_round in HP1, HP2.
    change (int_of_str "80") with (Some 80) in HP1.
    change (int_of_str "443") with (Some 443) in HP2.
    destruct HP1 as (ok1 & msg1 & R1 & ->).
    destruct HP2 as (ok2 & msg2 & R2 & ->).
    destruct (remove_forward_eq self 80 w) as (s1 & d1 & h1 & Q1).
    destruct (remove_forward_eq self 443 w1) as (s2 & d2 & h2 & Q2).
    rewrite Q1 in R1. rewrite Q2 in R2.
    injection R1 as _ <- <- _. injection R2 as _ <- <- _.
    rewrite Ev. split; reflexivity. }
  destruct Hremove as [Hrv Hrc].
  split.
  { destruct (add_multiple_forwards_steps self "80,,443" w)
      as (lines & Ev & HS).
    change (port_tokens "80,,443") with ["80"; "443"] in HS.
    inversion HS as [| x l w0 w1 w2 line1 lines1 e1 es1 HP1 HS1]; subst.
    inversion HS1 as [| x l w0 w1' w2' line2 lines2 e2 es2 HP2 HS2]; subst.
    inversion HS2; subst.
    unfold add_round in HP1, HP2.
    change (int_of_str "80") with (Some 80) in HP1.
    change (int_of_str "443") with (Some 443) in HP2.
    change (in_range 80) with true in HP1.
    change (in_range 443) with true in HP2.
    destruct HP1 as (ok1 & msg1 & _ & ->).
    destruct HP2 as (ok2 & msg2 & _ & ->).
    exists msg1, msg2. split; [exact Ev |].
    rewrite report_lines_join by discriminate.
    unfold inner_breaks, port_line. cbn [length map list_sum fold_right].
    rewrite !inner_breaks_port_line.
    change (count_char (ascii_of_nat 10) (str_of_int 80)) with O.
    change (count_char (ascii_of_nat 10) (str_of_int 443)) with O.
    lia. }
  split; [exact Hrv |]. split; [exact Hrc |].
  split; [exact port_tokens_pieces |].
  assert (Hlead : port_tokens (blank +++ "," +++ b) = port_tokens b).
  { rewrite (port_tokens_app blank b), (port_tokens_blank blank Hs).
    reflexivity. }
  assert (Htrail : port_tokens (a +++ "," +++ blank) = port_tokens a).
  { rewrite (port_tokens_app a blank), (port_tokens_blank blank Hs).
    apply app_nil_r. }
  split.
  { unfold add_multiple_forwards, remove_multiple_forwards.
    rewrite Hlead. split; reflexivity. }
  split.
  { unfold add_multiple_forwards, remove_multiple_forwards.
    rewrite Htrail. split; reflexivity. }
  split.
  { unfold add_multiple_forwards, remove_multiple_forwards.
    rewrite (port_tokens_blank blank Hs). split; reflexivity. }
  eexists. split; [exact Hrv | reflexivity].
Qed.

End Batch.

(* ===================================================================== *)
(** ** The coordinator *)
(* ===================================================================== *)

Section Coordinator.
Context {H : Type} {HO : HostOps H}.

Section ForIn.
Variables (A S : Type) (body : A -> S -> M H S).
Variable P : A -> S -> World H -> S -> list Event -> World H -> Prop.
Hypothesis body_round : forall x s w, exists s1 evs w1,
  body x s w = (Returned s1, evs, w1) /\ P x s w s1 evs w1.

Lemma for_in_rounds (l : list A) : forall s w, exists s' evs w',
  for_in l body s w = (Returned s', evs, w') /\ Rounds P l s w s' evs w'.
Proof.
  induction l as [| x rest IH]; intros s w.
  - exists s, [], w. split; [reflexivity | constructor].
  - destruct (body_round x s w) as (s1 & e & w1 & Eb & HP).
    destruct (IH s1 w1) as (s' & es & w' & Er & HR).
    exists s', (e ++ es), w'. cbn [for_in].
    rewrite (bind_returned _ _ _ _ _ _ Eb), Er, prepend_triple.
    split; [reflexivity | econstructor; eassumption].
Qed.

End ForIn.

Lemma setups_app (e1 e2 : list Event) :
  setups (e1 ++ e2) = setups e1 ++ setups e2.
Proof.
  induction e1 as [| e rest IH]; [reflexivity |].
  destruct e; cbn [app setups]; rewrite ?IH; reflexivity.
Qed.

Lemma In_setups (t : Ref) (ok : bool) (evs : list Event) :
  In (t, ok) (setups evs) <-> In (EvSetup t ok) evs.
Proof.
  induction evs as [| e rest IH]; [reflexivity |].
  destruct e; cbn [setups In]; rewrite IH; split;
    try (intros [E | Hin]; [discriminate E | right; exact Hin]);
    try (intro Hin; right; exact Hin);
    try (intros [E | Hin]; [congruence | exact Hin]).
  - intros [E | Hin]; [left; congruence | right; exact Hin].
  - intros [E | Hin]; [left; congruence | right; exact Hin].
Qed.

Lemma template_events_no_setup (evs : list Event) :
  Forall template_event evs -> setups evs = [].
Proof.
  induction 1 as [| e rest He _ IH]; [reflexivity |].
  destruct e; cbn [template_event] in He; try contradiction; exact IH.
Qed.

Lemma full_setup_eq (t : Ref) (w : World H) :
  full_setup t w =
  (Returned (fst (tunnel_full_setup (heap w t) (host w))),
   [EvSetup t (fst (fst (tunnel_full_setup (heap w t) (host w))))],
   mkWorld (heap w) (snd (tunnel_full_setup (heap w t) (host w)))).
Proof.
  unfold full_setup. do 3 mstep. unfold ret.
  rewrite !prepend_triple. reflexivity.
Qed.


Lemma forwards_started_app (t : Ref) (hp : Ref -> TunnelConfig)
    (post es : list Event) :
  forwards_started t hp post -> forwards_started t hp (post ++ es).
Proof.
  intros (m1 & w0 & tok & tmsg & tmpl & w1 & started & m3 & later
          & -> & Hh & Ei & Hc).
  exists m1, w0, tok, tmsg, tmpl, w1, started, m3, (later ++ es).
  split; [| repeat split; assumption].
  list_norm. reflexivity.
Qed.

Lemma apply_one_round (t : Ref) (errors : Z) (w : World H) :
  exists errors' evs w1,
    apply_one t errors w = (Returned errors', evs, w1) /\
    apply_round t errors w errors' evs w1.
Proof.
  unfold apply_one, apply_round, print. mstep. rewrite prepend_nil.
  destruct (is_configured (heap w t)); cbn [negb].
  - rewrite (bind_returned _ _ _ _ _ _ (full_setup_eq t w)). cbv beta iota.
    destruct (tunnel_full_setup (heap w t) (host w)) as [[ok msg] h].
    cbn [fst snd]. mstep.
    destruct ok; cbn [negb].
    + mstep. cbn [heap].
      destruct (forwarded_ports (heap w t)) as [| p ports] eqn:Hports.
      * unfold ret. rewrite !prepend_triple.
        do 3 eexists. split; [reflexivity |]. split; [reflexivity |].
        exists true. eexists. split; [reflexivity |].
        split; [reflexivity |]. split; [reflexivity |].
        intros _ Hne. congruence.
      * destruct (install_template_returns t (mkWorld (heap w) h))
          as (tok & tmsg & tmpl & w1 & Ei & Hh1 & Htmpl).
        rewrite (bind_returned _ _ _ _ _ _ Ei). cbv beta iota. mstep.
        destruct (bulk_result_eq start_cmd _ _ _
                    (start_all_forwards_result t w1))
          as (text & sevs & w2 & Es & Hc & Hruns & Hh2).
        rewrite (bind_returned _ _ _ _ _ _ Es). cbv beta iota. mstep.
        unfold ret. rewrite !prepend_prepend, prepend_triple.
        do 3 eexists. split; [reflexivity |].
        cbn [heap] in Hh1. split; [congruence |].
        exists true. eexists. split; [cbn [app]; reflexivity |].
        split.
        { cbn [setups]. rewrite !setups_app. cbn [setups].
          rewrite (template_events_no_setup _ Htmpl).
          rewrite (runs_no_setup _ Hruns). reflexivity. }
        split; [reflexivity |]. intros _ _.
        exists ("Tunnel '" +++ name (heap w t) +++ "': " +++ msg),
          (mkWorld (heap w) h), tok, tmsg, tmpl, w1, sevs,
          ("Port forwards: " +++ text), [].
        split.
        { list_norm. reflexivity. }
        split; [reflexivity |]. split; [exact Ei |].
        rewrite Hc, Hh1, Hports. reflexivity.
    + unfold ret. rewrite !prepend_triple.
      do 3 eexists. split; [reflexivity |]. split; [reflexivity |].
      exists false. eexists. split; [reflexivity |].
      split; [reflexivity |]. split; [reflexivity |]. discriminate.
  - mstep. unfold ret. rewrite prepend_triple.
    do 3 eexists. split; [reflexivity |]. split; [reflexivity |].
    split; reflexivity.
Qed.

Lemma apply_rounds_summary (tunnels : list Ref) (errors errors' : Z)
    (w w' : World H) (evs : list Event) :
  Rounds apply_round tunnels errors w errors' evs w' ->
  heap w' = heap w /\
  map fst (setups evs) = filter (fun t => is_configured (heap w t)) tunnels /\
  errors' = errors + Z.of_nat (length (filter failed (setups evs))).
Proof.
  intro HR.
  induction HR as [s w | t l s s1 s2 w w1 w2 e es HP HR (IHh & IHs & IHe)].
  - split; [reflexivity |]. split; [reflexivity |]. cbn. lia.
  - destruct HP as [Hh HP]. rewrite Hh in IHh, IHs.
    split; [exact IHh |]. rewrite setups_app, map_app, filter_app, length_app.
    cbn [filter]. destruct (is_configured (heap w t)).
    + destruct HP as (ok & rest & -> & Hrest & -> & _).
      cbn [setups]. rewrite Hrest. cbn [map fst app filter].
      rewrite IHs. split; [reflexivity |].
      unfold failed at 1. cbn [snd]. destruct ok; cbn [negb length]; lia.
    + destruct HP as (-> & Hno). rewrite Hno. cbn [map app filter length].
      split; [exact IHs | lia].
Qed.

Lemma filter_nonempty {A : Type} (f : A -> bool) (l : list A) :
  (0 < length (filter f l))%nat <-> exists x, In x l /\ f x = true.
Proof.
  split.
  - intro Hlen. destruct (filter f l) as [| x rest] eqn:E;
      [cbn in Hlen; lia |].
    exists x. apply filter_In. rewrite E. left. reflexivity.
  - intros (x & Hin & Hfx).
    assert (Hx : In x (filter f l)) by (apply filter_In; split; assumption).
    destruct (filter f l); [contradiction | cbn; lia].
Qed.

(** C1: [cmd_apply] returns; its exit status is 1 iff one of the stored
    configurations is configured and its [full_setup] call failed, and 0
    otherwise; [full_setup] is called exactly for the configured ones, in
    order.  Nothing else (template install, start of the forwards) enters
    the exit status. *)
Theorem cmd_apply_exit_status (tunnels : list Ref) (w : World H) :
  let r := cmd_apply tunnels w in
  exists status,
    value r = Returned status /\
    (status = 0 \/ status = 1) /\
    (status = 1 <->
     exists t, In t tunnels /\ is_configured (heap w t) = true /\
               In (EvSetup t false) (events r)) /\
    (status = 1 <-> exists t, In (t, false) (setups (events r))) /\
    map fst (setups (events r))
    = filter (fun t => is_configured (heap w t)) tunnels.
Proof.
  intro r. subst r. unfold cmd_apply.
  destruct tunnels as [| t0 rest] eqn:Ht.
  - unfold print. mstep. unfold ret. rewrite prepend_triple.
    exists 0. unfold value, events. cbn [fst snd app setups map filter].
    split; [reflexivity |]. split; [left; reflexivity |].
    split; [| split; [| reflexivity]]; split; try discriminate.
    + intros (t & [] & _).
    + intros (t & []).
  - rewrite <- Ht. clear Ht t0 rest.
    destruct (for_in_rounds Ref Z apply_one apply_round apply_one_round
                tunnels 0 w) as (errors & evs & w' & E & HR).
    rewrite (bind_returned _ _ _ _ _ _ E). unfold ret.
    rewrite prepend_triple, app_nil_r.
    destruct (apply_rounds_summary _ _ _ _ _ _ HR) as (Hh & Hs & He).
    unfold value, events. cbn [fst snd].
    assert (Hiff : (if errors >? 0 then 1 else 0) = 1 <->
                   exists t, In (t, false) (setups evs)).
    { rewrite He. split.
      - intro Hone.
        assert (Hpos : (0 < length (filter failed (setups evs)))%nat).
        { destruct (length (filter failed (setups evs)));
            [cbn in Hone; discriminate | lia]. }
        apply filter_nonempty in Hpos. destruct Hpos as ([t ok] & Hin & Hf).
        unfold failed in Hf. cbn [snd] in Hf. destruct ok; [discriminate |].
        exists t. exact Hin.
      - intros (t & Hin).
        assert (Hpos : (0 < length (filter failed (setups evs)))%nat).
        { apply filter_nonempty. exists (t, false). split; [exact Hin |].
          reflexivity. }
        destruct (Z.gtb_spec (0 + Z.of_nat (length (filter failed (setups evs))))
                    0); [reflexivity | lia]. }
    exists (if errors >? 0 then 1 else 0).
    split; [reflexivity |].
    split; [destruct (errors >? 0); [right | left]; reflexivity |].
    split; [| split; [exact Hiff | exact Hs]].
    rewrite Hiff. split.
    + intros (t & Hin). exists t.
      assert (Hf : In t (map fst (setups evs))).
      { apply in_map_iff. exists (t, false). split; [reflexivity | exact Hin]. }
      rewrite Hs in Hf. apply filter_In in Hf. destruct Hf as [Hin' Hc].
      split; [exact Hin' |]. split; [exact Hc |].
      apply In_setups. exact Hin.
    + intros (t & _ & _ & Hin). exists t. apply In_setups. exact Hin.
Qed.

Lemma split_after (x : Event) (e es pre post : list Event) :
  ~ In x e -> e ++ es = pre ++ x :: post ->
  exists l, pre = e ++ l /\ es = l ++ x :: post.
Proof.
  revert pre. induction e as [| y e IH]; intros pre Hno E.
  - exists pre. split; [reflexivity | exact E].
  - destruct pre as [| z pre].
    + cbn [app] in E. injection E as E1 _. subst y. exfalso. apply Hno.
      left. reflexivity.
    + cbn [app] in E. injection E as E1 E2. subst z.
      destruct (IH pre) as (l & -> & ->); [| exact E2 |].
      * intro Hin. apply Hno. right. exact Hin.
      * exists l. split; reflexivity.
Qed.

Lemma no_setup_in (t : Ref) (ok : bool) (evs : list Event) :
  setups evs = [] -> ~ In (EvSetup t ok) evs.
Proof.
  intros Hno Hin. apply In_setups in Hin. rewrite Hno in Hin. exact Hin.
Qed.

Lemma apply_rounds_forwards (tunnels : list Ref) (errors errors' : Z)
    (w w' : World H) (evs : list Event) :
  Rounds apply_round tunnels errors w errors' evs w' ->
  forall pre t post,
    evs = pre ++ EvSetup t true :: post ->
    forwarded_ports (heap w t) <> [] ->
    In t tunnels /\ forwards_started t (heap w) post.
Proof.
  intro HR.
  induction HR as [s w | t0 l s s1 s2 w w1 w2 e es HP HR IH];
    intros pre t post E Hports.
  - destruct pre; discriminate E.
  - destruct HP as [Hh HP]. rewrite Hh in IH.
    assert (Hlater : forall pre', es = pre' ++ EvSetup t true :: post ->
              In t (t0 :: l) /\ forwards_started t (heap w) post).
    { intros pre' E'. destruct (IH pre' t post E' Hports) as [Hin Hfs].
      split; [right; exact Hin | exact Hfs]. }
    destruct (is_configured (heap w t0)).
    + destruct HP as (ok & rest & -> & Hrest & _ & Hstart).
      destruct pre as [| z pre]; cbn [app] in E.
      * injection E as E1 E2 E3. subst t0 ok post.
        split; [left; reflexivity |].
        apply forwards_started_app. apply Hstart; [reflexivity | exact Hports].
      * injection E as E1 E2. subst z.
        destruct (split_after _ _ _ _ _ (no_setup_in t true rest Hrest) E2)
          as (l0 & _ & E').
        exact (Hlater l0 E').
    + destruct HP as (_ & Hno).
      destruct (split_after _ _ _ _ _ (no_setup_in t true e Hno) E)
        as (l0 & _ & E').
      exact (Hlater l0 E').
Qed.

(** C10: in the apply flow, each successful setup of a tunnel with at
    least one registered port is followed by a template install of that
    tunnel and then, whatever the install returned, by the start command
    of every registered port. *)
Theorem forwards_started_after_setup (tunnels : list Ref) (w : World H)
    (pre post : list Event) (t : Ref) :
  events (cmd_apply tunnels w) = pre ++ EvSetup t true :: post ->
  forwarded_ports (heap w t) <> [] ->
  In t tunnels /\ is_configured (heap w t) = true /\
  exists m1 w0 tok tmsg tmpl w1 started m3 later,
    post = EvPrint m1 :: tmpl ++ EvPrint ("Forward template: " +++ tmsg)
                      :: started ++ EvPrint m3 :: later /\
    heap w0 = heap w /\
    install_template t w0 = (Returned (tok, tmsg), tmpl, w1) /\
    commands started = map start_cmd (forwarded_ports (heap w t)).
Proof.
  intros E Hports. unfold cmd_apply in E.
  destruct tunnels as [| t0 rest] eqn:Ht.
  - unfold print in E. revert E. mstep. unfold ret.
    rewrite prepend_triple. unfold events. cbn [fst snd app]. intro E.
    destruct pre as [| z [| z' pre]]; discriminate E.
  - rewrite <- Ht in *. clear Ht t0 rest.
    destruct (for_in_rounds Ref Z apply_one apply_round apply_one_round
                tunnels 0 w) as (errors & evs & w' & El & HR).
    rewrite (bind_returned _ _ _ _ _ _ El) in E. unfold ret in E.
    rewrite prepend_triple, app_nil_r in E. unfold events in E.
    cbn [fst snd] in E.
    destruct (apply_rounds_forwards _ _ _ _ _ _ HR pre t post E Hports)
      as [Hin Hfs].
    split; [exact Hin |]. split; [| exact Hfs].
    destruct (apply_rounds_summary _ _ _ _ _ _ HR) as (_ & Hs & _).
    assert (Hf : In t (map fst (setups evs))).
    { apply in_map_iff. exists (t, true). split; [reflexivity |].
      apply In_setups. rewrite E. apply in_or_app. right. left. reflexivity. }
    rewrite Hs in Hf. apply filter_In in Hf. tauto.
Qed.




End Coordinator.

(* ===================================================================== *)
(** ** Runs on the scripted host *)
(* ===================================================================== *)

Section Scenarios.

Example port_tokens_examples :
  port_tokens " 80 , abc,443," = ["80"; "abc"; "443"] /\
  port_tokens "80,,443" = ["80"; "443"] /\
  port_tokens "" = [].
Proof. repeat split. Qed.

Example int_of_str_examples :
  int_of_str "443" = Some 443 /\ int_of_str "+80" = Some 80 /\
  int_of_str "-5" = Some (-5) /\ int_of_str "1_000" = Some 1000 /\
  int_of_str "abc" = None /\ int_of_str "8 0" = None /\
  int_of_str "" = None.
Proof. repeat split. Qed.

(** The unconfigured tunnel is skipped; the forwards fail to start and the
    exit status is still 0. *)
Example apply_with_failing_forwards :
  value (@cmd_apply nat (scripted failing) [O; 1%nat] mixed_world)
  = Returned 0 /\
  events (@cmd_apply nat (scripted failing) [O; 1%nat] mixed_world)
  = [EvPrint "VortexL2: Tunnel 'tunnel0' not fully configured, skipping";
     EvSetup 1%nat true;
     EvPrint "Tunnel 'tunnel1': Tunnel setup complete";
     EvWrite _get_template_path (FORWARD_TEMPLATE "10.30.30.2") true;
     EvRun "systemctl daemon-reload" false;
     EvPrint ("Forward template: Template installed at "
              +++ _get_template_path);
     EvRun "systemctl start vortexl2-forward@80.service" false;
     EvPrint "Port forwards: Port 80: failed: Failed to start unit"].
Proof. split; reflexivity. Qed.

(** A failing setup gives exit status 1 and no forward is started. *)
Example apply_with_failing_setup :
  value (@cmd_apply nat (scripted setup_fails) [O; 1%nat] mixed_world)
  = Returned 1 /\
  commands (events (@cmd_apply nat (scripted setup_fails) [O; 1%nat]
                      mixed_world)) = [].
Proof. split; reflexivity. Qed.


(** A failing [create_forward 80] on a port that is registered: the call
    returns failure and port 80 is still in the port set.  First with the
    port in the stored configuration, then with the port registered by an
    earlier, successful call. *)
Lemma create_forward_failure_keeps_registered_port :
  (value (@create_forward nat (scripted failing) O 80 boot_world)
   = Returned (false, "Failed to create forward for port 80: "
                      +++ "Failed to start unit") /\
   In 80 (forwarded_ports
            (heap (world (@create_forward nat (scripted failing) O 80
                            boot_world)) O))) /\
  (forwarded_ports (heap after_first_create O) = [80] /\
   value (@create_forward nat (scripted first_only) O 80 after_first_create)
   = Returned (false, "Failed to create forward for port 80: busy") /\
   In 80 (forwarded_ports
            (heap (world (@create_forward nat (scripted first_only) O 80
                            after_first_create)) O))).
Proof.
  vm_compute. repeat split; left; reflexivity.
Qed.

Lemma create_forward_port_set_witness :
  NoDup (forwarded_ports (heap after_first_create O)) /\
  exists ok msg,
    value (@create_forward nat (scripted first_only) O 80 after_first_create)
    = Returned (ok, msg) /\
    (ok = false ->
     forwarded_ports
       (heap (world (@create_forward nat (scripted first_only) O 80
                       after_first_create)) O)
     = forwarded_ports (heap after_first_create O)).
Proof.
  assert (Hnd : NoDup (forwarded_ports (heap after_first_create O))).
  { vm_compute. constructor; [intros [] | constructor]. }
  split; [exact Hnd |].
  destruct (@create_forward_port_set nat (scripted first_only) O 80
              after_first_create Hnd) as (ok & msg & Ev & Hf & _).
  exists ok, msg. split; [exact Ev |]. intro E. apply (Hf E).
Defined.

(** With a target set and a template directory that cannot be written,
    [install_template] fails and runs no reload. *)
Lemma install_template_write_failure_no_reload :
  remote_forward_ip (heap boot_world O) = Some "10.30.30.2" /\
  value (@install_template nat (scripted read_only) O boot_world)
  = Returned (false, "Failed to install template: Read-only file system") /\
  commands (events (@install_template nat (scripted read_only) O boot_world))
  = [].
Proof. vm_compute. repeat split. Qed.

(** On a host whose failing enable command prints two lines, the report
    of [add_multiple_forwards] for ["80,abc,443"] has its three entries
    and five lines. *)
Lemma add_multiple_forwards_five_line_report :
  port_tokens "80,abc,443" = ["80"; "abc"; "443"] /\
  value (@add_multiple_forwards nat (scripted two_line_failure) O
           "80,abc,443" boot_world)
  = Returned
      (true,
       join nl
         ["Port 80: Failed to create forward for port 80: "
          +++ "Job for the unit failed." +++ nl
          +++ "See journalctl -xe for details.";
          "'abc': Invalid port number";
          "Port 443: Failed to create forward for port 443: "
          +++ "Job for the unit failed." +++ nl
          +++ "See journalctl -xe for details."]) /\
  (exists text,
     value (@add_multiple_forwards nat (scripted two_line_failure) O
              "80,abc,443" boot_world) = Returned (true, text) /\
     length (report_lines text) = 5%nat).
Proof.
  split; [reflexivity |]. split; [reflexivity |].
  eexists. split; reflexivity.
Qed.


(** On the same host the report of [add_multiple_forwards] for
    ["80,,443"] has its two entries and four lines. *)
Lemma add_blank_token_four_line_report :
  port_tokens "80,,443" = ["80"; "443"] /\
  (exists text,
     value (@add_multiple_forwards nat (scripted two_line_failure) O
              "80,,443" boot_world) = Returned (true, text) /\
     length (report_lines text) = 4%nat).
Proof.
  split; [reflexivity |]. eexists. split; reflexivity.
Qed.

Lemma blank_tokens_dropped_witness :
  all_space " " = true /\
  @add_multiple_forwards nat (scripted happy) O "80, ,443" boot_world
  = @add_multiple_forwards nat (scripted happy) O "80,443" boot_world.
Proof.
  split; [reflexivity |].
  apply (@blank_tokens_dropped nat (scripted happy) O "80" " " "443"
           boot_world eq_refl).
Defined.

Lemma forwards_started_after_setup_witness :
  value (@install_template nat (scripted read_only) O boot_world)
  = Returned (false, "Failed to install template: Read-only file system") /\
  exists post,
    events (@cmd_apply nat (scripted read_only) [O] boot_world)
    = [] ++ EvSetup O true :: post /\
    forwarded_ports (heap boot_world O) <> [] /\
    In O [O] /\ is_configured (heap boot_world O) = true.
Proof.
  split; [reflexivity |].
  eexists. split; [reflexivity |].
  assert (Hports : forwarded_ports (heap boot_world O) <> [])
    by (vm_compute; discriminate).
  split; [exact Hports |].
  destruct (@forwards_started_after_setup nat (scripted read_only) [O]
              boot_world [] _ O eq_refl Hports) as (Hin & Hc & _).
  split; assumption.
Defined.

End Scenarios.

(* ===================================================================== *)
(** ** Batches, continued *)
(* ===================================================================== *)

Section MoreBatch.
Context {H : Type} {HO : HostOps H}.

Lemma Steps_remove (self : Ref) (tokens : list string) (w w' : World H)
    (lines : list string) (evs : list Event) :
  Steps (remove_round self) tokens w lines evs w' ->
  lines = map remove_line tokens /\
  commands evs = flat_map remove_cmds tokens.
Proof.
  intro HS.
  induction HS as [| t l w w1 w2 line lines e es HP HS [IHl IHc]].
  - split; reflexivity.
  - unfold remove_round in HP. cbn [map flat_map].
    unfold remove_line at 1, remove_cmds at 1.
    rewrite commands_app, IHl, IHc.
    destruct (int_of_str t) as [port |].
    + destruct HP as (ok & msg & E & ->).
      destruct (remove_forward_eq self port w) as (st & di & h & Q).
      rewrite Q in E. injection E as _ <- <- _. split; reflexivity.
    + destruct HP as (-> & -> & _). split; reflexivity.
Qed.

(** X1: the report of [remove_multiple_forwards] and the commands it runs
    depend on the input string only: every integer token, whatever its
    value, gets the stop and the disable command and the line
    ["Port <p>: Port forward for <p> removed"]; no range check is made and
    no failure is ever reported. *)
Theorem remove_multiple_forwards_report (self : Ref) (ports_str : string)
    (w : World H) :
  value (remove_multiple_forwards self ports_str w)
  = Returned (true, join nl (map remove_line (port_tokens ports_str))) /\
  commands (events (remove_multiple_forwards self ports_str w))
  = flat_map remove_cmds (port_tokens ports_str).
Proof.
  destruct (remove_multiple_forwards_steps self ports_str w)
    as (lines & Ev & HS).
  destruct (Steps_remove _ _ _ _ _ _ HS) as [-> Hc].
  split; assumption.
Qed.

Lemma for_in_rejected (self : Ref) (tokens : list string) :
  forallb rejected tokens = true ->
  forall acc (w : World H),
    for_in tokens (add_one self) acc w =
    (Returned (acc ++ map rejected_line tokens), [], w).
Proof.
  induction tokens as [| t rest IH]; intros Hall acc w.
  - cbn [for_in map]. rewrite app_nil_r. reflexivity.
  - cbn [forallb] in Hall. apply andb_true_iff in Hall.
    destruct Hall as [Ht Hrest]. cbn [for_in map].
    assert (E : add_one self t acc w
                = (Returned (acc ++ [rejected_line t]), [], w)).
    { unfold add_one, rejected_line. unfold rejected, in_range in Ht.
      destruct (int_of_str t) as [port |]; [| reflexivity].
      rewrite negb_involutive in Ht. rewrite Ht. reflexivity. }
    rewrite (bind_returned _ _ _ _ _ _ E), (IH Hrest), prepend_triple.
    rewrite <- app_assoc. reflexivity.
Qed.

(** X2: when every token is turned down (no integer, or outside
    1..65535), [add_multiple_forwards] touches neither the host nor the
    configuration, and still returns outer success with one line per
    token. *)
Theorem add_multiple_forwards_all_rejected (self : Ref) (ports_str : string)
    (w : World H) :
  forallb rejected (port_tokens ports_str) = true ->
  add_multiple_forwards self ports_str w =
  (Returned (true, join nl (map rejected_line (port_tokens ports_str))),
   [], w).
Proof.
  intro Hall. unfold add_multiple_forwards.
  rewrite (bind_returned _ _ _ _ _ _ (for_in_rejected self _ Hall [] w)).
  reflexivity.
Qed.

End MoreBatch.

(* ===================================================================== *)
(** ** [create_forward] and [update_template], continued *)
(* ===================================================================== *)

Section MoreSingle.
Context {H : Type} {HO : HostOps H}.

(** X3: with the template unit in place, [create_forward] writes no file:
    it runs the enable-and-start command of the port and nothing else, and
    succeeds iff that command exits with status zero. *)
Theorem create_forward_template_present (self : Ref) (port : Z)
    (w : World H) :
  path_exists _get_template_path (host w) = true ->
  exists ok msg w1,
    create_forward self port w
    = (Returned (ok, msg), [EvRun (enable_cmd port) ok], w1) /\
    ok = exited_zero (fst (subprocess_run (enable_cmd port) (host w))).
Proof.
  intro Hp. unfold create_forward. mstep. rewrite prepend_nil.
  cbn [fst snd]. rewrite world_eta, Hp. cbn [negb]. mstep. cbn [negb].
  cbv zeta. mstep. fold (enable_cmd port). rewrite prepend_nil.
  assert (Hz : fst (run_outcome
                      (fst (subprocess_run (enable_cmd port) (host w))))
               = exited_zero (fst (subprocess_run (enable_cmd port) (host w)))).
  { destruct (fst (subprocess_run (enable_cmd port) (host w))); reflexivity. }
  rewrite <- Hz.
  destruct (run_outcome (fst (subprocess_run (enable_cmd port) (host w))))
    as [[|] output]; cbn [fst negb].
  - do 2 mstep. unfold ret. rewrite !prepend_triple.
    do 3 eexists. split; reflexivity.
  - unfold ret. rewrite prepend_triple. do 3 eexists. split; reflexivity.
Qed.

(** X4: without the template unit and without a remote-forward target,
    [create_forward] fails before it touches the host: no command, no
    write, every configuration as it was. *)
Theorem create_forward_without_target (self : Ref) (port : Z) (w : World H) :
  path_exists _get_template_path (host w) = false ->
  str_truthy (remote_forward_ip (heap w self)) = false ->
  create_forward self port w =
  (Returned (false, "Failed to install template: "
                    +++ "Remote forward IP not configured"), [], w).
Proof.
  intros Hp Hu. unfold create_forward. mstep. rewrite prepend_nil.
  cbn [fst snd]. rewrite world_eta, Hp. cbn [negb].
  rewrite (bind_returned _ _ _ _ _ _ (install_template_unset self w Hu)).
  reflexivity.
Qed.

(** The events of [create_forward]: template events, then at most the
    enable-and-start command of the port. *)
Lemma create_forward_events (self : Ref) (port : Z) (w : World H) :
  Forall (fun e => template_event e \/ exists ok, e = EvRun (enable_cmd port) ok)
    (events (create_forward self port w)).
Proof.
  unfold create_forward. mstep. rewrite prepend_nil. cbn [fst snd].
  rewrite world_eta.
  assert (Hpre : exists ok msg evs0 w0,
    (if negb (path_exists _get_template_path (host w))
     then install_template self else ret (true, "")) w
    = (Returned (ok, msg), evs0, w0) /\ Forall template_event evs0).
  { destruct (path_exists _get_template_path (host w)); cbn [negb].
    - do 4 eexists. split; [reflexivity | constructor].
    - destruct (install_template_returns self w)
        as (ok & msg & evs & w1 & E & _ & Hev).
      do 4 eexists. split; eassumption. }
  destruct Hpre as (iok & imsg & evs0 & w0 & Ei & Hev).
  rewrite (bind_returned _ _ _ _ _ _ Ei). cbv beta iota.
  assert (Hleft : Forall
            (fun e => template_event e \/
                      exists ok, e = EvRun (enable_cmd port) ok) evs0).
  { eapply Forall_impl; [| exact Hev]. intros e He. left. exact He. }
  destruct iok; cbn [negb].
  - cbv zeta. mstep. fold (enable_cmd port).
    destruct (run_outcome (fst (subprocess_run (enable_cmd port) (host w0))))
      as [[|] output]; cbn [fst negb].
    + do 2 mstep. unfold ret. rewrite !prepend_prepend, prepend_triple.
      unfold events. cbn [fst snd]. list_norm.
      apply Forall_app. split; [exact Hleft |].
      constructor; [right; eexists; reflexivity | constructor].
    + unfold ret. rewrite prepend_prepend, prepend_triple.
      unfold events. cbn [fst snd]. list_norm.
      apply Forall_app. split; [exact Hleft |].
      constructor; [right; eexists; reflexivity | constructor].
  - unfold ret. rewrite prepend_triple. unfold events. cbn [fst snd].
    rewrite app_nil_r. exact Hleft.
Qed.

Lemma In_commands (cmd : string) (evs : list Event) :
  In cmd (commands evs) <-> exists ok, In (EvRun cmd ok) evs.
Proof.
  induction evs as [| e rest IH]; cbn [commands In].
  - split; [intros [] | intros (ok & [])].
  - destruct e; cbn [commands In]; rewrite ?IH;
      try (split; [intros (ok & Hin); exists ok; right; exact Hin
                  | intros (ok & [E | Hin]); [discriminate E |];
                    exists ok; exact Hin]).
    split.
    + intros [E | (ok & Hin)]; [subst; eexists; left; reflexivity |].
      exists ok. right. exact Hin.
    + intros (ok & [E | Hin]); [left; congruence | right; exists ok; exact Hin].
Qed.

Lemma Steps_add_commands (self : Ref) (tokens : list string) (w w' : World H)
    (lines : list string) (evs : list Event) :
  Steps (add_round self) tokens w lines evs w' ->
  Forall (fun e => template_event e \/
                   exists t p ok, In t tokens /\ int_of_str t = Some p /\
                                  in_range p = true /\
                                  e = EvRun (enable_cmd p) ok) evs.
Proof.
  intro HS.
  induction HS as [| t l w w1 w2 line lines e es HP HS IH].
  - constructor.
  - apply Forall_app. split.
    + unfold add_round in HP.
      destruct (int_of_str t) as [p |] eqn:Ep;
        [| destruct HP as (_ & -> & _); constructor].
      destruct (in_range p) eqn:Er;
        [| destruct HP as (_ & -> & _); constructor].
      destruct HP as (ok & msg & E & _).
      pose proof (create_forward_events self p w) as Hev.
      rewrite E in Hev. unfold events in Hev. cbn [fst snd] in Hev.
      eapply Forall_impl; [| exact Hev].
      intros ev [Ht | (ok' & ->)]; [left; exact Ht |].
      right. exists t, p, ok'. repeat split; try assumption. left. reflexivity.
    + eapply Forall_impl; [| exact IH].
      intros ev [Ht | (t' & p & ok & Hin & Hp & Hr & ->)];
        [left; exact Ht |].
      right. exists t', p, ok. repeat split; try assumption. right. exact Hin.
Qed.

(** X5: every command [add_multiple_forwards] runs is the service-manager
    reload or the enable-and-start command of a port that is a token of
    the input and lies in 1..65535; a port outside the range is never
    enabled. *)
Theorem add_multiple_forwards_commands (self : Ref) (ports_str cmd : string)
    (w : World H) :
  In cmd (commands (events (add_multiple_forwards self ports_str w))) ->
  cmd = "systemctl daemon-reload" \/
  exists token port,
    In token (port_tokens ports_str) /\ int_of_str token = Some port /\
    1 <= port <= 65535 /\ cmd = enable_cmd port.
Proof.
  intro Hin. apply In_commands in Hin. destruct Hin as (ok & Hin).
  destruct (add_multiple_forwards_steps self ports_str w)
    as (lines & _ & HS).
  pose proof (Steps_add_commands _ _ _ _ _ _ HS) as Hall.
  rewrite Forall_forall in Hall. destruct (Hall _ Hin) as [Ht | Hen].
  - left. exact Ht.
  - destruct Hen as (t & p & ok' & Ht & Hp & Hr & E).
    right. exists t, p. split; [exact Ht |]. split; [exact Hp |].
    injection E as -> _. split; [| reflexivity].
    unfold in_range in Hr. apply negb_true_iff in Hr.
    apply orb_false_iff in Hr. destruct Hr as [H1 H2].
    apply Z.ltb_ge in H1. destruct (Z.gtb_spec p 65535); [discriminate | lia].
Qed.

End MoreSingle.

(* ===================================================================== *)
(** ** Template update and exact bulk reports *)
(* ===================================================================== *)

Section Updates.
Context {H : Type} {HO : HostOps H}.

(** X6: [update_template] with a non-empty address stores it as the
    remote-forward target of this configuration (and of no other) before
    anything can fail, and then writes the template rendered with the new
    address; it succeeds iff that write succeeds.  Without an address it
    is [install_template]. *)
Theorem update_template_sets_target (self : Ref) (ip : string) (w : World H) :
  ip <> "" ->
  let r := update_template self (Some ip) w in
  remote_forward_ip (heap (world r) self) = Some ip /\
  (forall other, other <> self -> heap (world r) other = heap w other) /\
  (exists ok msg written rest,
     value r = Returned (ok, msg) /\
     events r = EvWrite _get_template_path (FORWARD_TEMPLATE ip) written
                :: rest /\
     ok = written) /\
  update_template self None w = install_template self w /\
  update_template self (Some "") w = install_template self w.
Proof.
  intros Hne r. subst r.
  assert (Hnone : forall o, str_truthy o = false ->
            update_template self o w = install_template self w).
  { intros o Ho. unfold update_template. rewrite Ho. mstep.
    apply prepend_nil. }
  assert (Hset : update_template self (Some ip) w
                 = install_template self
                     (update self
                        (with_remote_forward_ip (heap w self) (Some ip)) w)).
  { unfold update_template.
    assert (Ht : str_truthy (Some ip) = true)
      by (destruct ip; [congruence | reflexivity]).
    rewrite Ht.
    assert (Em : (config <- read_config self ;;
                  write_config self
                    (with_remote_forward_ip config (Some ip))) w
                 = (Returned tt, [],
                    update self
                      (with_remote_forward_ip (heap w self) (Some ip)) w)).
    { mstep. reflexivity. }
    rewrite (bind_returned _ _ _ _ _ _ Em). apply prepend_nil. }
  rewrite Hset.
  set (w1 := update self (with_remote_forward_ip (heap w self) (Some ip)) w).
  assert (Hip : remote_forward_ip (heap w1 self) = Some ip).
  { unfold w1. rewrite heap_update_same. reflexivity. }
  rewrite (install_template_set self w1 ip Hip Hne).
  assert (Hother : forall other, other <> self -> heap w1 other = heap w other).
  { intros other Ho. unfold w1, update. cbn [heap].
    destruct (Nat.eqb_spec other self); [contradiction | reflexivity]. }
  destruct (write_file _get_template_path (FORWARD_TEMPLATE ip) (host w1))
    as [[u | e] h]; unfold value, events, world; cbn [fst snd heap].
  - split; [exact Hip |]. split; [exact Hother |].
    split; [do 4 eexists; repeat split |].
    split; [apply Hnone; reflexivity | apply Hnone; reflexivity].
  - split; [exact Hip |]. split; [exact Hother |].
    split; [do 4 eexists; repeat split |].
    split; [apply Hnone; reflexivity | apply Hnone; reflexivity].
Qed.

Lemma stop_one_exact (port : Z) (acc : list string) (w : World H) :
  exists line evs w1,
    stop_one port acc w = (Returned (acc ++ [line]), evs, w1) /\
    exact_round stop_cmd stop_line port w line evs w1.
Proof.
  unfold stop_one. cbv zeta. mstep. fold (stop_cmd port).
  destruct (run_outcome _) as [ok output]. cbn [fst].
  unfold ret. rewrite prepend_triple.
  do 3 eexists. split; [reflexivity |].
  exists (mkOutcome port ok output). repeat split.
Qed.

Lemma start_one_exact (port : Z) (acc : list string) (w : World H) :
  exists line evs w1,
    start_one port acc w = (Returned (acc ++ [line]), evs, w1) /\
    exact_round start_cmd start_line port w line evs w1.
Proof.
  unfold start_one. cbv zeta. mstep. fold (start_cmd port).
  destruct (run_outcome _) as [ok output]. cbn [fst].
  unfold ret. rewrite prepend_triple.
  do 3 eexists. split; [reflexivity |].
  exists (mkOutcome port ok output). repeat split.
Qed.

Lemma restart_one_exact (self : Ref) (port : Z) (acc : list string)
    (w : World H) :
  exists line evs w1,
    restart_one self port acc w = (Returned (acc ++ [line]), evs, w1) /\
    exact_round restart_cmd restart_line port w line evs w1.
Proof.
  unfold restart_one, restart_forward. cbv zeta. fold (restart_cmd port).
  assert (E : exists (ok : bool) (output : string),
    (' (success, output) <- run_command (restart_cmd port) ;;
     (if negb success
      then ret (false, "Failed to restart port " +++ str_of_int port
                       +++ ": " +++ output)
      else ret (true, "Port forward for " +++ str_of_int port
                      +++ " restarted"))) w
    = (Returned (ok, if ok
                     then "Port forward for " +++ str_of_int port
                          +++ " restarted"
                     else "Failed to restart port " +++ str_of_int port
                          +++ ": " +++ output),
       [EvRun (restart_cmd port) ok],
       mkWorld (heap w) (snd (subprocess_run (restart_cmd port) (host w))))).
  { mstep. destruct (run_outcome _) as [[|] output]; cbn [fst negb];
      unfold ret; rewrite prepend_triple;
      [exists true, output | exists false, output]; reflexivity. }
  destruct E as (ok & output & E).
  rewrite (bind_returned _ _ _ _ _ _ E). cbv beta iota.
  unfold ret. rewrite prepend_triple.
  do 3 eexists. split; [reflexivity |].
  exists (mkOutcome port ok output). repeat split.
Qed.

Lemma Steps_exact (cmd : Z -> string) (line_of : Outcome -> string)
    (ports : list Z) (w w' : World H) (lines : list string)
    (evs : list Event) :
  Steps (exact_round cmd line_of) ports w lines evs w' ->
  exists outcomes,
    map o_port outcomes = ports /\
    evs = map (outcome_event cmd) outcomes /\
    lines = map line_of outcomes /\
    heap w' = heap w.
Proof.
  intro HS.
  induction HS as [| p l w w1 w2 line lines e es HP HS IH].
  - exists []. repeat split.
  - destruct HP as (o & Hp & -> & -> & Hh).
    destruct IH as (os & Hps & -> & -> & Hh').
    exists (o :: os). cbn [map app]. rewrite Hp, Hps.
    repeat split. congruence.
Qed.

Lemma exact_from_loop (cmd : Z -> string) (line_of : Outcome -> string)
    (body : Z -> list string -> M H (list string)) (self : Ref)
    (w : World H) :
  (forall port acc w0, exists line evs w1,
     body port acc w0 = (Returned (acc ++ [line]), evs, w1) /\
     exact_round cmd line_of port w0 line evs w1) ->
  exists outcomes,
    map o_port outcomes = forwarded_ports (heap w self) /\
    (config <- read_config self ;;
     results <- for_in (forwarded_ports config) body [] ;;
     ret (report results)) w
    = (Returned (report (map line_of outcomes)),
       map (outcome_event cmd) outcomes,
       mkWorld (heap w)
         (host (world ((config <- read_config self ;;
                        results <- for_in (forwarded_ports config) body [] ;;
                        ret (report results)) w)))).
Proof.
  intro Hbody. mstep. rewrite prepend_nil.
  destruct (for_in_steps Z body (exact_round cmd line_of) Hbody
              (forwarded_ports (heap w self)) [] w)
    as (lines & evs & w' & E & HS).
  rewrite (bind_returned _ _ _ _ _ _ E). unfold ret.
  rewrite prepend_triple. cbn [app].
  destruct (Steps_exact _ _ _ _ _ _ _ HS) as (os & Hps & -> & -> & Hh).
  exists os. split; [exact Hps |]. unfold world. cbn [snd].
  rewrite app_nil_r, <- Hh, world_eta. reflexivity.
Qed.

(** X7: the bulk operations run exactly one command per registered port,
    in the order of the port set, and change no configuration; the line of
    a port says ["stopped"] / ["started"] / ["... restarted"] iff the
    command of that port exited with status zero, and carries the failure
    text otherwise. *)
Theorem bulk_operations_exact (self : Ref) (w : World H) :
  (exists outcomes,
     map o_port outcomes = forwarded_ports (heap w self) /\
     value (stop_all_forwards self w)
     = Returned (report (map stop_line outcomes)) /\
     events (stop_all_forwards self w)
     = map (outcome_event stop_cmd) outcomes /\
     heap (world (stop_all_forwards self w)) = heap w) /\
  (exists outcomes,
     map o_port outcomes = forwarded_ports (heap w self) /\
     value (start_all_forwards self w)
     = Returned (report (map start_line outcomes)) /\
     events (start_all_forwards self w)
     = map (outcome_event start_cmd) outcomes /\
     heap (world (start_all_forwards self w)) = heap w) /\
  (exists outcomes,
     map o_port outcomes = forwarded_ports (heap w self) /\
     value (restart_all_forwards self w)
     = Returned (report (map restart_line outcomes)) /\
     events (restart_all_forwards self w)
     = map (outcome_event restart_cmd) outcomes /\
     heap (world (restart_all_forwards self w)) = heap w).
Proof.
  split; [| split].
  - destruct (exact_from_loop stop_cmd stop_line stop_one self w
                stop_one_exact) as (os & Hps & E).
    exists os. unfold stop_all_forwards. rewrite E. repeat split; assumption.
  - destruct (exact_from_loop start_cmd start_line start_one self w
                start_one_exact) as (os & Hps & E).
    exists os. unfold start_all_forwards. rewrite E. repeat split; assumption.
  - destruct (exact_from_loop restart_cmd restart_line (restart_one self)
                self w (restart_one_exact self)) as (os & Hps & E).
    exists os. unfold restart_all_forwards. rewrite E.
    repeat split; assumption.
Qed.

End Updates.

(* ===================================================================== *)
(** ** The apply flow, continued *)
(* ===================================================================== *)

Section MoreApply.
Context {H : Type} {HO : HostOps H}.

Lemma template_events_no_teardown (evs : list Event) :
  Forall template_event evs -> Forall (fun e => is_teardown e = false) evs.
Proof.
  apply Forall_impl. intros e He.
  destruct e; cbn [template_event] in He; try contradiction; reflexivity.
Qed.

Lemma apply_one_quiet (t : Ref) (errors : Z) (w : World H) :
  exists errors' evs w1,
    apply_one t errors w = (Returned errors', evs, w1) /\
    quiet_round t errors w errors' evs w1.
Proof.
  unfold apply_one, quiet_round, print. mstep. rewrite prepend_nil.
  destruct (is_configured (heap w t)); cbn [negb].
  - rewrite (bind_returned _ _ _ _ _ _ (full_setup_eq t w)). cbv beta iota.
    destruct (tunnel_full_setup (heap w t) (host w)) as [[ok msg] h].
    cbn [fst snd]. mstep.
    destruct ok; cbn [negb].
    + mstep. cbn [heap].
      destruct (forwarded_ports (heap w t)) as [| p ports] eqn:Hports.
      * unfold ret. rewrite !prepend_triple.
        do 3 eexists. split; [reflexivity |]. split; [reflexivity |].
        split; [repeat constructor |]. intros _. repeat constructor.
      * destruct (install_template_returns t (mkWorld (heap w) h))
          as (tok & tmsg & tmpl & w1 & Ei & Hh1 & Htmpl).
        rewrite (bind_returned _ _ _ _ _ _ Ei). cbv beta iota. mstep.
        destruct (bulk_result_eq start_cmd _ _ _
                    (start_all_forwards_result t w1))
          as (text & sevs & w2 & Es & Hc & Hruns & Hh2).
        rewrite (bind_returned _ _ _ _ _ _ Es). cbv beta iota. mstep.
        unfold ret. rewrite !prepend_prepend, prepend_triple.
        do 3 eexists. split; [reflexivity |].
        cbn [heap] in Hh1. split; [congruence |].
        split; [| discriminate]. list_norm.
        constructor; [reflexivity |]. constructor; [reflexivity |].
        apply Forall_app. split; [apply template_events_no_teardown, Htmpl |].
        constructor; [reflexivity |]. apply Forall_app.
        split; [apply runs_no_teardown, Hruns | repeat constructor].
    + unfold ret. rewrite !prepend_triple.
      do 3 eexists. split; [reflexivity |]. split; [reflexivity |].
      split; [repeat constructor |]. intros _. repeat constructor.
  - mstep. unfold ret. rewrite prepend_triple.
    do 3 eexists. split; [reflexivity |]. split; [reflexivity |].
    split; [repeat constructor |]. intros _. repeat constructor.
Qed.

Lemma quiet_rounds (tunnels : list Ref) (errors errors' : Z)
    (w w' : World H) (evs : list Event) :
  Rounds quiet_round tunnels errors w errors' evs w' ->
  heap w' = heap w /\
  Forall (fun e => is_teardown e = false) evs /\
  ((forall t, In t tunnels -> forwarded_ports (heap w t) = []) ->
   Forall (fun e => is_run e = false /\ is_write e = false) evs).
Proof.
  intro HR.
  induction HR as [s w | t l s s1 s2 w w1 w2 e es HP HR (IHh & IHt & IHq)].
  - split; [reflexivity |]. split; [constructor |]. intros _. constructor.
  - destruct HP as (Hh & Ht & Hq). rewrite Hh in IHh, IHq.
    split; [exact IHh |]. split; [apply Forall_app; split; assumption |].
    intro Hall. apply Forall_app. split.
    + apply Hq. apply Hall. left. reflexivity.
    + apply IHq. intros t' Hin. apply Hall. right. exact Hin.
Qed.

Lemma no_runs_no_commands (evs : list Event) :
  Forall (fun e => is_run e = false /\ is_write e = false) evs ->
  commands evs = [].
Proof.
  induction 1 as [| e rest [Hr _] _ IH]; [reflexivity |].
  destruct e; try discriminate Hr; exact IH.
Qed.

Lemma cmd_apply_quiet (tunnels : list Ref) (w : World H) :
  exists status evs w',
    cmd_apply tunnels w = (Returned status, evs, w') /\
    heap w' = heap w /\
    Forall (fun e => is_teardown e = false) evs /\
    ((forall t, In t tunnels -> forwarded_ports (heap w t) = []) ->
     Forall (fun e => is_run e = false /\ is_write e = false) evs).
Proof.
  unfold cmd_apply. destruct tunnels as [| t0 rest] eqn:Ht.
  - unfold print. mstep. unfold ret. rewrite prepend_triple.
    do 3 eexists. split; [reflexivity |]. split; [reflexivity |].
    split; [repeat constructor |]. intros _. repeat constructor.
  - rewrite <- Ht. clear Ht t0 rest.
    destruct (for_in_rounds Ref Z apply_one quiet_round apply_one_quiet
                tunnels 0 w) as (errors & evs & w' & E & HR).
    rewrite (bind_returned _ _ _ _ _ _ E). unfold ret.
    rewrite prepend_triple, app_nil_r.
    destruct (quiet_rounds _ _ _ _ _ _ HR) as (Hh & Hnt & Hq).
    do 3 eexists. split; [reflexivity |]. repeat split; assumption.
Qed.

(** X8: [cmd_apply] changes no stored configuration and never starts a
    tunnel teardown, whatever the host answers. *)
Theorem cmd_apply_keeps_configurations (tunnels : list Ref) (w : World H) :
  heap (world (cmd_apply tunnels w)) = heap w /\
  Forall (fun e => is_teardown e = false) (events (cmd_apply tunnels w)).
Proof.
  destruct (cmd_apply_quiet tunnels w) as (st & evs & w' & E & Hh & Ht & _).
  rewrite E. split; assumption.
Qed.

(** X9: when no stored tunnel has a registered port, [cmd_apply] runs no
    command and writes no file: only tunnel setups and printed lines
    remain. *)
Theorem cmd_apply_without_ports (tunnels : list Ref) (w : World H) :
  (forall t, In t tunnels -> forwarded_ports (heap w t) = []) ->
  commands (events (cmd_apply tunnels w)) = [] /\
  Forall (fun e => is_write e = false) (events (cmd_apply tunnels w)).
Proof.
  intro Hall.
  destruct (cmd_apply_quiet tunnels w) as (st & evs & w' & E & _ & _ & Hq).
  rewrite E. unfold events. cbn [fst snd]. specialize (Hq Hall).
  split; [apply no_runs_no_commands; exact Hq |].
  eapply Forall_impl; [| exact Hq]. intros e [_ Hw]. exact Hw.
Qed.

End MoreApply.

(* ===================================================================== *)
(** ** Printing and parsing of port numbers *)
(* ===================================================================== *)

Section Numbers.

Lemma lstrip_id (s : string) : first_space s = false -> lstrip s = s.
Proof.
  destruct s as [| c r]; [reflexivity |]. cbn [first_space lstrip].
  intros ->. reflexivity.
Qed.

Lemma rstrip_id (s : string) : last_space s = false -> rstrip s = s.
Proof.
  induction s as [| c r IH]; [reflexivity |]. intro Hl.
  cbn [rstrip]. destruct r as [| c' r'].
  - cbn [last_space] in Hl. cbn [rstrip is_blank]. rewrite Hl. reflexivity.
  - cbn [last_space] in Hl. rewrite (IH Hl). cbn [is_blank].
    rewrite andb_false_r. reflexivity.
Qed.

Lemma strip_id (s : string) :
  first_space s = false -> last_space s = false -> strip s = s.
Proof.
  intros Hf Hl. unfold strip. rewrite (lstrip_id s Hf). apply rstrip_id, Hl.
Qed.

Lemma digit_not_space (c : ascii) : is_digit c = true -> is_space c = false.
Proof.
  unfold is_digit, digit_value, is_space.
  destruct (((48 <=? nat_of_ascii c) && (nat_of_ascii c <=? 57))%nat) eqn:E;
    [| discriminate]. intros _.
  apply andb_true_iff in E. destruct E as [E1 E2].
  apply Nat.leb_le in E1, E2.
  repeat (apply orb_false_iff; split);
    try (apply andb_false_iff; right; apply Nat.leb_gt; lia);
    try (apply Nat.eqb_neq; lia).
Qed.

Lemma all_digits_ends (s : string) :
  all_digits s = true -> first_space s = false /\ last_space s = false.
Proof.
  induction s as [| c r IH]; [split; reflexivity |]. cbn [all_digits].
  intro Hd. apply andb_true_iff in Hd. destruct Hd as [Hc Hr].
  split; [exact (digit_not_space c Hc) |].
  cbn [last_space]. destruct r; [exact (digit_not_space c Hc) |].
  apply (IH Hr).
Qed.

Lemma string_of_uint_digits (d : Decimal.uint) :
  all_digits (NilEmpty.string_of_uint d) = true.
Proof. induction d; cbn [NilEmpty.string_of_uint all_digits]; auto. Qed.

Lemma parse_string_of_uint (d : Decimal.uint) : forall acc prev,
  parse_digits acc prev (NilEmpty.string_of_uint d)
  = match d with
    | Decimal.Nil => if prev then Some acc else None
    | _ => Some (uint_value acc d)
    end.
Proof.
  induction d; intros acc prev; [reflexivity | ..];
    cbn [NilEmpty.string_of_uint parse_digits];
    match goal with
    | |- context [digit_value ?c] =>
        let v := eval vm_compute in (digit_value c) in
        change (digit_value c) with v
    end;
    cbv beta iota; rewrite IHd, ?Z.add_0_r; cbn [uint_value];
    destruct d; reflexivity.
Qed.

Lemma of_uint_acc_value (d : Decimal.uint) : forall p,
  Z.pos (Pos.of_uint_acc d p) = uint_value (Z.pos p) d.
Proof.
  induction d; intro p; cbn [Pos.of_uint_acc uint_value];
    [reflexivity | ..]; rewrite IHd; f_equal; lia.
Qed.

Lemma of_uint_value (d : Decimal.uint) : Z.of_uint d = uint_value 0 d.
Proof.
  unfold Z.of_uint.
  induction d; cbn [Pos.of_uint uint_value Z.of_N];
    [reflexivity | exact IHd | ..]; apply of_uint_acc_value.
Qed.

Lemma int_of_digits (d : Decimal.uint) :
  d <> Decimal.Nil ->
  int_of_str (NilEmpty.string_of_uint d) = Some (Z.of_uint d) /\
  int_of_str (String "-" (NilEmpty.string_of_uint d))
  = Some (- Z.of_uint d).
Proof.
  intro Hne. pose proof (string_of_uint_digits d) as Hd.
  destruct (all_digits_ends _ Hd) as [Hf Hl].
  assert (Hparse : parse_digits 0 false (NilEmpty.string_of_uint d)
                   = Some (Z.of_uint d)).
  { rewrite parse_string_of_uint, of_uint_value.
    destruct d; [congruence | reflexivity ..]. }
  split.
  - unfold int_of_str. rewrite (strip_id _ Hf Hl).
    destruct d; [congruence | ..]; exact Hparse.
  - unfold int_of_str.
    assert (Hs : strip (String "-" (NilEmpty.string_of_uint d))
                 = String "-" (NilEmpty.string_of_uint d)).
    { apply strip_id; [reflexivity |]. cbn [last_space].
      destruct (NilEmpty.string_of_uint d) eqn:E; [| exact Hl].
      destruct d; [congruence | discriminate E ..]. }
    rewrite Hs, Hparse. reflexivity.
Qed.

(** X10: a port number printed as it is in report lines and unit names
    reads back as the same number: [int(str(n)) == n] for every integer. *)
Theorem int_of_str_of_int (n : Z) : int_of_str (str_of_int n) = Some n.
Proof.
  unfold str_of_int. rewrite <- (DecimalZ.of_to n) at 2.
  destruct n as [| p | p]; cbn [Z.to_int NilZero.string_of_int Z.of_int].
  - reflexivity.
  - pose proof (DecimalPos.Unsigned.to_uint_nonnil p) as Hne.
    unfold NilZero.string_of_uint.
    destruct (Pos.to_uint p) eqn:E; [congruence | ..];
      rewrite <- E in *; apply (int_of_digits _ Hne).
  - pose proof (DecimalPos.Unsigned.to_uint_nonnil p) as Hne.
    unfold NilZero.string_of_uint.
    destruct (Pos.to_uint p) eqn:E; [congruence | ..];
      rewrite <- E in *; apply (int_of_digits _ Hne).
Qed.

Lemma str_of_int_inj (a b : Z) : str_of_int a = str_of_int b -> a = b.
Proof.
  intro E. pose proof (int_of_str_of_int a) as Ha.
  rewrite E, int_of_str_of_int in Ha. congruence.
Qed.

Lemma append_inj_l (a x y : string) : a +++ x = a +++ y -> x = y.
Proof.
  induction a as [| c r IH]; cbn [String.append]; [tauto |].
  intro E. injection E as E. exact (IH E).
Qed.

Lemma length_append (a b : string) :
  String.length (a +++ b) = (String.length a + String.length b)%nat.
Proof. induction a; cbn [String.append String.length]; lia. Qed.

Lemma append_inj_r (s x : string) : forall y, x +++ s = y +++ s -> x = y.
Proof.
  induction x as [| c r IH]; intros y E.
  - destruct y as [| d y']; [reflexivity |].
    apply (f_equal String.length) in E. rewrite !length_append in E.
    cbn [String.length] in E. lia.
  - destruct y as [| d y'].
    + apply (f_equal String.length) in E. rewrite !length_append in E.
      cbn [String.length] in E. lia.
    + cbn [String.append] in E. injection E as -> E. f_equal. exact (IH _ E).
Qed.

(** X11: two ports share a unit name, or one of the five service-manager
    commands, only if they are equal. *)
Theorem service_name_injective (p q : Z) :
  (_get_service_name p = _get_service_name q -> p = q) /\
  (enable_cmd p = enable_cmd q -> p = q) /\
  (stop_cmd p = stop_cmd q -> p = q) /\
  (disable_cmd p = disable_cmd q -> p = q) /\
  (start_cmd p = start_cmd q -> p = q) /\
  (restart_cmd p = restart_cmd q -> p = q).
Proof.
  assert (Hname : _get_service_name p = _get_service_name q -> p = q).
  { unfold _get_service_name. intro E. apply append_inj_l in E.
    apply append_inj_r in E. exact (str_of_int_inj p q E). }
  split; [exact Hname |].
  unfold enable_cmd, stop_cmd, disable_cmd, start_cmd, restart_cmd.
  repeat split; intro E; apply append_inj_l in E; exact (Hname E).
Qed.

End Numbers.

(* ===================================================================== *)
(** ** Port tokens, continued *)
(* ===================================================================== *)

Section MoreTokens.

Lemma occurs_append (c : ascii) (a b : string) :
  occurs c (a +++ b) = occurs c a || occurs c b.
Proof.
  induction a as [| d r IH]; [reflexivity |].
  cbn [String.append occurs]. rewrite IH. apply orb_assoc.
Qed.

Lemma split_pieces (sep : ascii) (s : string) :
  Forall (fun x => occurs sep x = false) (split sep s).
Proof.
  induction s as [| c r IH]; [repeat constructor |].
  cbn [split]. destruct (Ascii.eqb c sep) eqn:E.
  - constructor; [reflexivity | exact IH].
  - destruct (split sep r) as [| h t]; [repeat constructor; cbn; rewrite E;
                                        reflexivity |].
    inversion IH as [| h' t' Hh Ht]; subst.
    constructor; [| exact Ht]. cbn [occurs]. rewrite E, Hh. reflexivity.
Qed.

Lemma split_whole (sep : ascii) (s : string) :
  occurs sep s = false -> split sep s = [s].
Proof.
  induction s as [| c r IH]; [reflexivity |]. cbn [occurs split].
  intro Ho. apply orb_false_iff in Ho. destruct Ho as [Hc Hr].
  rewrite Hc, (IH Hr). reflexivity.
Qed.

Lemma occurs_strip (c : ascii) (s : string) :
  occurs c s = false -> occurs c (strip s) = false.
Proof.
  intro Ho. destruct (strip_trims s) as [(pre & post & E & _) _].
  rewrite E, !occurs_append in Ho.
  apply orb_false_iff in Ho. destruct Ho as [_ Ho].
  apply orb_false_iff in Ho. tauto.
Qed.

Lemma strip_strip (s : string) : strip (strip s) = strip s.
Proof.
  destruct (strip_trims s) as (_ & Hf & Hl). apply strip_id; assumption.
Qed.

(** X12: every token [add_multiple_forwards] and
    [remove_multiple_forwards] work on is non-empty, has no white space
    at either end and contains no comma. *)
Theorem port_tokens_clean (ports_str : string) :
  Forall (fun t => t <> "" /\ strip t = t /\ occurs "," t = false)
    (port_tokens ports_str).
Proof.
  unfold port_tokens. apply Forall_forall. intros t Hin.
  apply filter_In in Hin. destruct Hin as [Hin Hnb].
  apply in_map_iff in Hin. destruct Hin as (x & <- & Hx).
  split; [| split].
  - intro E. rewrite E in Hnb. discriminate.
  - apply strip_strip.
  - apply occurs_strip.
    pose proof (split_pieces "," ports_str) as Hall.
    rewrite Forall_forall in Hall. exact (Hall x Hx).
Qed.

Lemma all_digits_no_comma (s : string) :
  all_digits s = true -> occurs "," s = false.
Proof.
  induction s as [| c r IH]; [reflexivity |]. cbn [all_digits occurs].
  intro Hd. apply andb_true_iff in Hd. destruct Hd as [Hc Hr].
  rewrite (IH Hr), orb_false_r.
  destruct (Ascii.eqb_spec c ","); [| reflexivity].
  subst c. discriminate Hc.
Qed.

(** The decimal rendering of an integer: digits, after an optional minus
    sign. *)
Lemma str_of_int_shape (n : Z) :
  exists d, d <> Decimal.Nil /\
    (str_of_int n = NilEmpty.string_of_uint d \/
     str_of_int n = String "-" (NilEmpty.string_of_uint d)).
Proof.
  unfold str_of_int.
  destruct n as [| p | p]; cbn [Z.to_int NilZero.string_of_int].
  - exists (Decimal.D0 Decimal.Nil). split; [discriminate | left; reflexivity].
  - exists (Pos.to_uint p).
    pose proof (DecimalPos.Unsigned.to_uint_nonnil p) as Hne.
    split; [exact Hne | left]. unfold NilZero.string_of_uint.
    destruct (Pos.to_uint p); [congruence | reflexivity ..].
  - exists (Pos.to_uint p).
    pose proof (DecimalPos.Unsigned.to_uint_nonnil p) as Hne.
    split; [exact Hne | right]. unfold NilZero.string_of_uint.
    destruct (Pos.to_uint p); [congruence | reflexivity ..].
Qed.

Lemma port_tokens_of_int (n : Z) : port_tokens (str_of_int n) = [str_of_int n].
Proof.
  destruct (str_of_int_shape n) as (d & Hne & Hs).
  pose proof (string_of_uint_digits d) as Hd.
  destruct (all_digits_ends _ Hd) as [Hf Hl].
  assert (Hnonempty : NilEmpty.string_of_uint d <> "").
  { destruct d; [congruence | discriminate ..]. }
  unfold port_tokens. destruct Hs as [-> | ->].
  - rewrite (split_whole "," _ (all_digits_no_comma _ Hd)).
    cbn [map filter]. rewrite (strip_id _ Hf Hl).
    destruct (NilEmpty.string_of_uint d); [congruence | reflexivity].
  - assert (Ho : occurs "," (String "-" (NilEmpty.string_of_uint d)) = false).
    { cbn [occurs]. rewrite (all_digits_no_comma _ Hd). reflexivity. }
    rewrite (split_whole "," _ Ho). cbn [map filter].
    assert (Hs : strip (String "-" (NilEmpty.string_of_uint d))
                 = String "-" (NilEmpty.string_of_uint d)).
    { apply strip_id; [reflexivity |]. cbn [last_space].
      destruct (NilEmpty.string_of_uint d); [congruence | exact Hl]. }
    rewrite Hs. reflexivity.
Qed.

End MoreTokens.

Section SinglePort.
Context {H : Type} {HO : HostOps H}.

(** X13: a batch of one port in 1..65535, written as the system prints
    it, is exactly one call of [create_forward] for that port: same
    events, same world, and the report is the single line
    ["Port <p>: <msg>"]. *)
Theorem batch_of_one_port (self : Ref) (port : Z) (w : World H) :
  in_range port = true ->
  exists ok msg evs w1,
    create_forward self port w = (Returned (ok, msg), evs, w1) /\
    add_multiple_forwards self (str_of_int port) w
    = (Returned (true, port_line port msg), evs, w1).
Proof.
  intro Hr.
  destruct (create_forward_cases self port w)
    as (ok & msg & evs & w1 & E & _).
  exists ok, msg, evs, w1. split; [exact E |].
    assert (E1 : add_one self (str_of_int port) [] w
                 = (Returned [port_line port msg], evs, w1)).
    { unfold add_one. rewrite int_of_str_of_int.
      unfold in_range in Hr. apply negb_true_iff in Hr. rewrite Hr.
      rewrite (bind_returned _ _ _ _ _ _ E). cbv beta iota.
      unfold ret. rewrite prepend_triple, app_nil_r. reflexivity. }
    assert (E2 : for_in [str_of_int port] (add_one self) [] w
                 = (Returned [port_line port msg], evs, w1)).
    { cbn [for_in]. rewrite (bind_returned _ _ _ _ _ _ E1). unfold ret.
      rewrite prepend_triple, app_nil_r. reflexivity. }
    unfold add_multiple_forwards. rewrite port_tokens_of_int.
    rewrite (bind_returned _ _ _ _ _ _ E2). unfold ret.
    rewrite prepend_triple, app_nil_r. reflexivity.
Qed.

End SinglePort.

(* ===================================================================== *)
(** ** Listing the forwards *)
(* ===================================================================== *)

Section Listing.
Context {H : Type} {HO : HostOps H}.

Lemma list_one_round (self : Ref) (port : Z) (s : list ForwardInfo)
    (w : World H) :
  exists s' evs w1,
    list_one self port s w = (Returned s', evs, w1) /\
    list_round self port s w s' evs w1.
Proof.
  unfold list_one, list_round. cbv zeta.
  mstep. fold (active_cmd port).
  destruct (run_outcome (fst (subprocess_run (active_cmd port) (host w))))
    as [a out_a]. cbn [fst].
  mstep. fold (enabled_cmd port). cbn [host].
  destruct (run_outcome
              (fst (subprocess_run (enabled_cmd port)
                      (snd (subprocess_run (active_cmd port) (host w))))))
    as [e out_e]. cbn [fst].
  mstep. unfold ret. rewrite !prepend_triple. cbn [heap app].
  do 3 eexists. split; [reflexivity |].
  exists a, e. eexists. split; [reflexivity |]. split; [reflexivity |].
  cbn [f_port f_service f_remote f_status f_enabled].
  repeat split; intros ->; reflexivity.
Qed.

Lemma list_rounds (self : Ref) (ports : list Z) (s s' : list ForwardInfo)
    (w w' : World H) (evs : list Event) :
  Rounds (list_round self) ports s w s' evs w' ->
  exists infos,
    s' = s ++ infos /\
    map f_port infos = ports /\
    commands evs = flat_map (fun p => [active_cmd p; enabled_cmd p]) ports /\
    heap w' = heap w /\
    Forall (fun i =>
      f_service i = _get_service_name (f_port i) /\
      f_remote i = str_of_optional (remote_forward_ip (heap w self))
                   +++ ":" +++ str_of_int (f_port i) /\
      (f_status i = "inactive" \/
       In (EvRun (active_cmd (f_port i)) true) evs) /\
      (f_enabled i = "disabled" \/
       In (EvRun (enabled_cmd (f_port i)) true) evs)) infos.
Proof.
  intro HR.
  induction HR as [s w | p l s s1 s2 w w1 w2 e es HP HR IH].
  - exists []. rewrite app_nil_r. repeat split. constructor.
  - destruct HP as (a & en & info & -> & -> & Hp & Hs & Hr & Ha & He & Hh).
    destruct IH as (infos & -> & Hps & Hc & Hh' & Hall).
    exists (info :: infos). rewrite <- app_assoc. cbn [app map flat_map].
    split; [reflexivity |]. split; [congruence |].
    split; [cbn [commands]; rewrite Hc; reflexivity |].
    split; [congruence |].
    constructor.
    + rewrite Hp. split; [exact Hs |]. split; [exact Hr |]. split.
      * destruct a; [right; left; reflexivity | left; auto].
      * destruct en; [right; right; left; reflexivity | left; auto].
    + eapply Forall_impl; [| exact Hall].
      intros i (Hi1 & Hi2 & Hi3 & Hi4). rewrite Hh in Hi2.
      split; [exact Hi1 |]. split; [exact Hi2 |]. split.
      * destruct Hi3 as [Hi3 | Hi3]; [left; exact Hi3 |].
        right. right. right. exact Hi3.
      * destruct Hi4 as [Hi4 | Hi4]; [left; exact Hi4 |].
        right. right. right. exact Hi4.
Qed.

(** X14: [list_forwards] returns one entry per registered port, in the
    order of the port set, after asking the service manager twice per port
    (is-active, then is-enabled); it changes no configuration.  An entry
    names the unit and the target ["<remote_forward_ip>:<port>"]; its
    status is ["inactive"] and its enablement ["disabled"] unless the
    query for it succeeded. *)
Theorem list_forwards_entries (self : Ref) (w : World H) :
  let r := list_forwards self w in
  let ports := forwarded_ports (heap w self) in
  exists infos,
    value r = Returned infos /\
    map f_port infos = ports /\
    commands (events r)
    = flat_map (fun p => [active_cmd p; enabled_cmd p]) ports /\
    heap (world r) = heap w /\
    Forall (fun i =>
      f_service i = _get_service_name (f_port i) /\
      f_remote i = str_of_optional (remote_forward_ip (heap w self))
                   +++ ":" +++ str_of_int (f_port i) /\
      (f_status i = "inactive" \/
       In (EvRun (active_cmd (f_port i)) true) (events r)) /\
      (f_enabled i = "disabled" \/
       In (EvRun (enabled_cmd (f_port i)) true) (events r))) infos.
Proof.
  intros r ports. subst r ports. unfold list_forwards. mstep.
  rewrite prepend_nil.
  destruct (for_in_rounds Z (list ForwardInfo) (list_one self)
              (list_round self) (list_one_round self)
              (forwarded_ports (heap w self)) [] w)
    as (s' & evs & w' & E & HR).
  rewrite E. unfold value, events, world. cbn [fst snd].
  destruct (list_rounds _ _ _ _ _ _ _ HR) as (infos & -> & Hps & Hc & Hh & Ha).
  exists infos. cbn [app]. repeat split; assumption.
Qed.

End Listing.

(* ===================================================================== *)
(** ** Starting a tunnel and showing logs *)
(* ===================================================================== *)

Section MoreMenu.
Context {H : Type} {HO : HostOps H} {MO : MenuOps H}.



Lemma or_else_default (a b : string) :
  or_else a (or_else b "No logs available") <> "".
Proof. destruct a; [destruct b |]; discriminate. Qed.

Lemma show_log_eq (service : string) (w : World H) :
  match fst (subprocess_run (journal_cmd service) (host w)) with
  | Returned _ =>
      exists output done,
        output <> "" /\
        show_log service tt w
        = (Returned tt,
           [EvRun (journal_cmd service) done;
            EvUi (ShowOutput output (log_title service))],
           mkWorld (heap w)
             (snd (subprocess_run (journal_cmd service) (host w))))
  | Raised e =>
      show_log service tt w
      = (Raised e, [EvRun (journal_cmd service) false],
         mkWorld (heap w)
           (snd (subprocess_run (journal_cmd service) (host w))))
  end.
Proof.
  unfold show_log, ui.
  destruct (subprocess_run (journal_cmd service) (host w)) as [[c | e] h] eqn:E;
    cbn [fst snd].
  - assert (Es : subprocess (journal_cmd service) w
                 = (Returned c, [EvRun (journal_cmd service)
                                   (exited_zero (Returned c))],
                    mkWorld (heap w) h)).
    { unfold subprocess. rewrite E. reflexivity. }
    rewrite (bind_returned _ _ _ _ _ _ Es). cbv beta iota zeta.
    unfold emit. rewrite prepend_triple.
    do 2 eexists. split; [apply or_else_default | reflexivity].
  - assert (Es : subprocess (journal_cmd service) w
                 = (Raised e, [EvRun (journal_cmd service) false],
                    mkWorld (heap w) h)).
    { unfold subprocess. rewrite E. reflexivity. }
    rewrite (bind_raised _ _ _ _ _ _ Es). reflexivity.
Qed.

Lemma shown_app (e1 e2 : list Event) : shown (e1 ++ e2) = shown e1 ++ shown e2.
Proof.
  induction e1 as [| e rest IH]; [reflexivity |].
  destruct e as [| | | | | u]; cbn [app shown]; try exact IH.
  destruct u; cbn [shown]; rewrite ?IH; reflexivity.
Qed.

Lemma waits_app (e1 e2 : list Event) :
  waits (e1 ++ e2) = (waits e1 + waits e2)%nat.
Proof. unfold waits. rewrite filter_app. apply length_app. Qed.

(** The loop of [handle_logs] over the services. *)
Lemma show_logs_loop (services : list string) : forall w : World H,
  let r := for_in services show_log tt w in
  heap (world r) = heap w /\
  waits (events r) = 0%nat /\
  Forall (fun o => fst o <> "") (shown (events r)) /\
  match value r with
  | Returned _ =>
      commands (events r) = map journal_cmd services /\
      map snd (shown (events r)) = map log_title services
  | Raised _ =>
      exists done failed rest,
        services = done ++ failed :: rest /\
        commands (events r) = map journal_cmd (done ++ [failed]) /\
        map snd (shown (events r)) = map log_title done
  end.
Proof.
  induction services as [| s rest IH]; intro w; cbv zeta.
  - cbn [for_in]. unfold ret, value, events, world. cbn [fst snd].
    repeat split. constructor.
  - cbn [for_in]. pose proof (show_log_eq s w) as Hs.
    destruct (fst (subprocess_run (journal_cmd s) (host w))) as [c | e].
    + destruct Hs as (output & done & Hne & E).
      rewrite (bind_returned _ _ _ _ _ _ E).
      specialize (IH (mkWorld (heap w)
                        (snd (subprocess_run (journal_cmd s) (host w))))).
      cbv zeta in IH. destruct IH as (Hh & Hw & Hall & Hv).
      destruct (for_in rest show_log tt _) as [[v evs] w1].
      rewrite prepend_triple. unfold value, events, world in *.
      cbn [fst snd heap] in *. cbn [app commands shown map waits].
      split; [exact Hh |]. split; [exact Hw |].
      split; [constructor; [exact Hne | exact Hall] |].
      destruct v as [u | e].
      * destruct Hv as [Hc Ht]. rewrite Hc, Ht. split; reflexivity.
      * destruct Hv as (dn & failed & rs & -> & Hc & Ht).
        exists (s :: dn), failed, rs. cbn [app map].
        rewrite Hc, Ht. repeat split.
    + rewrite (bind_raised _ _ _ _ _ _ Hs).
      unfold value, events, world. cbn [fst snd heap commands shown].
      split; [reflexivity |]. split; [reflexivity |].
      split; [constructor |].
      exists [], s, rest. repeat split.
Qed.

(** X16: [handle_logs] asks for the journal of the tunnel service first
    and then of the forward unit of every registered port, in order, and
    shows one panel per answer, titled ["Logs: <service>"], whose text is
    never empty.  Unlike [run_command] it does not catch a failure of the
    process call: the error leaves the function, after the panels of the
    services before it and without the final wait.  No configuration
    changes. *)
Theorem handle_logs_panels (current_tunnel : option Ref) (w : World H) :
  let r := handle_logs current_tunnel w in
  let services :=
    log_services match current_tunnel with
                 | Some t => forwarded_ports (heap w t)
                 | None => []
                 end in
  heap (world r) = heap w /\
  Forall (fun o => fst o <> "") (shown (events r)) /\
  match value r with
  | Returned _ =>
      commands (events r) = map journal_cmd services /\
      map snd (shown (events r)) = map log_title services /\
      waits (events r) = 1%nat
  | Raised _ =>
      exists done failed rest,
        services = done ++ failed :: rest /\
        commands (events r) = map journal_cmd (done ++ [failed]) /\
        map snd (shown (events r)) = map log_title done /\
        waits (events r) = 0%nat
  end.
Proof.
  intros r services. subst r. unfold handle_logs, ui. mstep.
  assert (Ep : (match current_tunnel with
                | Some t => c <- read_config t ;; ret (forwarded_ports c)
                | None => ret []
                end) w
               = (Returned match current_tunnel with
                           | Some t => forwarded_ports (heap w t)
                           | None => []
                           end, [], w)).
  { destruct current_tunnel; [mstep |]; reflexivity. }
  rewrite (bind_returned _ _ _ _ _ _ Ep). rewrite prepend_nil.
  fold services.
  pose proof (show_logs_loop services w) as Hl. cbv zeta in Hl.
  destruct Hl as (Hh & Hw & Hall & Hv).
  destruct (for_in services show_log tt w) as [[[u | e] evs] w1] eqn:El;
    unfold value, events, world in *; cbn [fst snd] in *.
  - rewrite (bind_returned _ _ _ _ _ _ El). unfold emit.
    rewrite prepend_triple, prepend_triple. cbn [fst snd app].
    destruct Hv as [Hc Ht].
    split; [exact Hh |]. cbn [shown commands].
    rewrite shown_app, commands_app.
    cbn [shown commands]. rewrite !app_nil_r.
    split; [exact Hall |]. split; [exact Hc |]. split; [exact Ht |].
    change (EvUi (ShowBanner current_tunnel) :: evs ++ [EvUi WaitForEnter])
      with ([EvUi (ShowBanner current_tunnel)] ++ evs ++ [EvUi WaitForEnter]).
    rewrite !waits_app, Hw. reflexivity.
  - rewrite (bind_raised _ _ _ _ _ _ El). rewrite prepend_triple.
    cbn [fst snd app shown commands].
    split; [exact Hh |]. split; [exact Hall |].
    destruct Hv as (dn & failed & rs & Hs & Hc & Ht).
    exists dn, failed, rs. split; [exact Hs |]. split; [exact Hc |].
    split; [exact Ht |].
    change (EvUi (ShowBanner current_tunnel) :: evs)
      with ([EvUi (ShowBanner current_tunnel)] ++ evs).
    rewrite waits_app, Hw. reflexivity.
Qed.

End MoreMenu.

(* ===================================================================== *)
(** ** The prompts of the menu *)
(* ===================================================================== *)

Section Names.

Lemma sanitize_char_slug (c : ascii) : slug_char (sanitize_char c) = true.
Proof. destruct c as [[] [] [] [] [] [] [] []]; vm_compute; reflexivity. Qed.

Lemma sanitize_char_idem (c : ascii) :
  sanitize_char (sanitize_char c) = sanitize_char c.
Proof. destruct c as [[] [] [] [] [] [] [] []]; vm_compute; reflexivity. Qed.

Lemma slug_char_fixed (c : ascii) : slug_char c = true -> sanitize_char c = c.
Proof.
  destruct c as [[] [] [] [] [] [] [] []]; vm_compute;
    intro E; first [reflexivity | discriminate E].
Qed.

Lemma sanitize_length (name : string) :
  String.length (sanitize name) = String.length name.
Proof. induction name; cbn [sanitize String.length]; congruence. Qed.

Lemma sanitize_slug (name : string) : all_slug (sanitize name) = true.
Proof.
  induction name as [| c r IH]; [reflexivity |]. cbn [sanitize all_slug].
  rewrite sanitize_char_slug, IH. reflexivity.
Qed.

Lemma sanitize_fixed (name : string) :
  all_slug name = true -> sanitize name = name.
Proof.
  induction name as [| c r IH]; [reflexivity |]. cbn [all_slug sanitize].
  intro Hs. apply andb_true_iff in Hs. destruct Hs as [Hc Hr].
  rewrite (slug_char_fixed c Hc), (IH Hr). reflexivity.
Qed.

End Names.

Section Prompts.
Context {H : Type} {MO : MenuOps H}.

(** X17: a name that [prompt_tunnel_name] returns is never empty, has as
    many characters as the operator typed, consists of alphanumeric
    characters that are not upper case and of dashes only, and is returned
    unchanged when it is typed in again; an empty answer gives [None]. *)
Theorem prompt_tunnel_name_slug (w : World H) :
  match fst (prompt_ask "[bold magenta]Tunnel Name[/]" (Some "tunnel1")
               (host w)) with
  | Some answer =>
      value (prompt_tunnel_name w)
      = Returned (if is_blank answer then None else Some (sanitize answer)) /\
      String.length (sanitize answer) = String.length answer /\
      all_slug (sanitize answer) = true /\
      sanitize (sanitize answer) = sanitize answer /\
      (is_blank (sanitize answer) = is_blank answer)
  | None => exists e, value (prompt_tunnel_name w) = Raised e
  end.
Proof.
  unfold prompt_tunnel_name, print, ask. do 2 mstep.
  destruct (prompt_ask "[bold magenta]Tunnel Name[/]" (Some "tunnel1")
              (host w)) as [[answer |] h]; cbn [fst snd].
  - unfold ret. rewrite !prepend_triple. unfold value. cbn [fst].
    assert (Hb : is_blank (sanitize answer) = is_blank answer)
      by (destruct answer; reflexivity).
    rewrite Hb. split; [reflexivity |].
    split; [apply sanitize_length |]. split; [apply sanitize_slug |].
    split; [apply sanitize_fixed, sanitize_slug | reflexivity].
  - unfold raise. rewrite !prepend_triple. eexists. reflexivity.
Qed.

Lemma existsb_eqb_In (choice : string) (tunnels : list string) :
  existsb (String.eqb choice) tunnels = true -> In choice tunnels.
Proof.
  intro He. apply existsb_exists in He. destruct He as (x & Hx & E).
  apply String.eqb_eq in E. subst x. exact Hx.
Qed.

Lemma print_choices_eq (tunnels : list string) : forall i (w : World H),
  exists evs, print_choices i tunnels w = (Returned tt, evs, w).
Proof.
  induction tunnels as [| name rest IH]; intros i w; cbn [print_choices].
  - eexists. reflexivity.
  - unfold print. mstep. destruct (IH (i + 1) w) as (evs & ->).
    rewrite prepend_triple. eexists. reflexivity.
Qed.

(** X18: a name that [prompt_select_tunnel] returns is one of the listed
    tunnels.  An answer that reads as an integer is always taken as a
    position in the list (1 is the first tunnel), never as a name; any
    other answer is taken as a name. *)
Theorem prompt_select_tunnel_member (tunnels : list string) (w : World H)
    (name : string) :
  value (prompt_select_tunnel tunnels w) = Returned (Some name) ->
  In name tunnels /\
  exists choice,
    fst (prompt_ask (nl +++ "[bold cyan]Select tunnel[/]") (Some "0")
           (host w)) = Some choice /\
    match int_of_str choice with
    | Some idx =>
        1 <= idx <= Z.of_nat (length tunnels) /\
        nth_error tunnels (Z.to_nat (idx - 1)) = Some name
    | None => name = choice
    end.
Proof.
  unfold prompt_select_tunnel.
  destruct tunnels as [| t0 rest] eqn:Ht.
  - unfold print. mstep. unfold ret. rewrite prepend_triple.
    unfold value. cbn [fst]. discriminate.
  - rewrite <- Ht. clear Ht t0 rest. unfold print, ask. mstep.
    destruct (print_choices_eq tunnels 1 w) as (evs & Ep).
    rewrite (bind_returned _ _ _ _ _ _ Ep). do 2 mstep.
    destruct (prompt_ask (nl +++ "[bold cyan]Select tunnel[/]") (Some "0")
                (host w)) as [[choice |] h]; cbn [fst snd].
    + destruct (int_of_str choice) as [idx |] eqn:Ei.
      * destruct (idx =? 0);
          [unfold ret; rewrite !prepend_prepend, prepend_triple;
           unfold value; cbn [fst]; discriminate |].
        destruct ((1 <=? idx) && (idx <=? Z.of_nat (length tunnels))) eqn:Er.
        -- unfold ret. rewrite !prepend_prepend, prepend_triple.
           unfold value. cbn [fst]. intro E. injection E as E.
           split; [exact (nth_error_In _ _ E) |].
           exists choice. split; [reflexivity |]. rewrite Ei.
           apply andb_true_iff in Er. destruct Er as [E1 E2].
           apply Z.leb_le in E1, E2. split; [lia | exact E].
        -- mstep. unfold ret. rewrite !prepend_prepend, prepend_triple.
           unfold value. cbn [fst]. discriminate.
      * destruct (existsb (String.eqb choice) tunnels) eqn:Ee.
        -- unfold ret. rewrite !prepend_prepend, prepend_triple.
           unfold value. cbn [fst]. intro E. injection E as <-.
           split; [exact (existsb_eqb_In _ _ Ee) |].
           exists choice. split; [reflexivity |]. rewrite Ei. reflexivity.
        -- mstep. unfold ret. rewrite !prepend_prepend, prepend_triple.
           unfold value. cbn [fst]. discriminate.
    + unfold raise. rewrite !prepend_prepend, prepend_triple.
      unfold value. cbn [fst]. discriminate.
Qed.

End Prompts.

(* ===================================================================== *)
(** ** The configuration editor *)
(* ===================================================================== *)

Section Editor.
Context {H : Type} {MO : MenuOps H}.
Import UiConfig.

Section Keeps.
Variable R : (Ref -> TunnelConfig) -> (Ref -> TunnelConfig) -> Prop.
Hypothesis R_refl : forall hp, R hp hp.
Hypothesis R_trans : forall a b c, R a b -> R b c -> R a c.

Lemma keeps_bind {A B : Type} (m : M H A) (f : A -> M H B) :
  keeps R m -> (forall a, keeps R (f a)) -> keeps R (bind m f).
Proof.
  intros Hm Hf w. specialize (Hm w). unfold bind.
  destruct (m w) as [[[a | e] e1] w1]; unfold world in *; cbn [snd] in *.
  - specialize (Hf a w1). destruct (f a w1) as [[b e2] w2].
    unfold world in Hf. cbn [snd] in *. eapply R_trans; eassumption.
  - exact Hm.
Qed.

Lemma keeps_ret {A : Type} (a : A) : keeps R (ret a : M H A).
Proof. intro w. apply R_refl. Qed.

Lemma keeps_raise {A : Type} (e : string) : keeps R (raise e : M H A).
Proof. intro w. apply R_refl. Qed.

Lemma keeps_print (line : string) : keeps R (print line : M H unit).
Proof. intro w. apply R_refl. Qed.

Lemma keeps_read (config : Ref) : keeps R (read_config config : M H _).
Proof. intro w. apply R_refl. Qed.

Lemma keeps_ask (prompt : string) (default : option string) :
  keeps R (ask prompt default).
Proof.
  intro w. unfold ask. rewrite lift_host_eq. unfold world. cbn [snd heap].
  apply R_refl.
Qed.

Lemma keeps_int_of_answer (answer : option string) :
  keeps R (int_of_answer answer : M H Z).
Proof.
  unfold int_of_answer. destruct answer as [s |]; [| apply keeps_raise].
  destruct (int_of_str s); [apply keeps_ret | apply keeps_raise].
Qed.

End Keeps.

Lemma frame_refl (config : Ref) (hp : Ref -> TunnelConfig) :
  frame config hp hp.
Proof. repeat split. Qed.

Lemma frame_trans (config : Ref) (a b c : Ref -> TunnelConfig) :
  frame config a b -> frame config b c -> frame config a c.
Proof.
  intros (H1 & H2 & H3 & H4) (K1 & K2 & K3 & K4).
  split; [intros other Ho; rewrite (K1 other Ho); apply (H1 other Ho) |].
  repeat split; congruence.
Qed.

Lemma assign_eq (config : Ref) (set : TunnelConfig -> TunnelConfig)
    (w : World H) :
  assign config set w = (Returned tt, [], update config (set (heap w config)) w).
Proof. unfold assign. mstep. reflexivity. Qed.

Lemma keeps_assign (config : Ref) (set : TunnelConfig -> TunnelConfig) :
  (forall c, name (set c) = name c /\
             interface_name (set c) = interface_name c /\
             forwarded_ports (set c) = forwarded_ports c) ->
  keeps (frame config) (assign config set : M H unit).
Proof.
  intros Hset w. rewrite assign_eq. unfold world, update. cbn [snd heap].
  split.
  - intros other Ho. destruct (Nat.eqb_spec other config);
      [contradiction | reflexivity].
  - rewrite Nat.eqb_refl. apply Hset.
Qed.

Lemma addresses_refl (config : Ref) (hp : Ref -> TunnelConfig) :
  addresses config hp hp.
Proof. split; reflexivity. Qed.

Lemma addresses_trans (config : Ref) (a b c : Ref -> TunnelConfig) :
  addresses config a b -> addresses config b c -> addresses config a c.
Proof. intros [H1 H2] [K1 K2]. split; congruence. Qed.

Lemma assign_keeps_addresses (config : Ref)
    (set : TunnelConfig -> TunnelConfig) :
  (forall c, local_ip (set c) = local_ip c /\
             remote_ip (set c) = remote_ip c) ->
  keeps (addresses config) (assign config set : M H unit).
Proof.
  intros Hset w. rewrite assign_eq. unfold world, update, addresses.
  cbn [snd heap]. rewrite Nat.eqb_refl. apply Hset.
Qed.

Ltac keeps_step config :=
  first
    [ apply keeps_assign; intro; repeat split
    | apply (keeps_bind _ (frame_trans config)); [| intro]
    | apply (keeps_ret _ (frame_refl config))
    | apply (keeps_raise _ (frame_refl config))
    | apply (keeps_print _ (frame_refl config))
    | apply (keeps_read _ (frame_refl config))
    | apply (keeps_ask _ (frame_refl config))
    | apply (keeps_int_of_answer _ (frame_refl config))
    | match goal with
      | |- keeps _ (if ?b then _ else _) => destruct b
      end ].

Lemma keeps_prompt_ids (config : Ref) :
  keeps (frame config) (prompt_ids config : M H unit).
Proof. unfold prompt_ids. repeat keeps_step config. Qed.

Lemma keeps_prompt_targets (config : Ref) :
  keeps (frame config) (prompt_targets config : M H unit).
Proof. unfold prompt_targets. repeat keeps_step config. Qed.

(** X19: whatever the operator answers, and also when an answer makes it
    raise, [prompt_tunnel_config] leaves the name, the interface name and
    the registered ports of the configuration as they were, and does not
    touch any other configuration. *)
Theorem prompt_tunnel_config_frame (config : Ref) (w : World H) :
  let hp' := heap (world (prompt_tunnel_config config w)) in
  (forall other, other <> config -> hp' other = heap w other) /\
  name (hp' config) = name (heap w config) /\
  interface_name (hp' config) = interface_name (heap w config) /\
  forwarded_ports (hp' config) = forwarded_ports (heap w config).
Proof.
  assert (Hk : keeps (frame config) (prompt_tunnel_config config)).
  { unfold prompt_tunnel_config.
    repeat first [ apply keeps_prompt_ids | apply keeps_prompt_targets
                 | keeps_step config ]. }
  exact (Hk w).
Qed.

Ltac addresses_step config :=
  first
    [ apply assign_keeps_addresses; intro; split; reflexivity
    | apply (keeps_bind _ (addresses_trans config)); [| intro]
    | apply (keeps_ret _ (addresses_refl config))
    | apply (keeps_raise _ (addresses_refl config))
    | apply (keeps_print _ (addresses_refl config))
    | apply (keeps_read _ (addresses_refl config))
    | apply (keeps_ask _ (addresses_refl config))
    | apply (keeps_int_of_answer _ (addresses_refl config)) ].

Lemma prompt_ids_addresses (config : Ref) :
  keeps (addresses config) (prompt_ids config : M H unit).
Proof. unfold prompt_ids. repeat addresses_step config. Qed.

Lemma prompt_targets_addresses (config : Ref) :
  keeps (addresses config) (prompt_targets config : M H unit).
Proof. unfold prompt_targets. repeat addresses_step config. Qed.

Lemma ask_eq (prompt : string) (default : option string) (w : World H) :
  ask prompt default w =
  (Returned (fst (prompt_ask prompt default (host w))), [],
   mkWorld (heap w) (snd (prompt_ask prompt default (host w)))).
Proof. unfold ask. apply lift_host_eq. Qed.

Lemma print_eq (line : string) (w : World H) :
  print line w = (Returned tt, [EvPrint line], w).
Proof. reflexivity. Qed.

Lemma int_of_answer_cases (answer : option string) (w : World H) :
  (exists n, int_of_answer answer w = (Returned n, [], w)) \/
  (exists e, int_of_answer answer w = (Raised e, [], w)).
Proof.
  unfold int_of_answer. destruct answer as [s |].
  - destruct (int_of_str s) as [n |]; [left | right]; eexists; reflexivity.
  - right. eexists. reflexivity.
Qed.

(** One step of the editor: the first action is a print, a question, a
    read or an assignment. *)
Ltac estep :=
  match goal with
  | |- context [bind (print ?l) ?f ?w] =>
      rewrite (bind_returned (print l) f w _ _ _ (print_eq l w))
  | |- context [bind (ask ?p ?d) ?f ?w] =>
      rewrite (bind_returned (ask p d) f w _ _ _ (ask_eq p d w))
  | |- context [bind (assign ?r ?s) ?f ?w] =>
      rewrite (bind_returned (assign r s) f w _ _ _ (assign_eq r s w))
  | |- context [bind (read_config ?r) ?f ?w] =>
      rewrite (bind_returned (read_config r) f w _ _ _ eq_refl)
  end; cbv beta iota; rewrite ?prepend_nil.

(** The identifier at hand is converted or the editor raises. *)
Ltac convert :=
  match goal with
  | |- context [bind (int_of_answer ?a) ?f ?w] =>
      let n := fresh "n" in
      let e := fresh "e" in
      let E := fresh "E" in
      destruct (int_of_answer_cases a w) as [[n E] | [e E]];
      [ rewrite (bind_returned (int_of_answer a) f w _ _ _ E)
      | rewrite (bind_raised (int_of_answer a) f w _ _ _ E) ];
      cbv beta iota; rewrite ?prepend_nil
  end.

Lemma value_prepend {A : Type} (e : list Event)
    (r : PyResult A * list Event * World H) :
  value (prepend e r) = value r.
Proof. destruct r as [[a e2] w]. reflexivity. Qed.

Lemma world_prepend {A : Type} (e : list Event)
    (r : PyResult A * list Event * World H) :
  world (prepend e r) = world r.
Proof. destruct r as [[a e2] w]. reflexivity. Qed.

Lemma prompt_ids_returned (config : Ref) (w : World H) :
  value (prompt_ids config w) = Returned tt ->
  ids_set (heap (world (prompt_ids config w)) config) = true.
Proof.
  unfold prompt_ids.
  estep. estep. convert; [| discriminate]. estep.
  estep. estep. convert; [| discriminate]. estep.
  estep. estep. convert; [| discriminate]. estep.
  estep. estep. convert; [| discriminate].
  rewrite assign_eq. intros _.
  unfold world, update, ids_set. cbn [snd heap].
  rewrite !Nat.eqb_refl. reflexivity.
Qed.

Lemma prompt_targets_returns (config : Ref) (w : World H) :
  value (prompt_targets config w) = Returned tt.
Proof.
  unfold prompt_targets. estep. estep. estep. estep. estep. estep.
  rewrite assign_eq. reflexivity.
Qed.

Lemma prompt_ids_value (config : Ref) (w : World H) :
  value (prompt_ids config w) = Returned tt \/
  exists e, value (prompt_ids config w) = Raised e.
Proof.
  destruct (value (prompt_ids config w)) as [[] | e];
    [left; reflexivity | right; exists e; reflexivity].
Qed.

(** X20: the three ways out of [prompt_tunnel_config].  It returns True
    only with both addresses non-empty and stored and all four identifiers
    stored as integers.  It returns False either on an empty local address,
    with the configuration untouched, or on an empty remote address, with
    the local address already overwritten and nothing else.  It raises only
    after both addresses have been stored. *)
Theorem prompt_tunnel_config_outcomes (config : Ref) (w : World H) :
  let c := heap w config in
  let first :=
    fst (prompt_ask "[bold green]Local Server Public IP[/]"
           (nonempty_or_none (local_ip c)) (host w)) in
  let c' := heap (world (prompt_tunnel_config config w)) config in
  match value (prompt_tunnel_config config w) with
  | Returned true =>
      local_ip c' = first /\ str_truthy (local_ip c') = true /\
      str_truthy (remote_ip c') = true /\ ids_set c' = true
  | Returned false =>
      (str_truthy first = false /\ c' = c) \/
      (str_truthy first = true /\ c' = with_local_ip c first)
  | Raised _ =>
      local_ip c' = first /\ str_truthy (local_ip c') = true /\
      str_truthy (remote_ip c') = true
  end.
Proof.
  cbv zeta. unfold prompt_tunnel_config.
  estep. estep. estep. estep.
  set (first := fst (prompt_ask _ _ (host w))).
  destruct (str_truthy first) eqn:Hfirst; cbn [negb].
  2:{ estep. rewrite !value_prepend, !world_prepend.
      cbn [value world fst snd ret heap].
      left. split; reflexivity. }
  estep. estep. estep.
  match goal with
  | |- context [str_truthy ?a] =>
      match a with
      | first => fail 1
      | _ => set (second := a)
      end
  end.
  destruct (str_truthy second) eqn:Hsecond; cbn [negb].
  2:{ estep. rewrite !value_prepend, !world_prepend.
      cbn [value world fst snd ret heap update].
      rewrite Nat.eqb_refl. right. split; reflexivity. }
  estep.
  match goal with
  | |- context [bind (prompt_targets config) ?f ?w1] =>
      set (w2 := w1); set (k := f)
  end.
  assert (Hw2 : local_ip (heap w2 config) = first /\
                remote_ip (heap w2 config) = second).
  { unfold w2, update. cbn [heap]. rewrite !Nat.eqb_refl.
    split; reflexivity. }
  pose proof (prompt_targets_returns config w2) as Ht.
  pose proof (prompt_targets_addresses config w2) as [Ht1 Ht2].
  destruct (prompt_targets config w2) as [[rt et] w3] eqn:Et.
  unfold value, world in Ht, Ht1, Ht2. cbn [fst snd] in Ht, Ht1, Ht2.
  subst rt.
  rewrite (bind_returned (prompt_targets config) k w2 _ _ _ Et).
  unfold k. cbv beta. estep.
  pose proof (prompt_ids_returned config w3) as Hi.
  pose proof (prompt_ids_addresses config w3) as [Hi1 Hi2].
  destruct (prompt_ids config w3) as [[ri ei] w4] eqn:Ei.
  unfold value, world in Hi, Hi1, Hi2. cbn [fst snd] in Hi, Hi1, Hi2.
  destruct Hw2 as [Hl Hr].
  destruct ri as [[] | e].
  - rewrite (bind_returned (prompt_ids config) _ _ _ _ _ Ei).
    cbv beta. estep. rewrite !value_prepend, !world_prepend.
    cbn [value world fst snd ret].
    rewrite Hi1, Hi2, Ht1, Ht2, Hl, Hr.
    repeat split; auto.
  - rewrite (bind_raised (prompt_ids config) _ _ _ _ _ Ei).
    rewrite !value_prepend, !world_prepend.
    cbn [value world fst snd].
    rewrite Hi1, Hi2, Ht1, Ht2, Hl, Hr.
    repeat split; auto.
Qed.

End Editor.

(* ===================================================================== *)
(** ** The forwards menu *)
(* ===================================================================== *)

Section Bounds.
Context {H : Type} {HO : HostOps H}.
Variable R : (Ref -> TunnelConfig) -> (Ref -> TunnelConfig) -> Prop.
Variable P : Event -> bool.
Hypothesis R_refl : forall hp, R hp hp.
Hypothesis R_trans : forall a b c, R a b -> R b c -> R a c.

















Hypothesis P_systemctl :
  forall cmd ok, String.prefix "systemctl " cmd = true ->
                 P (EvRun cmd ok) = true.
Hypothesis P_template :
  forall content ok, P (EvWrite _get_template_path content ok) = true.
Hypothesis P_print : forall line, P (EvPrint line) = true.
Hypothesis P_ui : forall call, P (EvUi call) = true.










Section Registered.
Variable self : Ref.
Hypothesis R_add :
  forall (w : World H) port,
    R (heap w) (heap (update self (add_port (heap w self) port) w)).
Hypothesis R_remove :
  forall (w : World H) port,
    R (heap w) (heap (update self (remove_port (heap w self) port) w)).





Context {MO : MenuOps H} {RO : Renderer}.
Import ForwardsMenu.





End Registered.
End Bounds.

Section ForwardsMenuSession.
Context {H : Type} {HO : HostOps H} {MO : MenuOps H} {RO : Renderer}.
Import ForwardsMenu.





















End ForwardsMenuSession.

(* ===================================================================== *)
(** ** More runs on the scripted host *)
(* ===================================================================== *)

Section MoreScenarios.

Lemma add_multiple_forwards_all_rejected_witness :
  forallb rejected (port_tokens "0,abc,70000,-1") = true /\
  @add_multiple_forwards nat (scripted happy) O "0,abc,70000,-1" boot_world
  = (Returned (true, join nl ["Port 0: Invalid port number";
                              "'abc': Invalid port number";
                              "Port 70000: Invalid port number";
                              "Port -1: Invalid port number"]),
     [], boot_world).
Proof.
  split; [reflexivity |].
  apply (@add_multiple_forwards_all_rejected nat (scripted happy) O
           "0,abc,70000,-1" boot_world eq_refl).
Defined.

Lemma create_forward_template_present_witness :
  @path_exists nat (scripted happy) _get_template_path (host boot_world)
  = true /\
  exists ok msg w1,
    @create_forward nat (scripted happy) O 443 boot_world
    = (Returned (ok, msg), [EvRun (enable_cmd 443) ok], w1).
Proof.
  split; [reflexivity |].
  destruct (@create_forward_template_present nat (scripted happy) O 443
              boot_world eq_refl) as (ok & msg & w1 & E & _).
  exists ok, msg, w1. exact E.
Defined.

Lemma create_forward_without_target_witness :
  @path_exists nat (scripted read_only) _get_template_path (host mixed_world)
  = false /\
  str_truthy (remote_forward_ip (heap mixed_world O)) = false /\
  @create_forward nat (scripted read_only) O 443 mixed_world
  = (Returned (false, "Failed to install template: "
                      +++ "Remote forward IP not configured"),
     [], mixed_world).
Proof.
  split; [reflexivity |]. split; [reflexivity |].
  apply (@create_forward_without_target nat (scripted read_only) O 443
           mixed_world eq_refl eq_refl).
Defined.

Lemma add_multiple_forwards_commands_witness :
  In (enable_cmd 80)
     (commands (events (@add_multiple_forwards nat (scripted happy) O
                          "80,70000" boot_world))) /\
  (enable_cmd 80 = "systemctl daemon-reload" \/
   exists token port,
     In token (port_tokens "80,70000") /\ int_of_str token = Some port /\
     1 <= port <= 65535 /\ enable_cmd 80 = enable_cmd port).
Proof.
  assert (Hin : In (enable_cmd 80)
                  (commands (events (@add_multiple_forwards nat
                     (scripted happy) O "80,70000" boot_world)))).
  { left. reflexivity. }
  split; [exact Hin |].
  apply (@add_multiple_forwards_commands nat (scripted happy) O "80,70000"
           (enable_cmd 80) boot_world Hin).
Defined.

Lemma update_template_sets_target_witness :
  "10.0.0.9" <> "" /\
  remote_forward_ip
    (heap (world (@update_template nat (scripted read_only) O
                    (Some "10.0.0.9") boot_world)) O)
  = Some "10.0.0.9".
Proof.
  assert (Hne : "10.0.0.9" <> "") by discriminate.
  split; [exact Hne |].
  apply (@update_template_sets_target nat (scripted read_only) O "10.0.0.9"
           boot_world Hne).
Defined.

Lemma cmd_apply_without_ports_witness :
  (forall t, In t [O] -> forwarded_ports (heap mixed_world t) = []) /\
  commands (events (@cmd_apply nat (scripted happy) [O] mixed_world)) = [].
Proof.
  assert (Hall : forall t, In t [O] ->
                   forwarded_ports (heap mixed_world t) = []).
  { intros t [<- | []]. reflexivity. }
  split; [exact Hall |].
  apply (@cmd_apply_without_ports nat (scripted happy) [O] mixed_world Hall).
Defined.

Lemma batch_of_one_port_witness :
  in_range 8080 = true /\
  exists ok msg evs w1,
    @create_forward nat (scripted happy) O 8080 boot_world
    = (Returned (ok, msg), evs, w1) /\
    @add_multiple_forwards nat (scripted happy) O "8080" boot_world
    = (Returned (true, port_line 8080 msg), evs, w1).
Proof.
  split; [reflexivity |].
  apply (@batch_of_one_port nat (scripted happy) O 8080 boot_world eq_refl).
Defined.

Lemma prompt_select_tunnel_member_witness :
  value (@Ui.prompt_select_tunnel nat
           (menu_script true (fun _ _ => Some "2")) ["b"; "a"] boot_world)
  = Returned (Some "a") /\
  In "a" ["b"; "a"] /\
  exists choice,
    fst (@prompt_ask nat (menu_script true (fun _ _ => Some "2"))
           (nl +++ "[bold cyan]Select tunnel[/]") (Some "0")
           (host boot_world)) = Some choice /\
    match int_of_str choice with
    | Some idx =>
        1 <= idx <= Z.of_nat (length ["b"; "a"]) /\
        nth_error ["b"; "a"] (Z.to_nat (idx - 1)) = Some "a"
    | None => "a" = choice
    end.
Proof.
  assert (Hv : value (@Ui.prompt_select_tunnel nat
                        (menu_script true (fun _ _ => Some "2"))
                        ["b"; "a"] boot_world)
               = Returned (Some "a")) by reflexivity.
  split; [exact Hv |].
  apply (@prompt_select_tunnel_member nat
           (menu_script true (fun _ _ => Some "2")) ["b"; "a"] boot_world
           "a" Hv).
Defined.



(** The operator chooses to add forwards and types [[/x]]: the batch
    rejects the token, its report echoes it, and the rendering of the
    report raises out of the round, with nothing run but the two queries
    and the port set as it was. *)
Example forwards_menu_report_raises :
  value (@ForwardsMenu.forwards_menu_round nat (scripted happy) tag_typist
           strict_tables O boot_world)
  = Raised "closing tag does not match any open tag" /\
  commands (events (@ForwardsMenu.forwards_menu_round nat (scripted happy)
                      tag_typist strict_tables O boot_world))
  = [active_cmd 80; enabled_cmd 80] /\
  shown (events (@ForwardsMenu.forwards_menu_round nat (scripted happy)
                   tag_typist strict_tables O boot_world)) = [] /\
  forwarded_ports
    (heap (world (@ForwardsMenu.forwards_menu_round nat (scripted happy)
                    tag_typist strict_tables O boot_world)) O) = [80].
Proof. repeat split. Qed.

End MoreScenarios.
